(** * Smart-glasses guidance pipeline: tracker, matching, navigation,
      fusion policy, buses and control state

    A shallow embedding of the core of the repository:

    - [modules/tracker/matching.py]   ([compute_iou], [match_detections_to_tracks])
    - [modules/tracker/tracker.py]    ([Track], [Tracker])
    - [modules/tracker/module.py]     (one iteration of [_process_detections])
    - [modules/navigation/spatial.py] ([analyze_direction], [analyze_zone],
                                       [analyze_movement], [compute_urgency])
    - [modules/fusion/policy.py]      ([FusionPolicy])
    - [core_platform/frame_bus.py], [core_platform/result_bus.py]
    - [core_platform/control_state.py]

    Conventions.  Python [int] is [Z].  Python [str] is [string].  Python
    [float] arithmetic is an interface ([PyFloat]) with two instances: exact
    rationals [Q] (idealised arithmetic, used for the general theorems) and
    IEEE-754 binary64 ([PrimFloat.float], what CPython computes, used to
    evaluate concrete runs).  A Python [dict] is an insertion-ordered
    association list with unique keys ([dict_set] overwrites in place).  A
    Python [set] is a duplicate-free list whose iteration order is not fixed by
    the language: [list(s)] goes through a [SetIteration] parameter. *)

From Stdlib Require Import ZArith QArith Qminmax Lia Lqa Bool List String Ascii.
From Stdlib Require Import Permutation Sorted.
From Stdlib Require PrimFloat Uint63.
Import ListNotations.

Set Implicit Arguments.

(* ================================================================== *)
(** * Part I.  The model                                                *)
(* ================================================================== *)

(** ** Python float arithmetic *)

Class PyFloat (F : Type) : Type := {
  fadd : F -> F -> F;
  fsub : F -> F -> F;
  fmul : F -> F -> F;
  fdiv : F -> F -> F;
  flt  : F -> F -> bool;   (* a < b  *)
  fle  : F -> F -> bool;   (* a <= b *)
  feq  : F -> F -> bool;   (* a == b *)
  flit : Z -> positive -> F (* the decimal literal n/d, e.g. 0.33 = 33/100 *)
}.

Definition fgt {F} `{PyFloat F} (a b : F) : bool := flt b a.   (* a > b  *)
Definition fge {F} `{PyFloat F} (a b : F) : bool := fle b a.   (* a >= b *)

(** Exact rational arithmetic. *)
Definition Qltb (a b : Q) : bool := negb (Qle_bool b a).

#[export] Instance PyFloat_Q : PyFloat Q := {|
  fadd := Qplus; fsub := Qminus; fmul := Qmult; fdiv := Qdiv;
  flt := Qltb; fle := Qle_bool; feq := Qeq_bool;
  flit := fun n d => Qmake n d
|}.

(** IEEE-754 binary64, as in CPython.  A decimal literal [n/d] with [n] and
    [d] below 2^53 is the correctly rounded quotient of two exactly
    representable integers, which is the float CPython parses it to. *)
Definition float_of_Z (z : Z) : PrimFloat.float :=
  match z with
  | Zneg p => PrimFloat.opp (PrimFloat.of_uint63 (Uint63.of_Z (Zpos p)))
  | _ => PrimFloat.of_uint63 (Uint63.of_Z z)
  end.

#[export] Instance PyFloat_binary64 : PyFloat PrimFloat.float := {|
  fadd := PrimFloat.add; fsub := PrimFloat.sub;
  fmul := PrimFloat.mul; fdiv := PrimFloat.div;
  flt := PrimFloat.ltb; fle := PrimFloat.leb; feq := PrimFloat.eqb;
  flit := fun n d => PrimFloat.div (float_of_Z n) (float_of_Z (Zpos d))
|}.

(** The builtins [max(a, b)] and [min(a, b)] on two arguments: the first
    argument is kept unless the second is strictly greater (smaller). *)
Definition py_max {F} `{PyFloat F} (a b : F) : F := if fgt b a then b else a.
Definition py_min {F} `{PyFloat F} (a b : F) : F := if flt b a then b else a.

(** A bounding box is the tuple [(x, y, w, h)]. *)
Definition BBox (F : Type) : Type := (F * F * F * F)%type.

(** ** Python dicts and sets *)

Class EqKey (K : Type) : Type := {
  keqb : K -> K -> bool;
  keqb_spec : forall a b, reflect (a = b) (keqb a b)
}.

#[export] Instance EqKey_Z : EqKey Z :=
  {| keqb := Z.eqb; keqb_spec := Z.eqb_spec |}.

#[export] Instance EqKey_string : EqKey string :=
  {| keqb := String.eqb; keqb_spec := String.eqb_spec |}.

Lemma pair_eqb_spec {A B} `{EqKey A} `{EqKey B} (p q : A * B) :
  reflect (p = q) (keqb (fst p) (fst q) && keqb (snd p) (snd q)).
Proof.
  destruct p as [a b], q as [c d]; simpl.
  destruct (keqb_spec a c), (keqb_spec b d); simpl; constructor; congruence.
Qed.

#[export] Instance EqKey_pair {A B} `{EqKey A} `{EqKey B} : EqKey (A * B) :=
  {| keqb := fun p q => keqb (fst p) (fst q) && keqb (snd p) (snd q);
     keqb_spec := pair_eqb_spec |}.

Definition dict (K V : Type) : Type := list (K * V).

Section Dict.
Context {K V : Type} `{EqKey K}.

(** [d.get(k)] *)
Fixpoint dict_get (k : K) (d : dict K V) : option V :=
  match d with
  | [] => None
  | (k', v) :: d' => if keqb k k' then Some v else dict_get k d'
  end.

(** [k in d] *)
Definition dict_mem (k : K) (d : dict K V) : bool :=
  match dict_get k d with Some _ => true | None => false end.

(** [d[k] = v]: an existing key keeps its position, a new key goes last. *)
Fixpoint dict_set (k : K) (v : V) (d : dict K V) : dict K V :=
  match d with
  | [] => [(k, v)]
  | (k', v') :: d' =>
      if keqb k k' then (k', v) :: d' else (k', v') :: dict_set k v d'
  end.

(** [del d[k]] *)
Fixpoint dict_del (k : K) (d : dict K V) : dict K V :=
  match d with
  | [] => []
  | (k', v') :: d' => if keqb k k' then d' else (k', v') :: dict_del k d'
  end.

Definition dict_keys (d : dict K V) : list K := map fst d.
Definition dict_values (d : dict K V) : list V := map snd d.

End Dict.

Section PySet.
Context {K : Type} `{EqKey K}.

(** [k in s] *)
Fixpoint set_mem (k : K) (s : list K) : bool :=
  match s with
  | [] => false
  | k' :: s' => keqb k k' || set_mem k s'
  end.

(** [s.add(k)] *)
Definition set_add (k : K) (s : list K) : list K :=
  if set_mem k s then s else s ++ [k].

(** [set(l)] *)
Definition set_of_list (l : list K) : list K :=
  fold_left (fun s k => set_add k s) l [].

(** [s - t] *)
Definition set_diff (s t : list K) : list K :=
  filter (fun k => negb (set_mem k t)) s.

End PySet.

(** [list(s)] for a set [s] of ints: some enumeration of its elements. *)
Record SetIteration : Type := {
  set_order : list Z -> list Z;
  set_order_perm : forall s, Permutation (set_order s) s
}.

Definition insertion_order : SetIteration :=
  {| set_order := fun s => s; set_order_perm := @Permutation_refl Z |}.

(** ** modules/tracker/matching.py *)

Module Matching.
Section WithFloat.
Context {F : Type} `{PyFloat F}.

Definition compute_iou (bbox1 bbox2 : BBox F) : F :=
  let '(x1, y1, w1, h1) := bbox1 in
  let '(x2, y2, w2, h2) := bbox2 in
  let box1_x1 := x1 in let box1_y1 := y1 in
  let box1_x2 := fadd x1 w1 in let box1_y2 := fadd y1 h1 in
  let box2_x1 := x2 in let box2_y1 := y2 in
  let box2_x2 := fadd x2 w2 in let box2_y2 := fadd y2 h2 in
  let inter_x1 := py_max box1_x1 box2_x1 in
  let inter_y1 := py_max box1_y1 box2_y1 in
  let inter_x2 := py_min box1_x2 box2_x2 in
  let inter_y2 := py_min box1_y2 box2_y2 in
  if fle inter_x2 inter_x1 || fle inter_y2 inter_y1 then flit 0 1
  else
    let inter_area := fmul (fsub inter_x2 inter_x1) (fsub inter_y2 inter_y1) in
    let box1_area := fmul w1 h1 in
    let box2_area := fmul w2 h2 in
    let union_area := fsub (fadd box1_area box2_area) inter_area in
    if feq union_area (flit 0 1) then flit 0 1
    else fdiv inter_area union_area.

(** [sorted(items, key=lambda x: x[1], reverse=True)]: a stable sort into
    descending key order (equal keys keep their original relative order). *)
Fixpoint insert_desc {K : Type} (x : K * F) (l : list (K * F)) : list (K * F) :=
  match l with
  | [] => [x]
  | y :: l' => if flt (snd x) (snd y) then y :: insert_desc x l' else x :: l
  end.

Fixpoint sorted_desc {K : Type} (l : list (K * F)) : list (K * F) :=
  match l with
  | [] => []
  | x :: l' => insert_desc x (sorted_desc l')
  end.

(** The two nested loops that fill [iou_matrix]. *)
Definition iou_row (iou_threshold : F) (det_idx : Z) (det_bbox : BBox F)
    (tracks : dict Z (BBox F)) (m : dict (Z * Z) F) : dict (Z * Z) F :=
  fold_left
    (fun m (tr : Z * BBox F) =>
       let '(track_id, track_bbox) := tr in
       let iou := compute_iou det_bbox track_bbox in
       if fge iou iou_threshold then dict_set (det_idx, track_id) iou m else m)
    tracks m.

Definition iou_matrix_of (detections : list (Z * BBox F))
    (tracks : dict Z (BBox F)) (iou_threshold : F) : dict (Z * Z) F :=
  fold_left
    (fun m (d : Z * BBox F) => iou_row iou_threshold (fst d) (snd d) tracks m)
    detections [].

(** The greedy loop over [sorted_pairs]; the state is
    [(matches, matched_detections, matched_tracks)]. *)
Definition greedy_step (st : dict Z Z * list Z * list Z) (p : Z * Z * F)
    : dict Z Z * list Z * list Z :=
  let '(matches, matched_detections, matched_tracks) := st in
  let '((det_idx, track_id), _) := p in
  if negb (set_mem det_idx matched_detections)
     && negb (set_mem track_id matched_tracks)
  then (dict_set det_idx track_id matches,
        set_add det_idx matched_detections,
        set_add track_id matched_tracks)
  else st.

Definition greedy (sorted_pairs : list (Z * Z * F))
    : dict Z Z * list Z * list Z :=
  fold_left greedy_step sorted_pairs ([], [], []).

Definition match_detections_to_tracks (so : SetIteration)
    (detections : list (Z * BBox F)) (tracks : dict Z (BBox F))
    (iou_threshold : F) : dict Z Z * list Z * list Z :=
  match detections, tracks with
  | [], _ | _, [] => ([], map fst detections, dict_keys tracks)
  | _, _ =>
      let iou_matrix := iou_matrix_of detections tracks iou_threshold in
      let sorted_pairs := sorted_desc iou_matrix in
      let '(matches, matched_detections, matched_tracks) :=
        greedy sorted_pairs in
      let all_det_indices := set_of_list (map fst detections) in
      let all_track_ids := set_of_list (dict_keys tracks) in
      let unmatched_detections :=
        set_order so (set_diff all_det_indices matched_detections) in
      let unmatched_tracks :=
        set_order so (set_diff all_track_ids matched_tracks) in
      (matches, unmatched_detections, unmatched_tracks)
  end.

End WithFloat.
End Matching.


(** ** Exceptions *)

Inductive exn : Type := KeyError | IndexError | QueueFull | QueueEmpty.

Inductive result (A : Type) : Type :=
| Ok (a : A)
| Raise (e : exn).
Arguments Ok {A} a.
Arguments Raise {A} e.

Definition bind {A B} (r : result A) (k : A -> result B) : result B :=
  match r with Ok a => k a | Raise e => Raise e end.

Notation "x <- e ;; k" := (bind e (fun x => k))
  (at level 61, e at next level, right associativity).
Notation "' p <- e ;; k" := (bind e (fun x => let 'p := x in k))
  (at level 61, p pattern, e at next level, right associativity).

(** [for x in l: acc = body(acc, x)] where [body] may raise. *)
Fixpoint for_each {A S} (body : S -> A -> result S) (l : list A) (s : S)
    : result S :=
  match l with
  | [] => Ok s
  | x :: l' => s' <- body s x ;; for_each body l' s'
  end.

(** [l[i]] with Python's negative indices. *)
Definition py_index {A} (l : list A) (i : Z) : result A :=
  let n := Z.of_nat (List.length l) in
  let j := if (i <? 0)%Z then (i + n)%Z else i in
  if ((j <? 0) || (n <=? j))%Z then Raise IndexError
  else match nth_error l (Z.to_nat j) with
       | Some a => Ok a
       | None => Raise IndexError
       end.

(** [enumerate(l)] *)
Fixpoint enumerate_from {A} (i : Z) (l : list A) : list (Z * A) :=
  match l with
  | [] => []
  | a :: l' => (i, a) :: enumerate_from (i + 1) l'
  end.

Definition enumerate {A} (l : list A) : list (Z * A) := enumerate_from 0 l.

(** ** contracts/schemas.py *)

Record Detection (F : Type) : Type := {
  det_label : string;
  det_confidence : F;
  det_bbox : BBox F
}.

Record DetectionResult (F : Type) : Type := {
  dr_frame_id : Z;
  dr_timestamp_ms : Z;
  dr_objects : list (Detection F)
}.

Record TrackUpdate (F : Type) : Type := {
  tu_track_id : Z;
  tu_frame_id : Z;
  tu_timestamp_ms : Z;
  tu_label : string;
  tu_bbox : BBox F;
  tu_stable : bool;
  tu_velocity : option (F * F)
}.

(** ** modules/tracker/tracker.py *)

Record HistoryEntry (F : Type) : Type := {
  h_bbox : BBox F;
  h_frame_id : Z;
  h_timestamp_ms : Z
}.

(** [deque(maxlen=n).append(x)] *)
Definition deque_append {A} (maxlen : nat) (d : list A) (x : A) : list A :=
  if (maxlen <=? List.length d)%nat then tl d ++ [x] else d ++ [x].

Module Track.
Section WithFloat.
Context {F : Type} `{PyFloat F}.

Record t : Type := {
  track_id : Z;
  label : string;
  bbox : BBox F;
  history : list (HistoryEntry F);
  consecutive_hits : Z;
  frames_since_update : Z;
  stable : bool
}.

(** [Track(track_id=.., label=.., bbox=..)] with the dataclass defaults. *)
Definition new (track_id : Z) (label : string) (bbox : BBox F) : t :=
  {| track_id := track_id; label := label; bbox := bbox; history := [];
     consecutive_hits := 0; frames_since_update := 0; stable := false |}.

Definition update (self : t) (bbox : BBox F)
    (frame_id timestamp_ms : Z) : t :=
  let consecutive_hits := (consecutive_hits self + 1)%Z in
  {| track_id := track_id self;
     label := label self;
     bbox := bbox;
     history := deque_append 5 (history self)
                  {| h_bbox := bbox; h_frame_id := frame_id;
                     h_timestamp_ms := timestamp_ms |};
     consecutive_hits := consecutive_hits;
     frames_since_update := 0;
     stable := if (3 <=? consecutive_hits)%Z then true else stable self |}.

Definition mark_missed (self : t) : t :=
  {| track_id := track_id self;
     label := label self;
     bbox := bbox self;
     history := history self;
     consecutive_hits := 0;
     frames_since_update := (frames_since_update self + 1)%Z;
     stable := stable self |}.

Definition compute_velocity (self : t) : option (F * F) :=
  match rev (history self) with
  | recent :: prev :: _ =>
      let '(rx, ry, rw, rh) := h_bbox recent in
      let '(px, py, pw, ph) := h_bbox prev in
      let rcx := fadd rx (fdiv rw (flit 2 1)) in
      let rcy := fadd ry (fdiv rh (flit 2 1)) in
      let pcx := fadd px (fdiv pw (flit 2 1)) in
      let pcy := fadd py (fdiv ph (flit 2 1)) in
      Some (fsub rcx pcx, fsub rcy pcy)
  | _ => None
  end.

End WithFloat.
Arguments t F : clear implicits.
End Track.

Module Tracker.
Section WithFloat.
Context {F : Type} `{PyFloat F}.

Record t : Type := {
  max_age : Z;
  next_track_id : Z;
  tracks : dict Z (Track.t F)
}.

(** [Tracker(max_age)] *)
Definition init (max_age : Z) : t :=
  {| max_age := max_age; next_track_id := 1; tracks := [] |}.

Definition get_track (self : t) (track_id : Z) : option (Track.t F) :=
  dict_get track_id (tracks self).

Definition create_track (self : t) (label : string) (bbox : BBox F)
    (frame_id timestamp_ms : Z) : t * Track.t F :=
  let track := Track.new (next_track_id self) label bbox in
  let track := Track.update track bbox frame_id timestamp_ms in
  ({| max_age := max_age self;
      next_track_id := (next_track_id self + 1)%Z;
      tracks := dict_set (Track.track_id track) track (tracks self) |},
   track).

Definition update_track (self : t) (track_id : Z) (bbox : BBox F)
    (frame_id timestamp_ms : Z) : result (t * Track.t F) :=
  match dict_get track_id (tracks self) with
  | None => Raise KeyError
  | Some track =>
      let track := Track.update track bbox frame_id timestamp_ms in
      Ok ({| max_age := max_age self;
             next_track_id := next_track_id self;
             tracks := dict_set track_id track (tracks self) |},
          track)
  end.

Definition mark_missed_tracks (self : t) (matched_track_ids : list Z) : t :=
  {| max_age := max_age self;
     next_track_id := next_track_id self;
     tracks :=
       map (fun kv : Z * Track.t F =>
              if negb (set_mem (fst kv) matched_track_ids)
              then (fst kv, Track.mark_missed (snd kv)) else kv)
           (tracks self) |}.

(** Returns the new state and the list [evicted]. *)
Definition evict_old_tracks (self : t) : t * list Z :=
  ({| max_age := max_age self;
      next_track_id := next_track_id self;
      tracks :=
        filter (fun kv : Z * Track.t F =>
                  negb (max_age self <? Track.frames_since_update (snd kv))%Z)
               (tracks self) |},
   map fst
     (filter (fun kv : Z * Track.t F =>
                (max_age self <? Track.frames_since_update (snd kv))%Z)
             (tracks self))).

Definition get_active_tracks (self : t) : dict Z (BBox F) :=
  map (fun kv : Z * Track.t F => (fst kv, Track.bbox (snd kv))) (tracks self).

End WithFloat.
Arguments t F : clear implicits.
End Tracker.

(** ** modules/tracker/module.py *)

Module TrackerModule.
Section WithFloat.
Context {F : Type} `{PyFloat F}.

(** [_publish_track_update]: the event handed to [result_bus.publish]. *)
Definition publish_track_update (track : Track.t F)
    (frame_id timestamp_ms : Z) : TrackUpdate F :=
  {| tu_track_id := Track.track_id track;
     tu_frame_id := frame_id;
     tu_timestamp_ms := timestamp_ms;
     tu_label := Track.label track;
     tu_bbox := Track.bbox track;
     tu_stable := Track.stable track;
     tu_velocity := Track.compute_velocity track |}.

(** The state threaded through one loop iteration: the tracker and the
    events published so far, in publication order. *)
Definition st : Type := (Tracker.t F * list (TrackUpdate F))%type.

Definition update_matched (event : DetectionResult F) (s : st) (m : Z * Z)
    : result st :=
  let '(det_idx, track_id) := m in
  detection <- py_index (dr_objects event) det_idx ;;
  '(tracker, track) <-
     Tracker.update_track (fst s) track_id (det_bbox detection)
       (dr_frame_id event) (dr_timestamp_ms event) ;;
  Ok (tracker,
      snd s ++ [publish_track_update track (dr_frame_id event)
                  (dr_timestamp_ms event)]).

Definition create_unmatched (event : DetectionResult F) (s : st) (det_idx : Z)
    : result st :=
  detection <- py_index (dr_objects event) det_idx ;;
  let '(tracker, track) :=
    Tracker.create_track (fst s) (det_label detection) (det_bbox detection)
      (dr_frame_id event) (dr_timestamp_ms event) in
  Ok (tracker,
      snd s ++ [publish_track_update track (dr_frame_id event)
                  (dr_timestamp_ms event)]).

(** The body of the [async for event in ...] loop of [_process_detections]:
    [iou_threshold] is [control_state.tracker_iou_threshold] as read in this
    iteration.  The result is the tracker after the iteration and the
    [TrackUpdate]s published during it; [Raise] is an exception escaping to
    the [except Exception] handler of the loop. *)
Definition process_detections (so : SetIteration) (iou_threshold : F)
    (tracker : Tracker.t F) (event : DetectionResult F) : result st :=
  let detections :=
    map (fun p : Z * Detection F => (fst p, det_bbox (snd p)))
        (enumerate (dr_objects event)) in
  let active_tracks := Tracker.get_active_tracks tracker in
  let '(matches, unmatched_dets, unmatched_tracks) :=
    Matching.match_detections_to_tracks so detections active_tracks
      iou_threshold in
  let matched_track_ids := set_of_list (dict_values matches) in
  s <- for_each (update_matched event) matches (tracker, []) ;;
  s <- for_each (create_unmatched event) unmatched_dets s ;;
  let tracker := Tracker.mark_missed_tracks (fst s) matched_track_ids in
  let '(tracker, evicted) := Tracker.evict_old_tracks tracker in
  Ok (tracker, snd s).

(** [TrackerModule.__init__] *)
Definition init : Tracker.t F := Tracker.init 30.

End WithFloat.
End TrackerModule.

(** ** modules/navigation/spatial.py *)

Module Spatial.
Section WithFloat.
Context {F : Type} `{PyFloat F}.

Definition analyze_direction (bbox : BBox F) : string :=
  let '(x, y, w, h) := bbox in
  let center_x := fadd x (fdiv w (flit 2 1)) in
  if flt center_x (flit 33 100) then "left"
  else if flt center_x (flit 66 100) then "center"
  else "right".

Definition analyze_zone (bbox : BBox F) : string :=
  let '(x, y, w, h) := bbox in
  let area := fmul w h in
  if fgt area (flit 15 100) then "near"
  else if fgt area (flit 5 100) then "mid"
  else "far".

Definition analyze_movement (current_bbox : BBox F)
    (history : list (HistoryEntry F)) : string :=
  match rev history with
  | _ :: prev :: _ =>                     (* len(history) >= 2; history[-2] *)
      let prev_bbox := h_bbox prev in
      let '(_, _, cw, ch) := current_bbox in
      let '(_, _, pw, ph) := prev_bbox in
      let current_area := fmul cw ch in
      let prev_area := fmul pw ph in
      if fgt current_area (fmul prev_area (flit 105 100)) then "approaching"
      else if flt current_area (fmul prev_area (flit 95 100)) then "receding"
      else "stationary"
  | _ => "stationary"                     (* len(history) < 2 *)
  end.

End WithFloat.

Definition compute_urgency (zone movement : string) : string :=
  if ((zone =? "near") && (movement =? "approaching"))%string then "critical"
  else if (zone =? "near")%string then "high"
  else if ((zone =? "mid") && (movement =? "approaching"))%string then "medium"
  else "low".

End Spatial.

(** ** modules/fusion/policy.py *)

Module FusionPolicy.

Record t : Type := {
  last_announced : dict Z Z;       (* track_id -> timestamp_ms *)
  announcement_count : Z
}.

Definition init : t := {| last_announced := []; announcement_count := 0 |}.

Definition should_announce (self : t) (track_id timestamp_ms : Z)
    (urgency : string) (stable : bool) (cooldown_ms : Z) : bool :=
  if (urgency =? "critical")%string then true
  else if negb stable then false
  else
    match dict_get track_id (last_announced self) with
    | Some last =>
        let elapsed := (timestamp_ms - last)%Z in
        if (elapsed <? cooldown_ms)%Z then false else true
    | None => true
    end.

Definition record_announcement (self : t) (track_id timestamp_ms : Z) : t :=
  {| last_announced := dict_set track_id timestamp_ms (last_announced self);
     announcement_count := (announcement_count self + 1)%Z |}.

Definition get_priority (urgency : string) : Z :=
  match dict_get urgency
          [("critical", 1); ("high", 2); ("medium", 3); ("low", 4)]%Z%string
  with
  | Some p => p
  | None => 5
  end.

Definition get_announcement_kind (label : string) : string :=
  if (existsb (String.eqb label) ["hazard"; "obstacle"])%string then "hazard"
  else if (existsb (String.eqb label) ["person"; "vehicle"])%string
       then "object"
  else "navigation".

End FusionPolicy.

(** ** asyncio.Queue *)

Module AsyncQueue.
Section WithItem.
Context {A : Type}.

Record t : Type := { maxsize : Z; items : list A }.

(** [asyncio.Queue(maxsize=n)] *)
Definition new (n : Z) : t := {| maxsize := n; items := [] |}.

Definition qsize (q : t) : Z := Z.of_nat (List.length (items q)).

Definition empty (q : t) : bool :=
  match items q with [] => true | _ => false end.

(** A queue with [maxsize <= 0] is unbounded. *)
Definition full (q : t) : bool :=
  if (maxsize q <=? 0)%Z then false else (maxsize q <=? qsize q)%Z.

Definition put_nowait (q : t) (item : A) : result t :=
  if full q then Raise QueueFull
  else Ok {| maxsize := maxsize q; items := items q ++ [item] |}.

Definition get_nowait (q : t) : result (A * t) :=
  match items q with
  | [] => Raise QueueEmpty
  | a :: rest => Ok (a, {| maxsize := maxsize q; items := rest |})
  end.

End WithItem.
Arguments t A : clear implicits.
End AsyncQueue.

(** ** core_platform/frame_bus.py

    A queue holds [Some frame] for a frame and [None] for the shutdown
    sentinel. *)

Module FrameBus.
Section WithFrame.
Context {FramePacket : Type}.

Record t : Type := {
  queue_size : Z;
  subscribers : list (AsyncQueue.t (option FramePacket));
  frame_count : Z;
  dropped_count : Z
}.

(** [FrameBus(queue_size)] *)
Definition init (queue_size : Z) : t :=
  {| queue_size := queue_size; subscribers := [];
     frame_count := 0; dropped_count := 0 |}.

(** The body of the [for queue in self.subscribers] loop of [publish]; the
    state is the queue and [_dropped_count]. *)
Definition publish_one (queue_size : Z) (frame : FramePacket)
    (queue : AsyncQueue.t (option FramePacket)) (dropped : Z)
    : AsyncQueue.t (option FramePacket) * Z :=
  let '(queue, dropped) :=
    if (queue_size <=? AsyncQueue.qsize queue)%Z then
      match AsyncQueue.get_nowait queue with
      | Ok (_, queue') => (queue', (dropped + 1)%Z)
      | Raise _ => (queue, dropped)
      end
    else (queue, dropped) in
  match AsyncQueue.put_nowait queue (Some frame) with
  | Ok queue' => (queue', dropped)
  | Raise _ => (queue, (dropped + 1)%Z)
  end.

Fixpoint publish_all (queue_size : Z) (frame : FramePacket)
    (qs : list (AsyncQueue.t (option FramePacket))) (dropped : Z)
    : list (AsyncQueue.t (option FramePacket)) * Z :=
  match qs with
  | [] => ([], dropped)
  | q :: qs' =>
      let '(q', dropped) := publish_one queue_size frame q dropped in
      let '(qs'', dropped) := publish_all queue_size frame qs' dropped in
      (q' :: qs'', dropped)
  end.

Definition publish (self : t) (frame : FramePacket) : t :=
  let '(subs, dropped) :=
    publish_all (queue_size self) frame (subscribers self)
      (dropped_count self) in
  {| queue_size := queue_size self; subscribers := subs;
     frame_count := (frame_count self + 1)%Z; dropped_count := dropped |}.

(** The registration done when [subscribe()] is first iterated. *)
Definition subscribe (self : t) : t :=
  {| queue_size := queue_size self;
     subscribers := subscribers self ++ [AsyncQueue.new (queue_size self)];
     frame_count := frame_count self; dropped_count := dropped_count self |}.

(** [try: queue.put_nowait(None) except asyncio.QueueFull: pass] *)
Definition signal (queue : AsyncQueue.t (option FramePacket))
    : AsyncQueue.t (option FramePacket) :=
  match AsyncQueue.put_nowait queue None with
  | Ok queue' => queue'
  | Raise _ => queue
  end.

Definition shutdown (self : t) : t :=
  {| queue_size := queue_size self;
     subscribers := map signal (subscribers self);
     frame_count := frame_count self; dropped_count := dropped_count self |}.

End WithFrame.
Arguments t FramePacket : clear implicits.
End FrameBus.

(** ** core_platform/result_bus.py *)

Module ResultBus.
Section WithEvent.
Context {Event : Type}.

Record t : Type := {
  queue_size : Z;
  subscribers : list (AsyncQueue.t (option Event));
  event_count : Z
}.

(** [ResultBus(queue_size)] *)
Definition init (queue_size : Z) : t :=
  {| queue_size := queue_size; subscribers := []; event_count := 0 |}.

(** [try: queue.put_nowait(event) except asyncio.QueueFull: (log)] *)
Definition publish_one (event : Event) (queue : AsyncQueue.t (option Event))
    : AsyncQueue.t (option Event) :=
  match AsyncQueue.put_nowait queue (Some event) with
  | Ok queue' => queue'
  | Raise _ => queue
  end.

Definition publish (self : t) (event : Event) : t :=
  {| queue_size := queue_size self;
     subscribers := map (publish_one event) (subscribers self);
     event_count := (event_count self + 1)%Z |}.

(** The registration done when [subscribe_all()] is first iterated. *)
Definition subscribe_all (self : t) : t :=
  {| queue_size := queue_size self;
     subscribers := subscribers self ++ [AsyncQueue.new (queue_size self)];
     event_count := event_count self |}.

(** [try: queue.put_nowait(None) except asyncio.QueueFull: pass] *)
Definition signal (queue : AsyncQueue.t (option Event))
    : AsyncQueue.t (option Event) :=
  match AsyncQueue.put_nowait queue None with
  | Ok queue' => queue'
  | Raise _ => queue
  end.

Definition shutdown (self : t) : t :=
  {| queue_size := queue_size self;
     subscribers := map signal (subscribers self);
     event_count := event_count self |}.

End WithEvent.
Arguments t Event : clear implicits.
End ResultBus.

(** ** core_platform/control_state.py

    A [ControlState] object is its instance dictionary; [class_ns] is the
    namespace of the class (methods and class-level defaults), where
    attribute lookup falls back.  Names bound to data descriptors of
    [object] are outside this model. *)

Module ControlState.
Section WithValue.
Context {Value : Type}.
Variable class_ns : dict string Value.

Definition t : Type := dict string Value.

Definition hasattr (self : t) (key : string) : bool :=
  dict_mem key self || dict_mem key class_ns.


Definition setattr (self : t) (key : string) (value : Value) : t :=
  dict_set key value self.

(** [for key, value in kwargs.items(): if hasattr(self, key): setattr(...)] *)
Definition update (self : t) (kwargs : dict string Value) : t :=
  fold_left
    (fun self (kv : string * Value) =>
       if hasattr self (fst kv) then setattr self (fst kv) (snd kv) else self)
    kwargs self.


End WithValue.

(** The values a [ControlState] holds. *)
Inductive value : Type :=
| VNone
| VBool (b : bool)
| VInt (z : Z)
| VFloat (q : Q)
| VLock
| VMethod (name : string).

(** The instance dictionary built by the generated [__init__]. *)
Definition init : t (Value:=value) :=
  [("paused", VBool false); ("speed", VFloat 1); ("pending_seek", VNone);
   ("detection_conf_threshold", VFloat (5#10));
   ("tracker_iou_threshold", VFloat (3#10));
   ("fusion_cooldown_seconds", VFloat 3);
   ("_lock", VLock)]%string.


End ControlState.

(** ** Vocabulary of the statements *)

(** What can happen to a track in a detection cycle. *)
Inductive track_op (F : Type) : Type :=
| OpUpdate (bbox : BBox F) (frame_id timestamp_ms : Z)
| OpMissed.
Arguments OpMissed {F}.

Definition apply_op {F} `{PyFloat F} (t : Track.t F) (op : track_op F)
    : Track.t F :=
  match op with
  | OpUpdate b f ts => Track.update t b f ts
  | OpMissed => Track.mark_missed t
  end.

Definition run_ops {F} `{PyFloat F} (ops : list (track_op F)) (t : Track.t F)
    : Track.t F :=
  fold_left apply_op ops t.

Definition is_update {F} (op : track_op F) : Prop :=
  match op with OpUpdate _ _ _ => True | OpMissed => False end.

(** [ops] ends with (at least) [n] updates in a row. *)
Definition ends_with_updates {F} (n : nat) (ops : list (track_op F)) : Prop :=
  exists pre us, ops = pre ++ us /\ List.length us = n /\ Forall is_update us.

(** [ops] contains three updates in a row. *)
Definition three_in_a_row {F} (ops : list (track_op F)) : Prop :=
  exists pre us post,
    ops = pre ++ us ++ post /\ List.length us = 3%nat /\ Forall is_update us.


Definition bbox_center_x {F} `{PyFloat F} (b : BBox F) : F :=
  let '(x, _, w, _) := b in fadd x (fdiv w (flit 2 1)).




(** [x] occurs before an occurrence of [y] in [l]. *)
Inductive precedes {A : Type} (x y : A) : list A -> Prop :=
| precedes_here (l : list A) : In y l -> precedes x y (x :: l)
| precedes_later (a : A) (l : list A) : precedes x y l -> precedes x y (a :: l).

(** The [matches] component of the result of [match_detections_to_tracks]. *)
Definition matches_of {F} `{PyFloat F} (so : SetIteration)
    (detections : list (Z * BBox F)) (tracks : dict Z (BBox F))
    (iou_threshold : F) : dict Z Z :=
  fst (fst (Matching.match_detections_to_tracks so detections tracks
              iou_threshold)).

(** The [unmatched_detections] component of the result. *)
Definition unmatched_dets_of {F} `{PyFloat F} (so : SetIteration)
    (detections : list (Z * BBox F)) (tracks : dict Z (BBox F))
    (iou_threshold : F) : list Z :=
  snd (fst (Matching.match_detections_to_tracks so detections tracks
              iou_threshold)).

(** The list [detections] built at the start of a loop iteration. *)
Definition detections_of {F} (event : DetectionResult F) : list (Z * BBox F) :=
  map (fun p : Z * Detection F => (fst p, det_bbox (snd p)))
      (enumerate (dr_objects event)).

(** A detection index for which [event.objects[det_idx]] does not raise. *)
Definition valid_index {F} (event : DetectionResult F) (d : Z) : Prop :=
  exists det, py_index (dr_objects event) d = Ok det.

(** [a, a+1, ..., a+n-1] *)
Fixpoint zseq (a : Z) (n : nat) : list Z :=
  match n with
  | O => []
  | S n' => a :: zseq (a + 1) n'
  end.

(** A track is stored under its own id, and the id is below [bound]. *)
Definition entry_ok {F} `{PyFloat F} (bound : Z) (kv : Z * Track.t F) : Prop :=
  Track.track_id (snd kv) = fst kv /\ (fst kv < bound)%Z.

(** An update published for [event]. *)
Definition stamped {F} (event : DetectionResult F) (u : TrackUpdate F) : Prop :=
  tu_frame_id u = dr_frame_id event /\
  tu_timestamp_ms u = dr_timestamp_ms event.

(** The tracks [ids] are stored, with [frames_since_update] 0. *)
Definition just_updated {F} `{PyFloat F} (ids : list Z)
    (tracks : dict Z (Track.t F)) : Prop :=
  forall k, In k ids ->
            exists trk, dict_get k tracks = Some trk /\
                        Track.frames_since_update trk = 0%Z.

(** A track as [create_track] leaves it: stored under its own id, one hit,
    updated in this frame, not stable. *)
Definition fresh_entry {F} `{PyFloat F} (kv : Z * Track.t F) : Prop :=
  Track.track_id (snd kv) = fst kv /\
  Track.consecutive_hits (snd kv) = 1%Z /\
  Track.frames_since_update (snd kv) = 0%Z /\
  Track.stable (snd kv) = false.

(** The invariant of the tracker states the module goes through: tracks are
    kept for at least one missed cycle, every track is stored under its own
    id, and ids in use are below [next_track_id]. *)
Definition tracker_wf {F} `{PyFloat F} (tr : Tracker.t F) : Prop :=
  (1 <= Tracker.max_age tr)%Z /\
  Forall (entry_ok (Tracker.next_track_id tr)) (Tracker.tracks tr).

(** The tracker states reachable by the module: the initial one, and the
    state after any loop iteration that completed. *)
Inductive reachable {F} `{PyFloat F} : Tracker.t F -> Prop :=
| reachable_init : reachable TrackerModule.init
| reachable_step (so : SetIteration) (iou_threshold : F)
    (tracker : Tracker.t F) (event : DetectionResult F)
    (tracker' : Tracker.t F) (published : list (TrackUpdate F)) :
    reachable tracker ->
    TrackerModule.process_detections so iou_threshold tracker event
      = Ok (tracker', published) ->
    reachable tracker'.

(** The loop of [_process_detections] over a list of events, from a new
    module: the tracker at the end and the updates published by the last
    iteration. *)
Definition run_frames {F} `{PyFloat F} (so : SetIteration) (iou_threshold : F)
    (events : list (DetectionResult F)) : result (TrackerModule.st (F:=F)) :=
  fold_left
    (fun r event =>
       s <- r ;;
       TrackerModule.process_detections so iou_threshold (fst s) event)
    events (Ok (TrackerModule.init, [])).

(** A frame showing one person at the same place. *)
Definition same_person_frame (i : Z) : DetectionResult PrimFloat.float :=
  {| dr_frame_id := i; dr_timestamp_ms := (i * 33)%Z;
     dr_objects :=
       [ {| det_label := "person"; det_confidence := flit 9 10;
            det_bbox := (flit 1 10, flit 1 10, flit 1 10, flit 1 10) |} ] |}.

(** ** Vocabulary of the further properties *)

(** The last [n] elements of [l] (all of [l] when it is shorter). *)
Definition lastn {A : Type} (n : nat) (l : list A) : list A :=
  skipn (List.length l - n) l.

(** The history entries pushed by the updates of [ops], oldest first. *)
Fixpoint update_entries {F} (ops : list (track_op F)) : list (HistoryEntry F) :=
  match ops with
  | [] => []
  | OpUpdate b f ts :: ops' =>
      {| h_bbox := b; h_frame_id := f; h_timestamp_ms := ts |}
      :: update_entries ops'
  | OpMissed :: ops' => update_entries ops'
  end.

Definition bbox_center_y {F} `{PyFloat F} (b : BBox F) : F :=
  let '(_, y, _, h) := b in fadd y (fdiv h (flit 2 1)).

(** The loop of [_process_detections] over a list of events, from a given
    tracker: the tracker at the end and the updates published by the last
    iteration. *)
Definition run_frames_from {F} `{PyFloat F} (so : SetIteration)
    (iou_threshold : F) (tracker : Tracker.t F)
    (events : list (DetectionResult F)) : result (TrackerModule.st (F:=F)) :=
  fold_left
    (fun r event =>
       s <- r ;;
       TrackerModule.process_detections so iou_threshold (fst s) event)
    events (Ok (tracker, [])).

(** [n] calls of [mark_missed] on a track. *)
Definition missed_times {F} `{PyFloat F} (n : nat) (t : Track.t F) : Track.t F :=
  Nat.iter n Track.mark_missed t.

(** A frame without detections. *)
Definition no_detections {F} (event : DetectionResult F) : Prop :=
  dr_objects event = [].

(** What holds of every stored track in the states the module reaches. *)
Definition track_ok {F} `{PyFloat F} (max_age next : Z) (kv : Z * Track.t F)
    : Prop :=
  Track.track_id (snd kv) = fst kv /\
  (1 <= fst kv < next)%Z /\
  (0 <= Track.frames_since_update (snd kv) <= max_age)%Z /\
  (0 <= Track.consecutive_hits (snd kv))%Z.

Definition tracker_inv {F} `{PyFloat F} (tr : Tracker.t F) : Prop :=
  Tracker.max_age tr = 30%Z /\
  (1 <= Tracker.next_track_id tr)%Z /\
  NoDup (dict_keys (Tracker.tracks tr)) /\
  Forall (track_ok (Tracker.max_age tr) (Tracker.next_track_id tr))
         (Tracker.tracks tr).

(** The [unmatched_tracks] component of the result. *)
Definition unmatched_tracks_of {F} `{PyFloat F} (so : SetIteration)
    (detections : list (Z * BBox F)) (tracks : dict Z (BBox F))
    (iou_threshold : F) : list Z :=
  snd (Matching.match_detections_to_tracks so detections tracks
         iou_threshold).


(** The consuming loop of [subscribe()] / [subscribe_all()] run on the
    content of a queue to which nothing more is added: the items it yields,
    and whether it ends (it met the sentinel) or is left waiting on an empty
    queue. *)
Fixpoint drain {A : Type} (items : list (option A)) : list A * bool :=
  match items with
  | [] => ([], false)
  | None :: _ => ([], true)
  | Some a :: rest => let '(ys, ended) := drain rest in (a :: ys, ended)
  end.

(** A subscriber queue as [subscribe()] creates it for a bus of capacity
    [queue_size], holding at most that many items. *)
Definition queue_ok {A : Type} (queue_size : Z) (q : AsyncQueue.t A) : Prop :=
  AsyncQueue.maxsize q = queue_size /\
  (AsyncQueue.qsize q <= queue_size)%Z.

Definition frame_bus_ok {A : Type} (bus : FrameBus.t A) : Prop :=
  (1 <= FrameBus.queue_size bus)%Z /\
  Forall (queue_ok (FrameBus.queue_size bus)) (FrameBus.subscribers bus).

Definition result_bus_ok {A : Type} (bus : ResultBus.t A) : Prop :=
  (1 <= ResultBus.queue_size bus)%Z /\
  Forall (queue_ok (ResultBus.queue_size bus)) (ResultBus.subscribers bus).

(** [sum(l)] *)
Definition zsum (l : list Z) : Z := fold_right Z.add 0%Z l.

(** ** contracts/schemas.py: the events of the navigation and fusion stages

    A pydantic model checks its fields when it is built; the checks that can
    fail for well-typed arguments are the [Literal] sets and the bounds of
    [priority].  [None] is the [ValidationError]. *)

(** [s] is one of the strings of a [Literal[...]] annotation. *)
Definition literal (allowed : list string) (s : string) : bool :=
  existsb (String.eqb s) allowed.

Record NavigationGuidance : Type := {
  ng_timestamp_ms : Z;
  ng_track_id : Z;
  ng_label : string;
  ng_direction : string;
  ng_zone : string;
  ng_movement : string;
  ng_urgency : string;
  ng_guidance_text : string
}.

(** [NavigationGuidance(timestamp_ms=..., ...)] *)
Definition new_NavigationGuidance (timestamp_ms track_id : Z)
    (label direction zone movement urgency guidance_text : string)
    : option NavigationGuidance :=
  if (literal ["left"; "center"; "right"] direction
      && literal ["near"; "mid"; "far"] zone
      && literal ["approaching"; "receding"; "stationary"] movement
      && literal ["low"; "medium"; "high"; "critical"] urgency)%string
  then Some {| ng_timestamp_ms := timestamp_ms; ng_track_id := track_id;
               ng_label := label; ng_direction := direction;
               ng_zone := zone; ng_movement := movement;
               ng_urgency := urgency; ng_guidance_text := guidance_text |}
  else None.

Record FusionAnnouncement : Type := {
  fa_timestamp_ms : Z;
  fa_text : string;
  fa_kind : string;
  fa_priority : Z
}.

(** [FusionAnnouncement(timestamp_ms=..., text=..., kind=..., priority=...)] *)
Definition new_FusionAnnouncement (timestamp_ms : Z) (text kind : string)
    (priority : Z) : option FusionAnnouncement :=
  if (literal ["object"; "hazard"; "navigation"; "status"]%string kind
      && (1 <=? priority)%Z && (priority <=? 5)%Z)
  then Some {| fa_timestamp_ms := timestamp_ms; fa_text := text;
               fa_kind := kind; fa_priority := priority |}
  else None.

(** [SystemMetric]; [sm_value] is the integer whose [float(...)] is the
    value of the metric. *)
Record SystemMetric : Type := {
  sm_timestamp_ms : Z;
  sm_name : string;
  sm_value : Z
}.

(** ** modules/navigation/guidance.py *)

Module Guidance.

Definition generate_guidance_text (label direction zone movement : string)
    : string :=
  (if (zone =? "near") && (movement =? "approaching") then
     label ++ " very close, " ++ direction
   else if movement =? "approaching" then
     if zone =? "mid" then label ++ " approaching on " ++ direction
     else label ++ " detected " ++ direction
   else if movement =? "stationary" then
     if zone =? "near" then label ++ " nearby on " ++ direction
     else if zone =? "mid" then label ++ " ahead on " ++ direction
     else label ++ " " ++ direction
   else if movement =? "receding" then label ++ " moving away"
   else label ++ " " ++ direction)%string.

End Guidance.

(** ** modules/navigation/module.py *)

Module NavigationModule.
Section WithFloat.
Context {F : Type} `{PyFloat F}.

(** [self.track_history] *)
Definition t : Type := dict Z (list (HistoryEntry F)).

(** [NavigationModule.__init__] *)
Definition init : t := [].

(** The dict appended to the history of the track. *)
Definition entry_of (event : TrackUpdate F) : HistoryEntry F :=
  {| h_bbox := tu_bbox event; h_frame_id := tu_frame_id event;
     h_timestamp_ms := tu_timestamp_ms event |}.

(** The body of the [async for event in ...] loop of [_process_tracks]: the
    history after the iteration and the guidance published in it.  [None]
    is an exception escaping to the [except Exception] handler of the loop
    (a [KeyError] of [self.track_history[...]] or a [ValidationError]). *)
Definition process_track (track_history : t) (event : TrackUpdate F)
    : option (t * NavigationGuidance) :=
  let track_id := tu_track_id event in
  let track_history :=
    if negb (dict_mem track_id track_history)
    then dict_set track_id [] track_history else track_history in
  match dict_get track_id track_history with
  | None => None
  | Some entries =>
      let track_history :=
        dict_set track_id (entries ++ [entry_of event]) track_history in
      match dict_get track_id track_history with
      | None => None
      | Some entries =>
          let track_history :=
            if (5 <? List.length entries)%nat
            then dict_set track_id (lastn 5 entries) track_history
            else track_history in
          let direction := Spatial.analyze_direction (tu_bbox event) in
          let zone := Spatial.analyze_zone (tu_bbox event) in
          match dict_get track_id track_history with
          | None => None
          | Some history =>
              let movement :=
                Spatial.analyze_movement (tu_bbox event) history in
              let urgency := Spatial.compute_urgency zone movement in
              let guidance_text :=
                Guidance.generate_guidance_text (tu_label event) direction
                  zone movement in
              match new_NavigationGuidance (tu_timestamp_ms event) track_id
                      (tu_label event) direction zone movement urgency
                      guidance_text with
              | None => None
              | Some guidance => Some (track_history, guidance)
              end
          end
      end
  end.

(** The loop over the events received, while no exception ends it: the
    final history and the guidance published, in order. *)
Fixpoint process_tracks (track_history : t) (events : list (TrackUpdate F))
    : option (t * list NavigationGuidance) :=
  match events with
  | [] => Some (track_history, [])
  | event :: events' =>
      match process_track track_history event with
      | None => None
      | Some (track_history, guidance) =>
          match process_tracks track_history events' with
          | None => None
          | Some (track_history, published) =>
              Some (track_history, guidance :: published)
          end
      end
  end.

End WithFloat.
End NavigationModule.

(** ** modules/fusion/module.py *)

Module FusionModule.

Record t : Type := {
  policy : FusionPolicy.t;
  track_stability : dict Z bool
}.

(** [FusionModule.__init__] *)
Definition init : t :=
  {| policy := FusionPolicy.init; track_stability := [] |}.

(** The body of the loop of [_monitor_track_stability]. *)
Definition monitor_track_stability {F : Type} (self : t)
    (event : TrackUpdate F) : t :=
  {| policy := policy self;
     track_stability :=
       dict_set (tu_track_id event) (tu_stable event) (track_stability self) |}.

(** What [_process_guidance] hands to [result_bus.publish]. *)
Inductive published : Type :=
| Announcement (a : FusionAnnouncement)
| Metric (m : SystemMetric).

(** The body of the loop of [_process_guidance]; [cooldown_ms] is the value
    of [int(self.control_state.fusion_cooldown_seconds * 1000)] in this
    iteration.  The result is the module after the iteration and the events
    published in it, in order; [None] is an exception escaping to the
    [except Exception] handler of the loop. *)
Definition process_guidance (self : t) (cooldown_ms : Z)
    (guidance : NavigationGuidance) : option (t * list published) :=
  let stable :=
    match dict_get (ng_track_id guidance) (track_stability self) with
    | Some b => b
    | None => false
    end in
  let should_announce :=
    FusionPolicy.should_announce (policy self) (ng_track_id guidance)
      (ng_timestamp_ms guidance) (ng_urgency guidance) stable cooldown_ms in
  let announced : option (FusionPolicy.t * list published) :=
    if should_announce then
      let priority := FusionPolicy.get_priority (ng_urgency guidance) in
      let kind := FusionPolicy.get_announcement_kind (ng_label guidance) in
      match new_FusionAnnouncement (ng_timestamp_ms guidance)
              (ng_guidance_text guidance) kind priority with
      | None => None
      | Some announcement =>
          Some (FusionPolicy.record_announcement (policy self)
                  (ng_track_id guidance) (ng_timestamp_ms guidance),
                [Announcement announcement])
      end
    else Some (policy self, []) in
  match announced with
  | None => None
  | Some (policy, out) =>
      let count := FusionPolicy.announcement_count policy in
      let out :=
        if ((count mod 100 =? 0) && (0 <? count))%Z
        then out ++ [Metric {| sm_timestamp_ms := ng_timestamp_ms guidance;
                               sm_name := "fusion.announcements.count";
                               sm_value := count |}]
        else out in
      Some ({| policy := policy; track_stability := track_stability self |},
            out)
  end.

(** The module runs the two loops as two tasks of one event loop.  An
    iteration of either loop is not interleaved with the other one ([stable]
    is read once, at the start of [_process_guidance]'s body, and the
    policy is touched by that loop alone), so a run of the module is the
    sequence of the iterations, each with the event it received. *)
Inductive event (F : Type) : Type :=
| TrackEvent (e : TrackUpdate F)
| GuidanceEvent (cooldown_ms : Z) (guidance : NavigationGuidance).
Arguments GuidanceEvent {F}.

Definition step {F : Type} (self : t) (ev : event F)
    : option (t * list published) :=
  match ev with
  | TrackEvent e => Some (monitor_track_stability self e, [])
  | GuidanceEvent cooldown_ms guidance =>
      process_guidance self cooldown_ms guidance
  end.

(** A run ends at the first exception ([None]); otherwise it gives the
    module at the end and all the events published, in order. *)
Fixpoint run {F : Type} (self : t) (events : list (event F))
    : option (t * list published) :=
  match events with
  | [] => Some (self, [])
  | ev :: events' =>
      match step self ev with
      | None => None
      | Some (self, out) =>
          match run self events' with
          | None => None
          | Some (self, out') => Some (self, out ++ out')
          end
      end
  end.

End FusionModule.

(** The [stable] flag of the latest [TrackUpdate] of track [k] among
    [events], [False] when there is none. *)
Definition latest_stable {F : Type} (events : list (FusionModule.event F))
    (k : Z) : bool :=
  fold_left
    (fun acc ev =>
       match ev with
       | FusionModule.TrackEvent e =>
           if (tu_track_id e =? k)%Z then tu_stable e else acc
       | FusionModule.GuidanceEvent _ _ => acc
       end)
    events false.

(** How many of the published events are announcements. *)
Definition announcements_in (out : list FusionModule.published) : Z :=
  Z.of_nat
    (List.length
       (filter (fun e => match e with
                         | FusionModule.Announcement _ => true
                         | FusionModule.Metric _ => false
                         end) out)).

(* ================================================================== *)
(** * Part II.  Properties                                              *)
(* ================================================================== *)

(** ** Track stability (C1) *)

Section TrackStability.
Context {F : Type} `{PyFloat F}.

Lemma run_ops_snoc (ops : list (track_op F)) (op : track_op F) (t : Track.t F) :
  run_ops (ops ++ [op]) t = apply_op (run_ops ops t) op.
Proof. unfold run_ops. rewrite fold_left_app. reflexivity. Qed.

Lemma ends_with_zero (ops : list (track_op F)) : ends_with_updates 0 ops.
Proof. exists ops, []. rewrite app_nil_r. repeat split; constructor. Qed.

Lemma ends_with_snoc (n : nat) (ops : list (track_op F)) (op : track_op F) :
  ends_with_updates (S n) (ops ++ [op]) <->
  is_update op /\ ends_with_updates n ops.
Proof.
  split.
  - intros (pre & us & E & L & U).
    destruct (exists_last (l:=us)) as (us' & x & ->).
    { intros ->. discriminate. }
    rewrite app_assoc in E. apply app_inj_tail in E as [-> ->].
    apply Forall_app in U as [U1 U2]. inversion U2; subst.
    split; [assumption|]. exists pre, us'. repeat split; [|assumption].
    rewrite length_app in L. simpl in L. lia.
  - intros (U & pre & us & -> & L & Us).
    exists pre, (us ++ [op]). rewrite app_assoc. repeat split.
    + rewrite length_app. simpl. lia.
    + apply Forall_app. split; [assumption|]. constructor; [assumption|constructor].
Qed.

Lemma three_in_a_row_snoc (ops : list (track_op F)) (op : track_op F) :
  three_in_a_row (ops ++ [op]) <->
  three_in_a_row ops \/ ends_with_updates 3 (ops ++ [op]).
Proof.
  split.
  - intros (pre & us & post & E & L & U).
    destruct post as [|p post] using rev_ind.
    + right. exists pre, us. rewrite app_nil_r in E. auto.
    + clear IHpost. left. rewrite !app_assoc in E.
      apply app_inj_tail in E as [-> ->].
      exists pre, us, post. rewrite app_assoc. auto.
  - intros [(pre & us & post & -> & L & U) | (pre & us & E & L & U)].
    + exists pre, us, (post ++ [op]). rewrite <- !app_assoc. auto.
    + exists pre, us, []. rewrite app_nil_r. auto.
Qed.

(** From a new track, [consecutive_hits] counts the updates in a row at the
    end of the history of operations, and [stable] records whether three in a
    row ever happened. *)
Lemma run_ops_new_invariant (tid : Z) (lbl : string) (b : BBox F)
    (ops : list (track_op F)) :
  let t := run_ops ops (Track.new tid lbl b) in
  (0 <= Track.consecutive_hits t)%Z /\
  (forall n, (Z.of_nat n <= Track.consecutive_hits t)%Z <->
             ends_with_updates n ops) /\
  (Track.stable t = true <-> three_in_a_row ops).
Proof.
  induction ops as [|op ops IH] using rev_ind; cbv zeta.
  - simpl. split; [lia|]. split.
    + intros n. split.
      * intros Hn. assert (n = 0%nat) as -> by lia. apply ends_with_zero.
      * intros (pre & us & E & L & _). symmetry in E.
        apply app_eq_nil in E as [_ ->]. simpl in L. subst. simpl. lia.
    + split; [discriminate|].
      intros (pre & us & post & E & L & _). symmetry in E.
      apply app_eq_nil in E as [_ E]. apply app_eq_nil in E as [-> _].
      discriminate.
  - cbv zeta in IH. destruct IH as (Hpos & Hhits & Hst).
    rewrite run_ops_snoc. set (t := run_ops ops (Track.new tid lbl b)) in *.
    assert (Hn : forall n, (Z.of_nat n <= Track.consecutive_hits (apply_op t op))%Z
                           <-> ends_with_updates n (ops ++ [op])).
    { intros [|n]; [split; [intros _; apply ends_with_zero|]|].
      - intros _. destruct op; simpl; lia.
      - rewrite ends_with_snoc, <- Hhits.
        destruct op; simpl.
        + split; [intros; split; [exact I|lia] | intros [_ ?]; lia].
        + split; [lia|tauto]. }
    split; [destruct op; simpl; lia|]. split; [exact Hn|].
    rewrite three_in_a_row_snoc, <- Hst, <- (Hn 3%nat).
    destruct op; simpl.
    + destruct (Z.leb_spec 3 (Track.consecutive_hits t + 1)).
      * split; [intros _; right; simpl; lia | reflexivity].
      * split; [auto|]. intros [?|?]; [assumption|simpl in *; lia].
    + split; [auto|]. intros [?|?]; [assumption|simpl in *; lia].
Qed.

Lemma stable_monotone (ops : list (track_op F)) (t : Track.t F) :
  Track.stable t = true -> Track.stable (run_ops ops t) = true.
Proof.
  revert t. induction ops as [|op ops IH]; intros t Ht; [assumption|].
  simpl. apply IH. destruct op; simpl; [|assumption].
  rewrite Ht. destruct (_ <=? _)%Z; reflexivity.
Qed.

End TrackStability.

(** C1.  A track built by [Track(...)] and then driven by any sequence of
    [update] / [mark_missed] calls is stable exactly when that sequence
    contains three updates in a row: after [k] updates in a row from creation
    (the one done by [create_track] being the first) [stable] is true iff
    [3 <= k], and from any track state whatsoever a true [stable] stays true
    under every further sequence of updates and missed cycles. *)
Theorem C1_stable_exactly_after_three_consecutive_updates :
  forall (F : Type) (PF : PyFloat F) (tid : Z) (lbl : string) (b : BBox F),
    (forall ops : list (track_op F),
        Track.stable (run_ops ops (Track.new tid lbl b)) = true <->
        three_in_a_row ops) /\
    (forall ops : list (track_op F),
        Forall is_update ops ->
        Track.stable (run_ops ops (Track.new tid lbl b)) =
        (3 <=? List.length ops)%nat) /\
    (forall (t : Track.t F) (ops : list (track_op F)),
        Track.stable t = true -> Track.stable (run_ops ops t) = true).
Proof.
  intros F PF tid lbl b. split; [|split].
  - intros ops. apply (run_ops_new_invariant tid lbl b ops).
  - intros ops U.
    destruct (run_ops_new_invariant tid lbl b ops) as (_ & _ & Hst).
    destruct (Nat.leb_spec 3 (List.length ops)) as [L|L].
    + apply Hst. exists (firstn (List.length ops - 3) ops),
        (skipn (List.length ops - 3) ops), [].
      rewrite app_nil_r, firstn_skipn. repeat split.
      * rewrite length_skipn. lia.
      * rewrite <- (firstn_skipn (List.length ops - 3) ops) in U.
        apply Forall_app in U. tauto.
    + apply not_true_is_false. intros E.
      apply Hst in E. destruct E as (pre & us & post & -> & L3 & _).
      rewrite !length_app in L. lia.
  - intros t ops. apply stable_monotone.
Qed.

Lemma C1_witness :
  let b : BBox Q := (1#10, 1#10, 1#10, 1#10) in
  let t0 := Track.new 1 "person" b in
  let t3 := run_ops [OpUpdate b 0 0; OpUpdate b 1 33; OpUpdate b 2 66] t0 in
  Track.stable (run_ops [OpUpdate b 0 0; OpUpdate b 1 33] t0) = false /\
  Track.stable t3 = true /\
  Track.stable (run_ops [OpMissed; OpMissed; OpUpdate b 5 165; OpMissed] t3)
  = true.
Proof.
  cbv zeta.
  destruct (C1_stable_exactly_after_three_consecutive_updates
              PyFloat_Q 1 "person" (1#10, 1#10, 1#10, 1#10))
    as (_ & Hk & Hmono).
  split; [|split].
  - apply Hk. repeat constructor.
  - apply Hk. repeat constructor.
  - apply Hmono. apply Hk. repeat constructor.
Defined.

(** ** Announcement policy (C4) *)

(** C4.  [should_announce] is true for critical urgency whatever [stable]
    and the cooldown are; false for a non-critical urgency on an unstable
    track; false for a non-critical urgency on a stable track with a recorded
    announcement less than [cooldown_ms] ago; and true in the remaining cases
    (stable, non-critical, and no recorded announcement or the cooldown has
    elapsed). *)
Theorem C4_should_announce_cases :
  forall (self : FusionPolicy.t) (track_id timestamp_ms : Z)
         (urgency : string) (stable : bool) (cooldown_ms : Z),
    (urgency = "critical"%string ->
     FusionPolicy.should_announce self track_id timestamp_ms urgency stable
       cooldown_ms = true) /\
    (urgency <> "critical"%string -> stable = false ->
     FusionPolicy.should_announce self track_id timestamp_ms urgency stable
       cooldown_ms = false) /\
    (forall last,
        urgency <> "critical"%string -> stable = true ->
        dict_get track_id (FusionPolicy.last_announced self) = Some last ->
        (timestamp_ms - last < cooldown_ms)%Z ->
        FusionPolicy.should_announce self track_id timestamp_ms urgency stable
          cooldown_ms = false) /\
    (urgency <> "critical"%string -> stable = true ->
     (dict_get track_id (FusionPolicy.last_announced self) = None \/
      exists last,
        dict_get track_id (FusionPolicy.last_announced self) = Some last /\
        (cooldown_ms <= timestamp_ms - last)%Z) ->
     FusionPolicy.should_announce self track_id timestamp_ms urgency stable
       cooldown_ms = true).
Proof.
  intros self track_id timestamp_ms urgency stable cooldown_ms.
  unfold FusionPolicy.should_announce.
  destruct (String.eqb_spec urgency "critical") as [E|NE].
  - repeat split; intros; try reflexivity; contradiction.
  - split; [intros; contradiction|].
    split; [intros _ ->; reflexivity|].
    split.
    + intros last _ -> -> Hlt. simpl.
      destruct (Z.ltb_spec (timestamp_ms - last) cooldown_ms); [reflexivity|lia].
    + intros _ -> [-> | (last & -> & Hge)]; simpl; [reflexivity|].
      destruct (Z.ltb_spec (timestamp_ms - last) cooldown_ms); [lia|reflexivity].
Qed.

Lemma C4_witness :
  let p := FusionPolicy.record_announcement FusionPolicy.init 7 1000 in
  FusionPolicy.should_announce p 7 1000 "critical" false 3000 = true /\
  FusionPolicy.should_announce p 7 1500 "high" false 3000 = false /\
  FusionPolicy.should_announce p 7 1500 "high" true 3000 = false /\
  FusionPolicy.should_announce p 7 4000 "high" true 3000 = true /\
  FusionPolicy.should_announce p 8 1500 "low" true 3000 = true.
Proof.
  cbv zeta.
  set (p := FusionPolicy.record_announcement FusionPolicy.init 7 1000).
  assert (NE : "high"%string <> "critical"%string) by discriminate.
  assert (NE' : "low"%string <> "critical"%string) by discriminate.
  split; [|split; [|split; [|split]]].
  - apply (proj1 (C4_should_announce_cases p 7 1000 "critical" false 3000)).
    reflexivity.
  - apply (proj1 (proj2
             (C4_should_announce_cases p 7 1500 "high" false 3000)));
      [exact NE|reflexivity].
  - apply (proj1 (proj2 (proj2
             (C4_should_announce_cases p 7 1500 "high" true 3000))) 1000%Z);
      [exact NE|reflexivity|reflexivity|reflexivity].
  - apply (proj2 (proj2 (proj2
             (C4_should_announce_cases p 7 4000 "high" true 3000))));
      [exact NE|reflexivity|].
    right. exists 1000%Z. split; [reflexivity|discriminate].
  - apply (proj2 (proj2 (proj2
             (C4_should_announce_cases p 8 1500 "low" true 3000))));
      [exact NE'|reflexivity|].
    left. reflexivity.
Defined.

(** ** Buses (C6, C7) *)

Section QueueFacts.
Context {A : Type}.

Lemma put_nowait_full (q : AsyncQueue.t A) (x : A) :
  AsyncQueue.full q = true -> AsyncQueue.put_nowait q x = Raise QueueFull.
Proof. unfold AsyncQueue.put_nowait. intros ->. reflexivity. Qed.

Lemma put_nowait_not_full (q : AsyncQueue.t A) (x : A) :
  AsyncQueue.full q = false ->
  AsyncQueue.put_nowait q x =
  Ok {| AsyncQueue.maxsize := AsyncQueue.maxsize q;
        AsyncQueue.items := AsyncQueue.items q ++ [x] |}.
Proof. unfold AsyncQueue.put_nowait. intros ->. reflexivity. Qed.

End QueueFacts.

(** What [ResultBus.publish] does to one subscriber queue. *)
Lemma result_publish_one_spec {Event : Type} (event : Event)
    (q : AsyncQueue.t (option Event)) :
  (AsyncQueue.full q = true -> ResultBus.publish_one event q = q) /\
  (AsyncQueue.full q = false ->
   AsyncQueue.items (ResultBus.publish_one event q) =
   AsyncQueue.items q ++ [Some event] /\
   AsyncQueue.maxsize (ResultBus.publish_one event q) = AsyncQueue.maxsize q).
Proof.
  unfold ResultBus.publish_one. split; intros Hf.
  - rewrite put_nowait_full by assumption. reflexivity.
  - rewrite put_nowait_not_full by assumption. split; reflexivity.
Qed.

(** C7.  [ResultBus.publish] keeps the subscriber list position by position;
    a full queue is returned exactly as it was (the new event is dropped for
    that subscriber), a queue with room gets the event appended at the end;
    in both cases the old content is a prefix of the new one, so nothing is
    evicted and the order of what was queued is kept. *)
Theorem C7_result_bus_publish_drops_newest :
  forall (Event : Type) (bus : ResultBus.t Event) (event : Event),
    let bus' := ResultBus.publish bus event in
    List.length (ResultBus.subscribers bus') =
    List.length (ResultBus.subscribers bus) /\
    forall (i : nat) (q : AsyncQueue.t (option Event)),
      nth_error (ResultBus.subscribers bus) i = Some q ->
      exists q',
        nth_error (ResultBus.subscribers bus') i = Some q' /\
        (AsyncQueue.full q = true -> q' = q) /\
        (AsyncQueue.full q = false ->
         AsyncQueue.items q' = AsyncQueue.items q ++ [Some event]) /\
        AsyncQueue.maxsize q' = AsyncQueue.maxsize q /\
        exists suffix, AsyncQueue.items q' = AsyncQueue.items q ++ suffix.
Proof.
  intros Event bus event. cbv zeta. unfold ResultBus.publish. simpl.
  split; [apply length_map|].
  intros i q Hq. exists (ResultBus.publish_one event q).
  split; [rewrite nth_error_map, Hq; reflexivity|].
  destruct (result_publish_one_spec event q) as [Hfull Hroom].
  split; [exact Hfull|]. split; [intros Hf; apply Hroom, Hf|].
  destruct (AsyncQueue.full q) eqn:Hf.
  - rewrite Hfull by reflexivity. split; [reflexivity|].
    exists []. rewrite app_nil_r. reflexivity.
  - destruct (Hroom eq_refl) as [Hi Hm]. split; [exact Hm|].
    exists [Some event]. exact Hi.
Qed.

Lemma C7_witness :
  let bus : ResultBus.t Z :=
    ResultBus.publish
      (ResultBus.publish (ResultBus.subscribe_all (ResultBus.init 2)) 10%Z)
      11%Z in
  map (@AsyncQueue.items _)
      (ResultBus.subscribers (ResultBus.publish bus 12%Z))
  = [[Some 10%Z; Some 11%Z]].
Proof.
  cbv zeta.
  set (bus := ResultBus.publish
                (ResultBus.publish
                   (ResultBus.subscribe_all (ResultBus.init 2)) 10%Z) 11%Z).
  destruct (C7_result_bus_publish_drops_newest bus 12%Z) as [_ Hq].
  destruct (Hq 0%nat _ eq_refl) as (q' & Hnth & Hfull & _).
  rewrite (Hfull eq_refl) in Hnth.
  destruct (ResultBus.subscribers (ResultBus.publish bus 12%Z))
    as [|q0 [|q1 rest]] eqn:E; try discriminate.
  simpl in Hnth. injection Hnth as ->. reflexivity.
Defined.

(** What [shutdown] does to one subscriber queue, on either bus: a full
    queue is left as it is. *)
Lemma frame_signal_full {FramePacket : Type}
    (q : AsyncQueue.t (option FramePacket)) :
  AsyncQueue.full q = true -> FrameBus.signal q = q.
Proof.
  intros Hf. unfold FrameBus.signal. rewrite put_nowait_full by assumption.
  reflexivity.
Qed.

Lemma result_signal_full {Event : Type} (q : AsyncQueue.t (option Event)) :
  AsyncQueue.full q = true -> ResultBus.signal q = q.
Proof.
  intros Hf. unfold ResultBus.signal. rewrite put_nowait_full by assumption.
  reflexivity.
Qed.

Lemma frame_signal_not_full {FramePacket : Type}
    (q : AsyncQueue.t (option FramePacket)) :
  AsyncQueue.full q = false ->
  AsyncQueue.items (FrameBus.signal q) = AsyncQueue.items q ++ [None].
Proof.
  intros Hf. unfold FrameBus.signal. rewrite put_nowait_not_full by assumption.
  reflexivity.
Qed.

Lemma result_signal_not_full {Event : Type} (q : AsyncQueue.t (option Event)) :
  AsyncQueue.full q = false ->
  AsyncQueue.items (ResultBus.signal q) = AsyncQueue.items q ++ [None].
Proof.
  intros Hf. unfold ResultBus.signal. rewrite put_nowait_not_full by assumption.
  reflexivity.
Qed.

(** On every bus state, a subscriber whose queue is full and holds no
    sentinel still holds none after [shutdown]. *)
Lemma frame_shutdown_skips_full_queues {FramePacket : Type}
    (bus : FrameBus.t FramePacket) (i : nat)
    (q : AsyncQueue.t (option FramePacket)) :
  nth_error (FrameBus.subscribers bus) i = Some q ->
  AsyncQueue.full q = true ->
  nth_error (FrameBus.subscribers (FrameBus.shutdown bus)) i = Some q.
Proof.
  intros Hq Hf. unfold FrameBus.shutdown. simpl.
  rewrite nth_error_map, Hq. simpl. rewrite frame_signal_full by assumption.
  reflexivity.
Qed.

Lemma result_shutdown_skips_full_queues {Event : Type}
    (bus : ResultBus.t Event) (i : nat) (q : AsyncQueue.t (option Event)) :
  nth_error (ResultBus.subscribers bus) i = Some q ->
  AsyncQueue.full q = true ->
  nth_error (ResultBus.subscribers (ResultBus.shutdown bus)) i = Some q.
Proof.
  intros Hq Hf. unfold ResultBus.shutdown. simpl.
  rewrite nth_error_map, Hq. simpl. rewrite result_signal_full by assumption.
  reflexivity.
Qed.

(** C6.  A run on which the claim fails.  A [FrameBus(queue_size=2)] with one
    subscriber that has not consumed the two frames published so far, and a
    [ResultBus(queue_size=2)] in the same situation: after [shutdown()] the
    subscriber's queue is what it was, no item was evicted and the
    end-of-stream sentinel ([None]) is not in it. *)
Theorem C6_shutdown_leaves_full_queue_without_sentinel :
  let fb : FrameBus.t Z :=
    FrameBus.publish
      (FrameBus.publish (FrameBus.subscribe (FrameBus.init 2)) 10%Z) 11%Z in
  let rb : ResultBus.t Z :=
    ResultBus.publish
      (ResultBus.publish (ResultBus.subscribe_all (ResultBus.init 2)) 10%Z)
      11%Z in
  map (@AsyncQueue.items _) (FrameBus.subscribers fb)
    = [[Some 10%Z; Some 11%Z]] /\
  map (@AsyncQueue.items _) (FrameBus.subscribers (FrameBus.shutdown fb))
    = [[Some 10%Z; Some 11%Z]] /\
  map (@AsyncQueue.items _) (ResultBus.subscribers rb)
    = [[Some 10%Z; Some 11%Z]] /\
  map (@AsyncQueue.items _) (ResultBus.subscribers (ResultBus.shutdown rb))
    = [[Some 10%Z; Some 11%Z]] /\
  Forall (fun q => ~ In None (AsyncQueue.items q))
         (FrameBus.subscribers (FrameBus.shutdown fb)) /\
  Forall (fun q => ~ In None (AsyncQueue.items q))
         (ResultBus.subscribers (ResultBus.shutdown rb)).
Proof.
  cbv zeta. repeat split; try reflexivity.
  - constructor; [|constructor]. simpl. intuition discriminate.
  - constructor; [|constructor]. simpl. intuition discriminate.
Qed.

(** ** Dict facts *)

Section DictFacts.
Context {K V : Type} `{EqKey K}.

Lemma keqb_refl (k : K) : keqb k k = true.
Proof. destruct (keqb_spec k k); congruence. Qed.

Lemma keqb_neq (k k' : K) : k <> k' -> keqb k k' = false.
Proof. destruct (keqb_spec k k'); congruence. Qed.

Lemma dict_get_set_same (k : K) (v : V) (d : dict K V) :
  dict_get k (dict_set k v d) = Some v.
Proof.
  induction d as [|[k' v'] d IH]; simpl.
  - rewrite keqb_refl. reflexivity.
  - destruct (keqb_spec k k') as [->|NE]; simpl.
    + rewrite keqb_refl. reflexivity.
    + rewrite keqb_neq by assumption. exact IH.
Qed.

Lemma dict_get_set_other (k k' : K) (v : V) (d : dict K V) :
  k <> k' -> dict_get k (dict_set k' v d) = dict_get k d.
Proof.
  intros NE. induction d as [|[k'' v''] d IH]; simpl.
  - rewrite keqb_neq by assumption. reflexivity.
  - destruct (keqb_spec k' k'') as [->|NE']; simpl.
    + rewrite keqb_neq by assumption. reflexivity.
    + destruct (keqb k k''); [reflexivity|exact IH].
Qed.


Lemma dict_get_In (k : K) (v : V) (d : dict K V) :
  dict_get k d = Some v -> In (k, v) d.
Proof.
  induction d as [|[k' v'] d IH]; simpl; [discriminate|].
  destruct (keqb_spec k k') as [->|NE].
  - intros [= ->]. left. reflexivity.
  - intros E. right. apply IH, E.
Qed.

Lemma dict_get_None (k : K) (d : dict K V) :
  dict_get k d = None <-> ~ In k (dict_keys d).
Proof.
  induction d as [|[k' v'] d IH]; simpl; [tauto|].
  destruct (keqb_spec k k') as [->|NE].
  - split; [discriminate|]. intros N. exfalso. apply N. left. reflexivity.
  - rewrite IH. unfold dict_keys. split; [|tauto].
    intros N [E|I]; [congruence|tauto].
Qed.

Lemma dict_keys_set (k : K) (v : V) (d : dict K V) :
  dict_keys (dict_set k v d) =
  if dict_mem k d then dict_keys d else dict_keys d ++ [k].
Proof.
  unfold dict_mem, dict_keys. induction d as [|[k' v'] d IH]; simpl.
  - reflexivity.
  - destruct (keqb_spec k k') as [->|NE]; simpl; [reflexivity|].
    rewrite IH. destruct (dict_get k d); reflexivity.
Qed.

End DictFacts.

(** ** Control state (C10) *)

Section ControlStateFacts.
Context {Value : Type}.
Variable class_ns : dict string Value.

Let step (self : ControlState.t) (kv : string * Value) : ControlState.t :=
  if ControlState.hasattr class_ns self (fst kv)
  then ControlState.setattr self (fst kv) (snd kv) else self.







End ControlStateFacts.



(** ** Exact arithmetic: the comparisons of [PyFloat_Q] *)




(** ** Navigation (C5) *)





(** The scenarios of the specification, in binary64. *)
Example spatial_scenarios_binary64 :
  Spatial.analyze_direction (F:=PrimFloat.float)
    (flit 1 10, flit 3 10, flit 1 10, flit 1 10) = "left"%string /\
  Spatial.analyze_zone (F:=PrimFloat.float)
    (flit 3 10, flit 3 10, flit 4 10, flit 4 10) = "near"%string /\
  Spatial.analyze_zone (F:=PrimFloat.float)
    (flit 3 10, flit 3 10, flit 2 10, flit 3 10) = "mid"%string /\
  Spatial.analyze_movement (F:=PrimFloat.float)
    (flit 3 10, flit 3 10, flit 2 10, flit 2 10)
    [ {| h_bbox := (flit 3 10, flit 3 10, flit 15 100, flit 15 100);
         h_frame_id := 0; h_timestamp_ms := 0 |};
      {| h_bbox := (flit 3 10, flit 3 10, flit 18 100, flit 18 100);
         h_frame_id := 1; h_timestamp_ms := 33 |} ] = "approaching"%string /\
  Spatial.compute_urgency "near" "approaching" = "critical"%string.
Proof. vm_compute. repeat split. Qed.

(** ** Intersection over union (C8) *)

Section IouExact.










End IouExact.




(** ** Matching (C2) *)

Section ListOrder.
Context {A : Type}.


Lemma precedes_app_l (x y : A) (l l' : list A) :
  precedes x y l -> precedes x y (l ++ l').
Proof.
  induction 1 as [l I|a l P IH]; simpl.
  - apply precedes_here. apply in_or_app. left. exact I.
  - apply precedes_later. exact IH.
Qed.

Lemma precedes_snoc (x y : A) (l : list A) :
  In x l -> precedes x y (l ++ [y]).
Proof.
  induction l as [|a l IH]; simpl; [contradiction|].
  intros [->|I].
  - apply precedes_here. apply in_or_app. right. left. reflexivity.
  - apply precedes_later. apply IH, I.
Qed.

End ListOrder.

Section SortPermutation.
Context {F : Type} `{PyFloat F} {K : Type}.

Lemma insert_desc_perm (x : K * F) (l : list (K * F)) :
  Permutation (Matching.insert_desc x l) (x :: l).
Proof.
  induction l as [|y l IH]; simpl; [reflexivity|].
  destruct (flt (snd x) (snd y)); [|reflexivity].
  rewrite IH. apply perm_swap.
Qed.

Lemma sorted_desc_perm (l : list (K * F)) :
  Permutation (Matching.sorted_desc l) l.
Proof.
  induction l as [|x l IH]; simpl; [reflexivity|].
  rewrite insert_desc_perm. constructor. exact IH.
Qed.

End SortPermutation.

Section StableSort.
Context {K : Type}.






End StableSort.

Section SetFacts.
Context {K : Type} `{EqKey K}.

Lemma set_mem_In (k : K) (s : list K) : set_mem k s = true <-> In k s.
Proof.
  induction s as [|k' s IH]; simpl; [split; [discriminate|contradiction]|].
  rewrite orb_true_iff, IH.
  destruct (keqb_spec k k') as [->|NE]; split; auto.
  - intros [E|I]; [discriminate|auto].
  - intros [E|I]; [congruence|auto].
Qed.

Lemma set_mem_false (k : K) (s : list K) : set_mem k s = false <-> ~ In k s.
Proof.
  rewrite <- set_mem_In. destruct (set_mem k s); split; congruence.
Qed.

Lemma set_add_In (k k' : K) (s : list K) :
  In k' (set_add k s) <-> k' = k \/ In k' s.
Proof.
  unfold set_add. destruct (set_mem k s) eqn:E.
  - apply set_mem_In in E. split; [auto|]. intros [->|I]; assumption.
  - rewrite in_app_iff. simpl. split.
    + intros [I|[->|[]]]; auto.
    + intros [->|I]; auto.
Qed.

Lemma set_of_list_In (k : K) (l : list K) : In k (set_of_list l) <-> In k l.
Proof.
  unfold set_of_list.
  assert (G : forall acc, In k (fold_left (fun s k => set_add k s) l acc) <->
                          In k acc \/ In k l).
  { induction l as [|a l IH]; intros acc; simpl; [tauto|].
    rewrite IH, set_add_In. intuition congruence. }
  rewrite G. simpl. tauto.
Qed.

Lemma set_diff_In (k : K) (s t : list K) :
  In k (set_diff s t) <-> In k s /\ ~ In k t.
Proof.
  unfold set_diff. rewrite filter_In, negb_true_iff, set_mem_false. tauto.
Qed.

End SetFacts.

Section DictMoreFacts.
Context {K V : Type} `{EqKey K}.

Lemma dict_set_In (k k' : K) (v v' : V) (d : dict K V) :
  In (k, v) (dict_set k' v' d) -> (k = k' /\ v = v') \/ In (k, v) d.
Proof.
  induction d as [|[k'' v''] d IH]; simpl.
  - intros [[= <- <-]|[]]. left. auto.
  - destruct (keqb_spec k' k'') as [->|NE]; simpl.
    + intros [[= <- <-]|I]; auto.
    + intros [E|I]; auto. destruct (IH I); auto.
Qed.

Lemma dict_set_fresh (k : K) (v : V) (d : dict K V) :
  ~ In k (dict_keys d) -> dict_set k v d = d ++ [(k, v)].
Proof.
  unfold dict_keys. induction d as [|[k' v'] d IH]; simpl; [reflexivity|].
  intros N. rewrite keqb_neq by (intros ->; tauto).
  rewrite IH by tauto. reflexivity.
Qed.

Lemma dict_get_Some_key (k : K) (v : V) (d : dict K V) :
  dict_get k d = Some v -> In k (dict_keys d).
Proof.
  intros E. apply dict_get_In in E. unfold dict_keys.
  change k with (fst (k, v)). apply in_map, E.
Qed.

Lemma dict_get_key_Some (k : K) (d : dict K V) :
  In k (dict_keys d) -> exists v, dict_get k d = Some v.
Proof.
  intros I. destruct (dict_get k d) as [v|] eqn:E; [exists v; reflexivity|].
  apply dict_get_None in E. contradiction.
Qed.

End DictMoreFacts.

Section Candidates.
Context {F : Type} `{PyFloat F}.

Lemma iou_row_In (thr : F) (di : Z) (db : BBox F) (tracks : dict Z (BBox F))
    (m : dict (Z * Z) F) (d t : Z) (v : F) :
  In ((d, t), v) (Matching.iou_row thr di db tracks m) ->
  In ((d, t), v) m \/
  (d = di /\ exists tb, In (t, tb) tracks /\
                        v = Matching.compute_iou db tb /\ fge v thr = true).
Proof.
  unfold Matching.iou_row. revert m.
  induction tracks as [|[ti tb] tracks IH]; intros m; simpl; [auto|].
  intros I. apply IH in I. destruct I as [I|(-> & tb' & I & E & L)].
  - destruct (fge (Matching.compute_iou db tb) thr) eqn:L; [|auto].
    apply dict_set_In in I. destruct I as [[[= -> ->] ->]|I]; [|auto].
    right. split; [reflexivity|]. exists tb. auto.
  - right. split; [reflexivity|]. exists tb'. auto.
Qed.

Lemma iou_matrix_In (dets : list (Z * BBox F)) (tracks : dict Z (BBox F))
    (thr : F) (d t : Z) (v : F) :
  In ((d, t), v) (Matching.iou_matrix_of dets tracks thr) ->
  exists db tb, In (d, db) dets /\ In (t, tb) tracks /\
                v = Matching.compute_iou db tb /\ fge v thr = true.
Proof.
  unfold Matching.iou_matrix_of.
  assert (G : forall m,
             In ((d, t), v)
                (fold_left (fun m (x : Z * BBox F) =>
                              Matching.iou_row thr (fst x) (snd x) tracks m)
                           dets m) ->
             In ((d, t), v) m \/
             exists db tb, In (d, db) dets /\ In (t, tb) tracks /\
                           v = Matching.compute_iou db tb /\
                           fge v thr = true).
  { induction dets as [|[di db] dets IH]; intros m; simpl; [auto|].
    intros I. apply IH in I. destruct I as [I|(db' & tb & I & R)].
    - apply iou_row_In in I. simpl in I.
      destruct I as [I|(-> & tb & I & R)]; [auto|].
      right. exists db, tb. auto.
    - right. exists db', tb. auto. }
  intros I. apply G in I. destruct I as [[]|I]. exact I.
Qed.

Lemma iou_matrix_no_tracks (dets : list (Z * BBox F)) (thr : F) :
  Matching.iou_matrix_of dets [] thr = [].
Proof.
  unfold Matching.iou_matrix_of. induction dets as [|x dets IH]; simpl; auto.
Qed.

End Candidates.

Section Greedy.
Context {F : Type} `{PyFloat F}.

(** What holds of the state of the greedy loop once the pairs [done] have
    been processed. *)
Definition greedy_inv (done : list (Z * Z * F))
    (st : dict Z Z * list Z * list Z) : Prop :=
  let '(matches, matched_detections, matched_tracks) := st in
  (forall d, In d matched_detections <-> In d (map fst matches)) /\
  (forall t, In t matched_tracks <-> In t (map snd matches)) /\
  NoDup (map fst matches) /\
  NoDup (map snd matches) /\
  (forall d t, In (d, t) matches -> exists v, In ((d, t), v) done) /\
  (forall d t v,
      In ((d, t), v) done ->
      In (d, t) matches \/
      exists d' t' v',
        In (d', t') matches /\ (d' = d \/ t' = t) /\
        precedes ((d', t'), v') ((d, t), v) done).

Lemma greedy_inv_init : greedy_inv [] ([], [], []).
Proof.
  simpl. repeat split; try tauto; try constructor; try contradiction.
Qed.

Lemma greedy_inv_step (done : list (Z * Z * F))
    (st : dict Z Z * list Z * list Z) (p : Z * Z * F) :
  greedy_inv done st ->
  greedy_inv (done ++ [p]) (Matching.greedy_step st p).
Proof.
  destruct st as [[M MD] MT], p as [[d t] v].
  intros (HD & HT & ND & NT & Hin & Hall). unfold Matching.greedy_step.
  destruct (set_mem d MD) eqn:ED; simpl.
  - (* the detection is taken *)
    apply set_mem_In in ED. repeat split; try assumption; try apply HD;
      try apply HT.
    + intros d0 t0 I. destruct (Hin d0 t0 I) as [v0 I0]. exists v0.
      apply in_or_app. left. exact I0.
    + intros d0 t0 v0 I. apply in_app_or in I. destruct I as [I|[[= <- <- <-]|[]]].
      * destruct (Hall d0 t0 v0 I) as [I'|(d' & t' & v' & I' & S & P)];
          [left; exact I'|].
        right. exists d', t', v'. repeat split; try assumption.
        apply precedes_app_l, P.
      * right. apply HD in ED. apply in_map_iff in ED.
        destruct ED as ([d' t'] & E & I'). simpl in E. subst d'.
        destruct (Hin d t' I') as [v' I0].
        exists d, t', v'. repeat split; [exact I'|left; reflexivity|].
        apply precedes_snoc, I0.
  - destruct (set_mem t MT) eqn:ET; simpl.
    + (* the track is taken *)
      apply set_mem_In in ET. repeat split; try assumption; try apply HD;
        try apply HT.
      * intros d0 t0 I. destruct (Hin d0 t0 I) as [v0 I0]. exists v0.
        apply in_or_app. left. exact I0.
      * intros d0 t0 v0 I. apply in_app_or in I.
        destruct I as [I|[[= <- <- <-]|[]]].
        -- destruct (Hall d0 t0 v0 I) as [I'|(d' & t' & v' & I' & S & P)];
             [left; exact I'|].
           right. exists d', t', v'. repeat split; try assumption.
           apply precedes_app_l, P.
        -- right. apply HT in ET. apply in_map_iff in ET.
           destruct ED as []. destruct ET as ([d' t'] & E & I'). simpl in E.
           subst t'. destruct (Hin d' t I') as [v' I0].
           exists d', t, v'. repeat split; [exact I'|right; reflexivity|].
           apply precedes_snoc, I0.
    + (* the pair is committed *)
      apply set_mem_false in ED. apply set_mem_false in ET.
      assert (FD : ~ In d (dict_keys M)) by (unfold dict_keys; rewrite <- HD; exact ED).
      rewrite (dict_set_fresh d t M FD).
      rewrite !map_app. simpl. repeat split.
      * rewrite set_add_In, in_app_iff, HD. simpl. intros [->|I]; auto.
      * rewrite set_add_In, in_app_iff, HD. simpl. intros [I|[->|[]]]; auto.
      * rewrite set_add_In, in_app_iff, HT. simpl. intros [->|I]; auto.
      * rewrite set_add_In, in_app_iff, HT. simpl. intros [I|[->|[]]]; auto.
      * apply NoDup_app; [exact ND|repeat constructor; intros []|].
        intros x Ix [<-|[]]. apply ED, HD, Ix.
      * apply NoDup_app; [exact NT|repeat constructor; intros []|].
        intros x Ix [<-|[]]. apply ET, HT, Ix.
      * intros d0 t0 I. apply in_app_or in I.
        destruct I as [I|[[= <- <-]|[]]].
        -- destruct (Hin d0 t0 I) as [v0 I0]. exists v0.
           apply in_or_app. left. exact I0.
        -- exists v. apply in_or_app. right. left. reflexivity.
      * intros d0 t0 v0 I. apply in_app_or in I.
        destruct I as [I|[[= <- <- <-]|[]]].
        -- destruct (Hall d0 t0 v0 I) as [I'|(d' & t' & v' & I' & S & P)].
           ++ left. apply in_or_app. left. exact I'.
           ++ right. exists d', t', v'. repeat split; try assumption.
              ** apply in_or_app. left. exact I'.
              ** apply precedes_app_l, P.
        -- left. apply in_or_app. right. left. reflexivity.
Qed.

Lemma greedy_inv_fold (rest done : list (Z * Z * F))
    (st : dict Z Z * list Z * list Z) :
  greedy_inv done st ->
  greedy_inv (done ++ rest) (fold_left Matching.greedy_step rest st).
Proof.
  revert done st. induction rest as [|p rest IH]; intros done st I; simpl.
  - rewrite app_nil_r. exact I.
  - replace (done ++ p :: rest) with ((done ++ [p]) ++ rest)
      by (rewrite <- app_assoc; reflexivity).
    apply IH, greedy_inv_step, I.
Qed.

Lemma greedy_spec (pairs : list (Z * Z * F)) :
  greedy_inv pairs (Matching.greedy pairs).
Proof.
  exact (greedy_inv_fold pairs [] _ greedy_inv_init).
Qed.

(** The assignment does not depend on how sets are iterated. *)
Lemma matches_of_greedy (so : SetIteration) (dets : list (Z * BBox F))
    (tracks : dict Z (BBox F)) (thr : F) :
  dets <> [] -> tracks <> [] ->
  matches_of so dets tracks thr =
  fst (fst (Matching.greedy
              (Matching.sorted_desc (Matching.iou_matrix_of dets tracks thr)))).
Proof.
  intros ND NT. unfold matches_of, Matching.match_detections_to_tracks.
  destruct dets as [|d dets]; [congruence|].
  destruct tracks as [|t tracks]; [congruence|].
  destruct (Matching.greedy _) as [[M MD] MT]. reflexivity.
Qed.

Lemma matches_of_empty (so : SetIteration) (dets : list (Z * BBox F))
    (tracks : dict Z (BBox F)) (thr : F) :
  dets = [] \/ tracks = [] -> matches_of so dets tracks thr = [].
Proof.
  unfold matches_of, Matching.match_detections_to_tracks.
  intros [->| ->]; [reflexivity|]. destruct dets; reflexivity.
Qed.

Lemma matches_of_as_greedy (so : SetIteration) (dets : list (Z * BBox F))
    (tracks : dict Z (BBox F)) (thr : F) :
  matches_of so dets tracks thr =
  fst (fst (Matching.greedy
              (Matching.sorted_desc (Matching.iou_matrix_of dets tracks thr)))).
Proof.
  destruct dets as [|d dets].
  - rewrite matches_of_empty by (left; reflexivity). reflexivity.
  - destruct tracks as [|t tracks].
    + rewrite matches_of_empty by (right; reflexivity).
      rewrite iou_matrix_no_tracks. reflexivity.
    + apply matches_of_greedy; discriminate.
Qed.

End Greedy.


(** The scenario of the repository's tests: one detection against one track
    0.02 away, threshold 0.3. *)
Example match_scenario_one_pair :
  Matching.match_detections_to_tracks (F:=Q) insertion_order
    [(0%Z, (1#10, 1#10, 1#10, 1#10))]
    [(1%Z, (12#100, 12#100, 1#10, 1#10))] (3#10)
  = ([(0%Z, 1%Z)], [], []).
Proof. vm_compute. reflexivity. Qed.

(** Two detections with the same IoU against one track: the one generated
    first is committed, the other is left unmatched. *)
Example match_scenario_tie :
  Matching.match_detections_to_tracks (F:=Q) insertion_order
    [(0%Z, (10#100, 1#10, 1#10, 1#10)); (1%Z, (14#100, 1#10, 1#10, 1#10))]
    [(7%Z, (12#100, 1#10, 1#10, 1#10))] (3#10)
  = ([(0%Z, 7%Z)], [1%Z], []).
Proof. vm_compute. reflexivity. Qed.

Example match_scenario_one_pair_binary64 :
  Matching.match_detections_to_tracks (F:=PrimFloat.float) insertion_order
    [(0%Z, (flit 1 10, flit 1 10, flit 1 10, flit 1 10))]
    [(1%Z, (flit 12 100, flit 12 100, flit 1 10, flit 1 10))] (flit 3 10)
  = ([(0%Z, 1%Z)], [], []).
Proof. vm_compute. reflexivity. Qed.

(** ** The tracker loop (C3, C9) *)

Section Indexing.
Context {A : Type}.

Lemma zseq_In (x a : Z) (n : nat) :
  In x (zseq a n) <-> (a <= x < a + Z.of_nat n)%Z.
Proof.
  revert a. induction n as [|n IH]; intros a; simpl zseq.
  - simpl. lia.
  - simpl In. rewrite IH. lia.
Qed.

Lemma zseq_NoDup (a : Z) (n : nat) : NoDup (zseq a n).
Proof.
  revert a. induction n as [|n IH]; intros a; simpl; constructor.
  - rewrite zseq_In. lia.
  - apply IH.
Qed.

Lemma zseq_length (a : Z) (n : nat) : List.length (zseq a n) = n.
Proof. revert a. induction n as [|n IH]; intros a; simpl; auto. Qed.

Lemma enumerate_from_In (s i : Z) (a : A) (l : list A) :
  In (i, a) (enumerate_from s l) ->
  (s <= i < s + Z.of_nat (List.length l))%Z /\
  nth_error l (Z.to_nat (i - s)) = Some a.
Proof.
  revert s. induction l as [|b l IH]; intros s; simpl; [contradiction|].
  intros [[= <- <-]|I].
  - split; [lia|]. rewrite Z.sub_diag. reflexivity.
  - apply IH in I. destruct I as [R E]. split; [lia|].
    replace (Z.to_nat (i - s)) with (S (Z.to_nat (i - (s + 1)))) by lia.
    exact E.
Qed.

Lemma py_index_enumerate (i : Z) (a : A) (l : list A) :
  In (i, a) (enumerate l) -> py_index l i = Ok a.
Proof.
  intros I. apply enumerate_from_In in I. destruct I as [R E].
  rewrite Z.sub_0_r in E. unfold py_index.
  destruct (Z.ltb_spec i 0); [lia|].
  destruct (Z.ltb_spec i 0); [lia|].
  destruct (Z.leb_spec (Z.of_nat (List.length l)) i); [lia|]. simpl.
  rewrite E. reflexivity.
Qed.

End Indexing.

Section TrackerLoop.
Context {F : Type} `{PyFloat F}.

Lemma detections_of_valid (event : DetectionResult F) (d : Z) :
  In d (map fst (detections_of event)) -> valid_index event d.
Proof.
  unfold detections_of. rewrite map_map. simpl. intros I.
  apply in_map_iff in I. destruct I as ([i det] & <- & I). simpl.
  exists det. apply py_index_enumerate, I.
Qed.

Lemma matches_of_sound (so : SetIteration) (dets : list (Z * BBox F))
    (tracks : dict Z (BBox F)) (thr : F) (d t : Z) :
  In (d, t) (matches_of so dets tracks thr) ->
  In d (map fst dets) /\ In t (dict_keys tracks).
Proof.
  rewrite matches_of_as_greedy.
  pose proof (greedy_spec
                (Matching.sorted_desc (Matching.iou_matrix_of dets tracks thr)))
    as G.
  destruct (Matching.greedy _) as [[M MD] MT].
  destruct G as (_ & _ & _ & _ & Hin & _). simpl. intros I.
  destruct (Hin d t I) as [v Iv].
  apply (Permutation_in _ (sorted_desc_perm _)) in Iv.
  apply iou_matrix_In in Iv. destruct Iv as (db & tb & Id & It & _).
  split.
  - change d with (fst (d, db)). apply in_map, Id.
  - unfold dict_keys. change t with (fst (t, tb)). apply in_map, It.
Qed.

Lemma matches_of_NoDup_tracks (so : SetIteration) (dets : list (Z * BBox F))
    (tracks : dict Z (BBox F)) (thr : F) :
  NoDup (dict_values (matches_of so dets tracks thr)).
Proof.
  rewrite matches_of_as_greedy.
  pose proof (greedy_spec
                (Matching.sorted_desc (Matching.iou_matrix_of dets tracks thr)))
    as G.
  destruct (Matching.greedy _) as [[M MD] MT].
  destruct G as (_ & _ & _ & NT & _). exact NT.
Qed.

Lemma unmatched_dets_sound (so : SetIteration) (dets : list (Z * BBox F))
    (tracks : dict Z (BBox F)) (thr : F) (d : Z) :
  In d (unmatched_dets_of so dets tracks thr) -> In d (map fst dets).
Proof.
  unfold unmatched_dets_of, Matching.match_detections_to_tracks.
  destruct dets as [|d0 dets]; [simpl; auto|].
  destruct tracks as [|t0 tracks]; [simpl; auto|].
  destruct (Matching.greedy _) as [[M MD] MT]. simpl snd.
  intros I. apply (Permutation_in _ (set_order_perm so _)) in I.
  apply set_diff_In in I. destruct I as [I _].
  apply (proj1 (set_of_list_In _ _)) in I. exact I.
Qed.

Lemma get_active_tracks_keys (tr : Tracker.t F) :
  dict_keys (Tracker.get_active_tracks tr) = dict_keys (Tracker.tracks tr).
Proof.
  unfold Tracker.get_active_tracks, dict_keys. rewrite map_map. reflexivity.
Qed.

Lemma dict_set_Forall {V : Type} (P : Z * V -> Prop) (k : Z) (v : V)
    (d : dict Z V) :
  Forall P d -> P (k, v) -> In k (dict_keys d) -> Forall P (dict_set k v d).
Proof.
  intros FA Pk. induction FA as [|[k' v'] d Pkv FA IH]; simpl; [contradiction|].
  destruct (Z.eqb_spec k k') as [->|NE]; intros I.
  - constructor; assumption.
  - constructor; [assumption|]. apply IH. destruct I as [E|I]; [|exact I].
    simpl in E. congruence.
Qed.

Lemma dict_set_keys_existing {V : Type} (k : Z) (v : V) (d : dict Z V) :
  In k (dict_keys d) -> dict_keys (dict_set k v d) = dict_keys d.
Proof.
  intros I. rewrite dict_keys_set. unfold dict_mem.
  destruct (dict_get_key_Some k d I) as [v' ->]. reflexivity.
Qed.

(** The first loop: [for det_idx, track_id in matches.items()]. *)
Lemma update_loop_spec (event : DetectionResult F) (ms : list (Z * Z)) :
  forall (tr : Tracker.t F) (pubs : list (TrackUpdate F)) (ids : list Z),
    (forall d t, In (d, t) ms ->
                 valid_index event d /\ In t (dict_keys (Tracker.tracks tr))) ->
    Forall (entry_ok (Tracker.next_track_id tr)) (Tracker.tracks tr) ->
    just_updated ids (Tracker.tracks tr) ->
    exists tr' new_pubs,
      for_each (TrackerModule.update_matched event) ms (tr, pubs)
        = Ok (tr', pubs ++ new_pubs) /\
      Tracker.max_age tr' = Tracker.max_age tr /\
      Tracker.next_track_id tr' = Tracker.next_track_id tr /\
      dict_keys (Tracker.tracks tr') = dict_keys (Tracker.tracks tr) /\
      Forall (entry_ok (Tracker.next_track_id tr)) (Tracker.tracks tr') /\
      just_updated (ids ++ map snd ms) (Tracker.tracks tr') /\
      map (@tu_track_id F) new_pubs = map snd ms /\
      Forall (stamped event) new_pubs.
Proof.
  induction ms as [|[d t] ms IH]; intros tr pubs ids Hms Hwf Hup.
  - exists tr, []. simpl. rewrite !app_nil_r. repeat split; auto.
  - destruct (Hms d t (or_introl eq_refl)) as [[det Hdet] Ht].
    destruct (dict_get_key_Some t _ Ht) as [trk Htrk].
    set (trk' := Track.update trk (det_bbox det) (dr_frame_id event)
                   (dr_timestamp_ms event)).
    set (tr1 := {| Tracker.max_age := Tracker.max_age tr;
                   Tracker.next_track_id := Tracker.next_track_id tr;
                   Tracker.tracks := dict_set t trk' (Tracker.tracks tr) |}).
    set (u := TrackerModule.publish_track_update trk' (dr_frame_id event)
                (dr_timestamp_ms event)).
    assert (Hid : Track.track_id trk = t).
    { apply dict_get_In in Htrk. rewrite Forall_forall in Hwf.
      apply (Hwf (t, trk) Htrk). }
    assert (Hstep : TrackerModule.update_matched event (tr, pubs) (d, t)
                    = Ok (tr1, pubs ++ [u])).
    { unfold TrackerModule.update_matched, Tracker.update_track. simpl.
      rewrite Hdet. simpl. rewrite Htrk. reflexivity. }
    destruct (IH tr1 (pubs ++ [u]) (ids ++ [t]))
      as (tr' & new_pubs & Hrun & Hage & Hnext & Hkeys & Hwf' & Hup' & Hids
          & Hst).
    + intros d0 t0 I. destruct (Hms d0 t0 (or_intror I)) as [V I'].
      split; [exact V|]. simpl. rewrite dict_set_keys_existing; assumption.
    + simpl. apply dict_set_Forall; [exact Hwf| |exact Ht].
      split; [exact Hid|]. simpl. rewrite Forall_forall in Hwf.
      apply dict_get_In in Htrk. apply (Hwf (t, trk) Htrk).
    + intros k Ik. simpl. destruct (Z.eq_dec k t) as [->|NE].
      * exists trk'. rewrite dict_get_set_same. split; reflexivity.
      * rewrite dict_get_set_other by assumption. apply Hup.
        apply in_app_or in Ik. destruct Ik as [Ik|[E|[]]]; [exact Ik|].
        congruence.
    + exists tr', (u :: new_pubs). simpl in *.
      rewrite Hstep. simpl. rewrite Hrun, <- app_assoc. simpl.
      repeat split; try assumption.
      * rewrite Hkeys. apply dict_set_keys_existing, Ht.
      * rewrite <- app_assoc in Hup'. exact Hup'.
      * rewrite Hids. f_equal. exact Hid.
      * constructor; [split; reflexivity|exact Hst].
Qed.

(** The second loop: [for det_idx in unmatched_dets]. *)
Lemma create_loop_spec (event : DetectionResult F) (ud : list Z) :
  forall (tr : Tracker.t F) (pubs : list (TrackUpdate F)),
    (forall d, In d ud -> valid_index event d) ->
    Forall (entry_ok (Tracker.next_track_id tr)) (Tracker.tracks tr) ->
    exists news new_pubs,
      for_each (TrackerModule.create_unmatched event) ud (tr, pubs)
        = Ok ({| Tracker.max_age := Tracker.max_age tr;
                 Tracker.next_track_id :=
                   (Tracker.next_track_id tr + Z.of_nat (List.length ud))%Z;
                 Tracker.tracks := Tracker.tracks tr ++ news |},
              pubs ++ new_pubs) /\
      dict_keys news = zseq (Tracker.next_track_id tr) (List.length ud) /\
      Forall fresh_entry news /\
      map (@tu_track_id F) new_pubs
        = zseq (Tracker.next_track_id tr) (List.length ud) /\
      map (@tu_stable F) new_pubs = map (fun _ => false) ud /\
      Forall (stamped event) new_pubs.
Proof.
  induction ud as [|d ud IH]; intros tr pubs Hud Hwf.
  - exists [], []. simpl. rewrite !app_nil_r, Z.add_0_r.
    destruct tr; repeat split; constructor.
  - destruct (Hud d (or_introl eq_refl)) as [det Hdet].
    set (trk := Track.update
                  (Track.new (Tracker.next_track_id tr) (det_label det)
                     (det_bbox det))
                  (det_bbox det) (dr_frame_id event) (dr_timestamp_ms event)).
    set (tr1 := {| Tracker.max_age := Tracker.max_age tr;
                   Tracker.next_track_id := (Tracker.next_track_id tr + 1)%Z;
                   Tracker.tracks :=
                     Tracker.tracks tr ++ [(Tracker.next_track_id tr, trk)] |}).
    set (u := TrackerModule.publish_track_update trk (dr_frame_id event)
                (dr_timestamp_ms event)).
    assert (Hfresh : ~ In (Tracker.next_track_id tr)
                        (dict_keys (Tracker.tracks tr))).
    { intros I. apply in_map_iff in I. destruct I as (kv & E & I).
      rewrite Forall_forall in Hwf. destruct (Hwf kv I) as [_ L]. lia. }
    assert (Hstep : TrackerModule.create_unmatched event (tr, pubs) d
                    = Ok (tr1, pubs ++ [u])).
    { unfold TrackerModule.create_unmatched, Tracker.create_track. simpl.
      rewrite Hdet. simpl.
      rewrite (dict_set_fresh (Tracker.next_track_id tr) _ _ Hfresh).
      reflexivity. }
    destruct (IH tr1 (pubs ++ [u])) as (news & new_pubs & Hrun & Hk & Hf & Hids
                                        & Hstable & Hst).
    + intros d0 I. apply Hud. right. exact I.
    + simpl. apply Forall_app. split.
      * eapply Forall_impl; [|exact Hwf]. intros kv [E L]. split; [exact E|lia].
      * constructor; [|constructor]. split; [reflexivity|simpl; lia].
    + exists ((Tracker.next_track_id tr, trk) :: news), (u :: new_pubs).
      simpl for_each. rewrite Hstep. simpl bind. rewrite Hrun. simpl.
      rewrite <- !app_assoc. simpl.
      replace (Tracker.next_track_id tr + 1 + Z.of_nat (List.length ud))%Z
        with (Tracker.next_track_id tr + Z.pos (Pos.of_succ_nat (List.length ud)))%Z
        by lia.
      repeat split; try assumption.
      * simpl in Hk. unfold dict_keys in *. rewrite Hk. reflexivity.
      * constructor; [|exact Hf]. repeat split; reflexivity.
      * simpl in Hids. rewrite Hids. reflexivity.
      * rewrite Hstable. reflexivity.
      * constructor; [split; reflexivity|exact Hst].
Qed.

(** One loop iteration from a well-formed tracker: it completes, and this is
    what it publishes and what becomes of the tracks it matched and the
    tracks it created. *)
Lemma process_detections_spec (so : SetIteration) (thr : F)
    (tr : Tracker.t F) (event : DetectionResult F) :
  tracker_wf tr ->
  let matches :=
    matches_of so (detections_of event) (Tracker.get_active_tracks tr) thr in
  let ud :=
    unmatched_dets_of so (detections_of event) (Tracker.get_active_tracks tr)
      thr in
  exists tr' pubs,
    TrackerModule.process_detections so thr tr event = Ok (tr', pubs) /\
    map (@tu_track_id F) pubs
      = dict_values matches ++ zseq (Tracker.next_track_id tr) (List.length ud) /\
    Forall (stamped event) pubs /\
    Tracker.max_age tr' = Tracker.max_age tr /\
    Tracker.next_track_id tr'
      = (Tracker.next_track_id tr + Z.of_nat (List.length ud))%Z /\
    tracker_wf tr' /\
    (forall id, In id (dict_values matches) ->
                In id (dict_keys (Tracker.tracks tr)) /\
                exists trk, In (id, trk) (Tracker.tracks tr') /\
                            Track.frames_since_update trk = 0%Z) /\
    (forall id, In id (zseq (Tracker.next_track_id tr) (List.length ud)) ->
                exists trk, In (id, trk) (Tracker.tracks tr') /\
                            Track.track_id trk = id /\
                            Track.consecutive_hits trk = 0%Z /\
                            Track.frames_since_update trk = 1%Z /\
                            Track.stable trk = false).
Proof.
  intros [Hage Hwf]. cbv zeta.
  unfold TrackerModule.process_detections, matches_of, unmatched_dets_of.
  fold (detections_of event).
  pose proof (@matches_of_sound so (detections_of event)
                (Tracker.get_active_tracks tr) thr) as Hsound.
  pose proof (@unmatched_dets_sound so (detections_of event)
                (Tracker.get_active_tracks tr) thr) as Hud.
  unfold matches_of in Hsound. unfold unmatched_dets_of in Hud.
  destruct (Matching.match_detections_to_tracks so (detections_of event)
              (Tracker.get_active_tracks tr) thr) as [[M UD] UT].
  simpl fst in *. simpl snd in *.
  assert (HM : forall d t, In (d, t) M ->
                 valid_index event d /\ In t (dict_keys (Tracker.tracks tr))).
  { intros d t I. destruct (Hsound d t I) as [Id It]. split.
    - apply detections_of_valid, Id.
    - rewrite <- get_active_tracks_keys. exact It. }
  assert (Hbelow : forall id, In id (dict_values M) ->
                              (id < Tracker.next_track_id tr)%Z).
  { intros id I. apply in_map_iff in I. destruct I as ([d t] & <- & I).
    destruct (HM d t I) as [_ It]. apply in_map_iff in It.
    destruct It as (kv & E & Ikv). rewrite Forall_forall in Hwf.
    destruct (Hwf kv Ikv) as [_ L]. simpl. rewrite <- E. exact L. }
  destruct (@update_loop_spec event M tr [] [] HM Hwf)
    as (tr1 & pubs1 & Hrun1 & Hage1 & Hnext1 & Hkeys1 & Hwf1 & Hup1 & Hids1
        & Hst1).
  { intros k []. }
  simpl in Hrun1, Hup1. rewrite <- Hnext1 in Hwf1.
  destruct (@create_loop_spec event UD tr1 pubs1)
    as (news & pubs2 & Hrun2 & Hk2 & Hf2 & Hids2 & _ & Hst2).
  { intros d I. apply detections_of_valid, Hud, I. }
  { exact Hwf1. }
  rewrite Hrun1. simpl bind. rewrite Hrun2. simpl bind.
  unfold Tracker.evict_old_tracks, Tracker.mark_missed_tracks. simpl.
  rewrite Hage1, Hnext1 in *.
  set (mm := fun kv : Z * Track.t F =>
               if negb (set_mem (fst kv) (set_of_list (dict_values M)))
               then (fst kv, Track.mark_missed (snd kv)) else kv).
  set (keep := fun kv : Z * Track.t F =>
                 negb (Tracker.max_age tr <? Track.frames_since_update (snd kv))%Z).
  eexists _, _. split; [reflexivity|]. simpl.
  assert (Hmatched : forall id, In id (dict_values M) ->
                       set_mem id (set_of_list (dict_values M)) = true).
  { intros id I. apply set_mem_In, set_of_list_In, I. }
  assert (Hnew : forall id, In id (zseq (Tracker.next_track_id tr)
                                        (List.length UD)) ->
                   set_mem id (set_of_list (dict_values M)) = false).
  { intros id I. apply set_mem_false. intros I'.
    apply (proj1 (set_of_list_In _ _)) in I'. apply Hbelow in I'.
    apply zseq_In in I. lia. }
  split; [rewrite map_app, Hids1, Hids2; reflexivity|].
  split; [apply Forall_app; split; assumption|].
  split; [reflexivity|]. split; [reflexivity|].
  split; [split; [exact Hage|]|split].
  - (* well-formedness of the new state *)
    rewrite Forall_forall. intros kv I. apply filter_In in I.
    destruct I as [I _]. apply in_map_iff in I. destruct I as (kv0 & <- & I).
    assert (E0 : entry_ok (Tracker.next_track_id tr
                           + Z.of_nat (List.length UD)) kv0).
    { apply in_app_or in I. destruct I as [I|I].
      - rewrite Forall_forall in Hwf1. destruct (Hwf1 kv0 I) as [E L].
        split; [exact E|lia].
      - rewrite Forall_forall in Hf2. destruct (Hf2 kv0 I) as [E _].
        split; [exact E|].
        assert (Ik : In (fst kv0) (dict_keys news)) by (apply in_map, I).
        rewrite Hk2 in Ik. apply zseq_In in Ik. lia. }
    unfold mm. destruct (negb _); [|exact E0].
    destruct E0 as [E L]. split; simpl; assumption.
  - intros id Hid. destruct (Hup1 id Hid) as (trk & Hget & Hfsu). split.
    + rewrite <- Hkeys1. eapply dict_get_Some_key, Hget.
    + exists trk. split; [|exact Hfsu]. apply filter_In. split.
      * apply in_map_iff. exists (id, trk). split.
        -- unfold mm. simpl. rewrite (Hmatched id Hid). reflexivity.
        -- apply in_or_app. left. apply dict_get_In, Hget.
      * unfold keep. simpl. rewrite Hfsu.
        destruct (Z.ltb_spec (Tracker.max_age tr) 0); [lia|reflexivity].
  - intros id I. pose proof I as I0. rewrite <- Hk2 in I.
    apply in_map_iff in I. destruct I as ([k trk] & E & I). simpl in E. subst k.
    rewrite Forall_forall in Hf2. destruct (Hf2 (id, trk) I) as (Ei & Eh & Ef & Es).
    simpl in Ei, Eh, Ef, Es.
    exists (Track.mark_missed trk). split; [|simpl; rewrite Ef; auto].
    apply filter_In. split.
    + apply in_map_iff. exists (id, trk). split.
      * unfold mm. simpl. rewrite (Hnew id I0). reflexivity.
      * apply in_or_app. right. exact I.
    + unfold keep. simpl. rewrite Ef.
      destruct (Z.ltb_spec (Tracker.max_age tr) (0 + 1)); [lia|reflexivity].
Qed.

Lemma reachable_wf (tr : Tracker.t F) : reachable tr -> tracker_wf tr.
Proof.
  induction 1 as [|so thr tr ev tr' pubs R IH Hrun].
  - split; [simpl; lia|constructor].
  - destruct (process_detections_spec so thr ev IH)
      as (tr2 & pubs2 & Hrun2 & _ & _ & _ & _ & Hwf & _).
    rewrite Hrun in Hrun2. injection Hrun2 as <- <-. exact Hwf.
Qed.

End TrackerLoop.

(** Every track created in a loop iteration is marked missed by the same
    iteration: [mark_missed_tracks(matched_track_ids)] runs after the
    creation loop and a new id is never a matched id. *)
Lemma created_tracks_are_marked_missed {F} `{PyFloat F} (so : SetIteration)
    (thr : F) (tr : Tracker.t F) (event : DetectionResult F) :
  reachable tr ->
  exists tr' pubs,
    TrackerModule.process_detections so thr tr event = Ok (tr', pubs) /\
    forall id,
      (Tracker.next_track_id tr <= id < Tracker.next_track_id tr')%Z ->
      exists trk,
        In (id, trk) (Tracker.tracks tr') /\
        Track.consecutive_hits trk = 0%Z /\
        Track.frames_since_update trk = 1%Z /\
        Track.stable trk = false.
Proof.
  intros R. apply reachable_wf in R.
  destruct (process_detections_spec so thr event R)
    as (tr' & pubs & Hrun & _ & _ & _ & Hnext & _ & _ & Hnew).
  exists tr', pubs. split; [exact Hrun|].
  intros id Hid. rewrite Hnext in Hid.
  destruct (Hnew id) as (trk & I & _ & Hh & Hf & Hs).
  - apply zseq_In. exact Hid.
  - exists trk. auto.
Qed.

(** C3.  A run on which the claim fails: the first frame seen by a new
    [TrackerModule] carries one detection.  The iteration creates track 1 and
    publishes its update (not stable), and then marks that same track missed:
    at the end of the iteration its [consecutive_hits] is 0 and its
    [frames_since_update] is 1, although the track did not exist before the
    iteration. *)
Theorem C3_created_track_ends_cycle_marked_missed :
  let event : DetectionResult PrimFloat.float :=
    {| dr_frame_id := 0; dr_timestamp_ms := 0;
       dr_objects :=
         [ {| det_label := "person"; det_confidence := flit 9 10;
              det_bbox := (flit 1 10, flit 1 10, flit 1 10, flit 1 10) |} ] |} in
  exists tracker' update track,
    TrackerModule.process_detections insertion_order (flit 3 10)
      TrackerModule.init event = Ok (tracker', [update]) /\
    tu_track_id update = 1%Z /\ tu_stable update = false /\
    Tracker.next_track_id tracker' = 2%Z /\
    Tracker.tracks tracker' = [(1%Z, track)] /\
    Track.stable track = false /\
    Track.consecutive_hits track = 0%Z /\
    Track.frames_since_update track = 1%Z.
Proof.
  cbv zeta. eexists _, _, _. vm_compute. repeat split.
Qed.

(** The consequence for stability: an object detected in three frames in a
    row (created in frame 0, matched in frames 1 and 2) has
    [consecutive_hits] 2 and is not stable; the fourth frame makes it
    stable. *)
Example tracker_module_stable_on_fourth_frame :
  let summary (r : result (TrackerModule.st (F:=PrimFloat.float))) :=
    match r with
    | Ok (tracker, published) =>
        Some (map (fun kv : Z * Track.t PrimFloat.float =>
                     (fst kv, Track.consecutive_hits (snd kv),
                      Track.stable (snd kv)))
                  (Tracker.tracks tracker),
              map (@tu_stable _) published)
    | Raise _ => None
    end in
  summary (run_frames insertion_order (flit 3 10)
             (map same_person_frame [0; 1; 2]%Z))
    = Some ([(1%Z, 2%Z, false)], [false]) /\
  summary (run_frames insertion_order (flit 3 10)
             (map same_person_frame [0; 1; 2; 3]%Z))
    = Some ([(1%Z, 3%Z, true)], [true]).
Proof. vm_compute. split; reflexivity. Qed.

(** C9, as amended.  From every reachable tracker state a loop iteration
    completes, and the updates it publishes are, in order, one for each
    matched track and one for each track created in the iteration: their
    track ids are pairwise distinct, each carries the frame id and timestamp
    of the event, each of these tracks is in the tracker afterwards, and a
    track that was there before and was not matched gets no update. *)
Theorem C9_one_update_per_matched_or_created_track :
  forall (F : Type) (PF : PyFloat F) (so : SetIteration) (iou_threshold : F)
         (tracker : Tracker.t F) (event : DetectionResult F),
    reachable tracker ->
    let matched :=
      dict_values (matches_of so (detections_of event)
                     (Tracker.get_active_tracks tracker) iou_threshold) in
    let created :=
      zseq (Tracker.next_track_id tracker)
           (List.length (unmatched_dets_of so (detections_of event)
                           (Tracker.get_active_tracks tracker)
                           iou_threshold)) in
    exists tracker' published,
      TrackerModule.process_detections so iou_threshold tracker event
        = Ok (tracker', published) /\
      map (@tu_track_id F) published = matched ++ created /\
      NoDup (map (@tu_track_id F) published) /\
      Forall (stamped event) published /\
      (forall id, In id matched ->
                  In id (dict_keys (Tracker.tracks tracker))) /\
      (forall id, In id created ->
                  ~ In id (dict_keys (Tracker.tracks tracker))) /\
      (forall id, In id (map (@tu_track_id F) published) ->
                  In id (dict_keys (Tracker.tracks tracker'))) /\
      (forall id, In id (dict_keys (Tracker.tracks tracker)) ->
                  ~ In id matched ->
                  ~ In id (map (@tu_track_id F) published)).
Proof.
  intros F PF so thr tr event R. cbv zeta. apply reachable_wf in R.
  destruct (process_detections_spec so thr event R)
    as (tr' & pubs & Hrun & Hids & Hst & _ & _ & _ & Hmatched & Hnew).
  destruct R as [_ Hwf].
  assert (Hold : forall id, In id (dict_keys (Tracker.tracks tr)) ->
                            (id < Tracker.next_track_id tr)%Z).
  { intros id I. apply in_map_iff in I. destruct I as (kv & <- & I).
    rewrite Forall_forall in Hwf. apply (Hwf kv I). }
  exists tr', pubs. split; [exact Hrun|]. split; [exact Hids|].
  split; [|split; [exact Hst|split; [|split; [|split]]]].
  - rewrite Hids. apply NoDup_app.
    + apply matches_of_NoDup_tracks.
    + apply zseq_NoDup.
    + intros id Im In'. apply Hmatched in Im. destruct Im as [Im _].
      apply Hold in Im. apply zseq_In in In'. lia.
  - intros id I. apply Hmatched, I.
  - intros id I I'. apply Hold in I'. apply zseq_In in I. lia.
  - intros id I. rewrite Hids in I. apply in_app_or in I.
    destruct I as [I|I].
    + destruct (Hmatched id I) as (_ & trk & It & _).
      change id with (fst (id, trk)). apply in_map, It.
    + destruct (Hnew id I) as (trk & It & _).
      change id with (fst (id, trk)). apply in_map, It.
  - intros id I NI I'. rewrite Hids in I'. apply in_app_or in I'.
    destruct I' as [I'|I']; [contradiction|].
    apply Hold in I. apply zseq_In in I'. lia.
Qed.

Lemma C9_witness :
  let event : DetectionResult Q :=
    {| dr_frame_id := 0; dr_timestamp_ms := 0;
       dr_objects :=
         [ {| det_label := "person"; det_confidence := 9#10;
              det_bbox := (1#10, 1#10, 1#10, 1#10) |} ] |} in
  exists tracker' published,
    TrackerModule.process_detections insertion_order (3#10)
      TrackerModule.init event = Ok (tracker', published) /\
    map (@tu_track_id Q) published = [1%Z] /\
    NoDup (map (@tu_track_id Q) published).
Proof.
  cbv zeta.
  destruct (@C9_one_update_per_matched_or_created_track Q PyFloat_Q
              insertion_order (3#10) TrackerModule.init
              {| dr_frame_id := 0; dr_timestamp_ms := 0;
                 dr_objects :=
                   [ {| det_label := "person"; det_confidence := 9#10;
                        det_bbox := (1#10, 1#10, 1#10, 1#10) |} ] |}
              reachable_init)
    as (tr' & pubs & Hrun & Hids & Hnd & _).
  exists tr', pubs. split; [exact Hrun|]. split; [exact Hids|exact Hnd].
Defined.

(** C9, as stated, fails: after a first frame with one detection the
    tracker holds track 1; a second frame with no detection publishes
    nothing, although track 1 is still in the tracker after it. *)
Lemma C9_counterexample_missed_track_gets_no_update :
  let event0 : DetectionResult PrimFloat.float :=
    {| dr_frame_id := 0; dr_timestamp_ms := 0;
       dr_objects :=
         [ {| det_label := "person"; det_confidence := flit 9 10;
              det_bbox := (flit 1 10, flit 1 10, flit 1 10, flit 1 10) |} ] |} in
  let event1 : DetectionResult PrimFloat.float :=
    {| dr_frame_id := 1; dr_timestamp_ms := 33; dr_objects := [] |} in
  exists tracker1 published0 tracker2,
    TrackerModule.process_detections insertion_order (flit 3 10)
      TrackerModule.init event0 = Ok (tracker1, published0) /\
    TrackerModule.process_detections insertion_order (flit 3 10)
      tracker1 event1 = Ok (tracker2, []) /\
    dict_keys (Tracker.tracks tracker2) = [1%Z].
Proof.
  cbv zeta. eexists _, _, _. split; [vm_compute; reflexivity|].
  vm_compute. split; reflexivity.
Qed.

(* ================================================================== *)
(** * Part III.  Further properties of the modelled code                *)
(* ================================================================== *)

(** ** Track history and velocity *)

Section TrackHistory.
Context {F : Type} `{PyFloat F}.

Lemma lastn_short {A : Type} (n : nat) (l : list A) :
  (List.length l <= n)%nat -> lastn n l = l.
Proof.
  intros L. unfold lastn. replace (List.length l - n)%nat with 0%nat by lia.
  reflexivity.
Qed.

Lemma lastn_length {A : Type} (n : nat) (l : list A) :
  List.length (lastn n l) = Nat.min n (List.length l).
Proof. unfold lastn. rewrite length_skipn. lia. Qed.

Lemma tl_skipn {A : Type} (k : nat) (l : list A) :
  tl (skipn k l) = skipn (S k) l.
Proof.
  revert l. induction k as [|k IH]; intros [|a l]; try reflexivity.
  change (skipn (S k) (a :: l)) with (skipn k l).
  change (skipn (S (S k)) (a :: l)) with (skipn (S k) l). apply IH.
Qed.

Lemma deque_append_lastn {A : Type} (n : nat) (l : list A) (x : A) :
  (1 <= n)%nat -> deque_append n (lastn n l) x = lastn n (l ++ [x]).
Proof.
  intros Hn. unfold deque_append. rewrite lastn_length.
  destruct (Nat.leb_spec n (Nat.min n (List.length l))) as [L|L].
  - unfold lastn. rewrite length_app. simpl.
    replace (List.length l + 1 - n)%nat with (S (List.length l - n)) by lia.
    rewrite skipn_app.
    replace (S (List.length l - n) - List.length l)%nat with 0%nat by lia.
    simpl skipn at 2. f_equal. apply tl_skipn.
  - rewrite (@lastn_short _ n l) by lia.
    rewrite lastn_short; [reflexivity|]. rewrite length_app. simpl. lia.
Qed.

Lemma update_entries_snoc (ops : list (track_op F)) (op : track_op F) :
  update_entries (ops ++ [op]) =
  update_entries ops ++
  match op with
  | OpUpdate b f ts => [{| h_bbox := b; h_frame_id := f; h_timestamp_ms := ts |}]
  | OpMissed => []
  end.
Proof.
  induction ops as [|o ops IH]; simpl.
  - destruct op; reflexivity.
  - destruct o; rewrite IH; reflexivity.
Qed.

Lemma history_of_run (tid : Z) (lbl : string) (b : BBox F)
    (ops : list (track_op F)) :
  Track.history (run_ops ops (Track.new tid lbl b)) =
  lastn 5 (update_entries ops).
Proof.
  induction ops as [|op ops IH] using rev_ind; [reflexivity|].
  rewrite run_ops_snoc, update_entries_snoc. destruct op; simpl.
  - rewrite IH. apply deque_append_lastn. lia.
  - rewrite app_nil_r. exact IH.
Qed.

Lemma rev_lastn_two {A : Type} (n : nat) (pre : list A) (a b : A) :
  (2 <= n)%nat ->
  exists rest, rev (lastn n (pre ++ [a; b])) = b :: a :: rest.
Proof.
  intros Hn. unfold lastn. rewrite length_app. simpl.
  destruct (Nat.leb_spec (List.length pre + 2 - n) (List.length pre)) as [L|L];
    [|lia].
  rewrite skipn_app.
  replace (List.length pre + 2 - n - List.length pre)%nat with 0%nat by lia.
  simpl skipn at 2. rewrite rev_app_distr. simpl. eauto.
Qed.

End TrackHistory.

(** X1.  The history of a track is a window on its updates: after any
    sequence of [update] and [mark_missed] calls on a new track it holds
    exactly the last five update entries, oldest first (all of them when
    there are fewer), so it never has more than five entries and
    [mark_missed] never touches it. *)
Theorem X1_history_is_last_five_updates :
  forall (F : Type) (PF : PyFloat F) (tid : Z) (lbl : string) (b : BBox F)
         (ops : list (track_op F)),
    let t := run_ops ops (Track.new tid lbl b) in
    Track.history t = lastn 5 (update_entries ops) /\
    List.length (Track.history t)
      = Nat.min 5 (List.length (update_entries ops)) /\
    (List.length (Track.history t) <= 5)%nat /\
    Track.history (Track.mark_missed t) = Track.history t.
Proof.
  intros F PF tid lbl b ops. cbv zeta.
  change (Track.history (Track.mark_missed
                           (run_ops ops (Track.new tid lbl b))))
    with (Track.history (run_ops ops (Track.new tid lbl b))).
  rewrite history_of_run, lastn_length.
  split; [reflexivity|]. split; [reflexivity|]. split; [lia|reflexivity].
Qed.

(** X2.  [compute_velocity] on a track driven from creation: it is [None]
    as long as the track has had fewer than two updates, and once the last
    two updates are [e1] then [e2] (whatever happened before, and however
    many missed cycles are interleaved) it is the difference of the box
    centres of [e2] and [e1]. *)
Theorem X2_velocity_from_last_two_updates :
  forall (F : Type) (PF : PyFloat F) (tid : Z) (lbl : string) (b : BBox F)
         (ops : list (track_op F)),
    let t := run_ops ops (Track.new tid lbl b) in
    ((List.length (update_entries ops) < 2)%nat ->
     Track.compute_velocity t = None) /\
    (forall pre e1 e2,
        update_entries ops = pre ++ [e1; e2] ->
        Track.compute_velocity t =
        Some (fsub (bbox_center_x (h_bbox e2)) (bbox_center_x (h_bbox e1)),
              fsub (bbox_center_y (h_bbox e2)) (bbox_center_y (h_bbox e1)))).
Proof.
  intros F PF tid lbl b ops. cbv zeta. unfold Track.compute_velocity.
  rewrite history_of_run. split.
  - intros L. rewrite lastn_short by lia.
    rewrite <- length_rev in L.
    destruct (rev (update_entries ops)) as [|a [|c r]]; simpl in L;
      try reflexivity; lia.
  - intros pre e1 e2 E. rewrite E.
    destruct (@rev_lastn_two _ 5%nat pre e1 e2) as [rest ->]; [lia|].
    unfold bbox_center_x, bbox_center_y.
    destruct (h_bbox e2) as [[[rx ry] rw] rh].
    destruct (h_bbox e1) as [[[px py] pw] ph]. reflexivity.
Qed.

Lemma X2_witness :
  let b1 : BBox Q := (1#10, 1#10, 1#10, 1#10) in
  let b2 : BBox Q := (15#100, 12#100, 1#10, 1#10) in
  Track.compute_velocity
    (run_ops [OpUpdate b1 0 0; OpMissed; OpUpdate b2 2 66]
       (Track.new 1 "person" b1))
  = Some (bbox_center_x b2 - bbox_center_x b1,
          bbox_center_y b2 - bbox_center_y b1) /\
  Track.compute_velocity (run_ops [OpUpdate b1 0 0] (Track.new 1 "person" b1))
  = None.
Proof.
  cbv zeta. split.
  - apply (proj2 (X2_velocity_from_last_two_updates PyFloat_Q 1 "person"
                    (1#10, 1#10, 1#10, 1#10)
                    [OpUpdate (1#10, 1#10, 1#10, 1#10) 0 0; OpMissed;
                     OpUpdate (15#100, 12#100, 1#10, 1#10) 2 66]) []
             {| h_bbox := (1#10, 1#10, 1#10, 1#10); h_frame_id := 0;
                h_timestamp_ms := 0 |}
             {| h_bbox := (15#100, 12#100, 1#10, 1#10); h_frame_id := 2;
                h_timestamp_ms := 66 |}).
    reflexivity.
  - apply (proj1 (X2_velocity_from_last_two_updates PyFloat_Q 1 "person"
                    (1#10, 1#10, 1#10, 1#10)
                    [OpUpdate (1#10, 1#10, 1#10, 1#10) 0 0])).
    simpl. lia.
Defined.

(** ** Tracker operations *)

(** X3.  [create_track] stores the new track under the id
    [next_track_id] had, returns it with one hit, not stable, updated in this
    frame and with a one-entry history, advances [next_track_id] by one, and
    leaves the lookup of every other id as it was. *)
Theorem X3_create_track_round_trip :
  forall (F : Type) (PF : PyFloat F) (self : Tracker.t F) (lbl : string)
         (b : BBox F) (frame_id timestamp_ms : Z),
    let self' := fst (Tracker.create_track self lbl b frame_id timestamp_ms) in
    let track := snd (Tracker.create_track self lbl b frame_id timestamp_ms) in
    Tracker.get_track self' (Tracker.next_track_id self) = Some track /\
    Track.track_id track = Tracker.next_track_id self /\
    Track.label track = lbl /\ Track.bbox track = b /\
    Track.consecutive_hits track = 1%Z /\
    Track.frames_since_update track = 0%Z /\
    Track.stable track = false /\
    Track.history track =
      [{| h_bbox := b; h_frame_id := frame_id;
          h_timestamp_ms := timestamp_ms |}] /\
    Track.compute_velocity track = None /\
    Tracker.next_track_id self' = (Tracker.next_track_id self + 1)%Z /\
    Tracker.max_age self' = Tracker.max_age self /\
    (forall k, k <> Tracker.next_track_id self ->
               Tracker.get_track self' k = Tracker.get_track self k).
Proof.
  intros F PF self lbl b frame_id timestamp_ms. cbv zeta.
  unfold Tracker.create_track, Tracker.get_track. simpl.
  rewrite dict_get_set_same. repeat split.
  intros k NE. apply dict_get_set_other. exact NE.
Qed.

(** X4.  [update_track] on an id the tracker does not hold raises
    [KeyError]; on an id it holds it returns the updated track, which is what
    [get_track] then finds under that id, while the set and order of the ids,
    [next_track_id] and the lookup of every other id are unchanged. *)
Theorem X4_update_track_key_error_and_round_trip :
  forall (F : Type) (PF : PyFloat F) (self : Tracker.t F) (k : Z) (b : BBox F)
         (frame_id timestamp_ms : Z),
    (Tracker.get_track self k = None ->
     Tracker.update_track self k b frame_id timestamp_ms = Raise KeyError) /\
    (forall track,
        Tracker.get_track self k = Some track ->
        exists self',
          Tracker.update_track self k b frame_id timestamp_ms
            = Ok (self', Track.update track b frame_id timestamp_ms) /\
          Tracker.get_track self' k
            = Some (Track.update track b frame_id timestamp_ms) /\
          dict_keys (Tracker.tracks self') = dict_keys (Tracker.tracks self) /\
          Tracker.next_track_id self' = Tracker.next_track_id self /\
          (forall k', k' <> k ->
                      Tracker.get_track self' k' = Tracker.get_track self k')).
Proof.
  intros F PF self k b frame_id timestamp_ms.
  unfold Tracker.update_track, Tracker.get_track. split.
  - intros ->. reflexivity.
  - intros track E. rewrite E. eexists. split; [reflexivity|]. simpl.
    split; [apply dict_get_set_same|].
    split; [apply dict_set_keys_existing; eapply dict_get_Some_key, E|].
    split; [reflexivity|].
    intros k' NE. apply dict_get_set_other. exact NE.
Qed.

Lemma X4_witness :
  let tr : Tracker.t Q :=
    fst (Tracker.create_track (Tracker.init 30) "person"
           (1#10, 1#10, 1#10, 1#10) 0 0) in
  Tracker.update_track tr 7 (1#10, 1#10, 1#10, 1#10) 1 33 = Raise KeyError /\
  exists tr' track,
    Tracker.update_track tr 1 (12#100, 1#10, 1#10, 1#10) 1 33 = Ok (tr', track)
    /\ Tracker.get_track tr' 1 = Some track.
Proof.
  cbv zeta.
  set (tr := fst (Tracker.create_track (F:=Q) (Tracker.init 30) "person"
                    (1#10, 1#10, 1#10, 1#10) 0 0)).
  split.
  - apply (proj1 (X4_update_track_key_error_and_round_trip PyFloat_Q tr 7
                    (1#10, 1#10, 1#10, 1#10) 1 33)).
    reflexivity.
  - destruct (proj2 (X4_update_track_key_error_and_round_trip PyFloat_Q tr 1
                       (12#100, 1#10, 1#10, 1#10) 1 33) _ eq_refl)
      as (tr' & Hrun & Hget & _).
    exists tr'. eexists. split; [exact Hrun|exact Hget].
Defined.

Section Eviction.
Context {F : Type} `{PyFloat F}.

Lemma filter_map_commute {A B : Type} (f : A -> B) (p : B -> bool)
    (l : list A) :
  filter p (map f l) = map f (filter (fun a => p (f a)) l).
Proof.
  induction l as [|a l IH]; simpl; [reflexivity|].
  destruct (p (f a)); simpl; rewrite IH; reflexivity.
Qed.

Lemma filter_filter_implied {A : Type} (p q : A -> bool) (l : list A) :
  (forall a, p a = true -> q a = true) ->
  filter p (filter q l) = filter p l.
Proof.
  intros I. induction l as [|a l IH]; simpl; [reflexivity|].
  destruct (q a) eqn:Q; simpl.
  - destruct (p a); rewrite IH; reflexivity.
  - destruct (p a) eqn:P; [|exact IH]. apply I in P. congruence.
Qed.

Lemma dict_get_filter_none {V : Type} (p : Z * V -> bool) (k : Z)
    (d : dict Z V) :
  NoDup (dict_keys d) ->
  (forall v, In (k, v) d -> p (k, v) = false) ->
  dict_get k (filter p d) = None.
Proof.
  intros ND Hp. apply dict_get_None. intros I.
  apply in_map_iff in I. destruct I as ([k' v] & E & I). simpl in E. subst k'.
  apply filter_In in I. destruct I as [I P]. rewrite (Hp v I) in P.
  discriminate.
Qed.

Lemma missed_times_frames (n : nat) (t : Track.t F) :
  Track.frames_since_update (missed_times n t)
  = (Track.frames_since_update t + Z.of_nat n)%Z.
Proof.
  unfold missed_times. induction n as [|n IH].
  - simpl. lia.
  - rewrite Nat.iter_succ. simpl Track.frames_since_update. rewrite IH. lia.
Qed.

(** An iteration on a frame without detections: every track is marked
    missed, then the old ones are evicted, and nothing is published. *)
Lemma process_no_detections (so : SetIteration) (thr : F) (tr : Tracker.t F)
    (event : DetectionResult F) :
  no_detections event ->
  TrackerModule.process_detections so thr tr event
  = Ok ({| Tracker.max_age := Tracker.max_age tr;
           Tracker.next_track_id := Tracker.next_track_id tr;
           Tracker.tracks :=
             filter (fun kv : Z * Track.t F =>
                       (Track.frames_since_update (snd kv)
                        <=? Tracker.max_age tr)%Z)
                    (map (fun kv : Z * Track.t F =>
                            (fst kv, Track.mark_missed (snd kv)))
                         (Tracker.tracks tr)) |}, []).
Proof.
  unfold no_detections. intros E.
  unfold TrackerModule.process_detections. rewrite E. simpl.
  unfold Tracker.evict_old_tracks, Tracker.mark_missed_tracks. simpl.
  do 2 f_equal. f_equal. apply filter_ext. intros kv.
  destruct (Z.ltb_spec (Tracker.max_age tr) (Track.frames_since_update (snd kv)));
    destruct (Z.leb_spec (Track.frames_since_update (snd kv)) (Tracker.max_age tr));
    try reflexivity; lia.
Qed.

(** The tracker after [n] iterations on frames without detections. *)
Let after_misses (n : nat) (tr : Tracker.t F) : Tracker.t F :=
  {| Tracker.max_age := Tracker.max_age tr;
     Tracker.next_track_id := Tracker.next_track_id tr;
     Tracker.tracks :=
       map (fun kv : Z * Track.t F => (fst kv, missed_times n (snd kv)))
           (filter (fun kv : Z * Track.t F =>
                      (Track.frames_since_update (snd kv) + Z.of_nat n
                       <=? Tracker.max_age tr)%Z)
                   (Tracker.tracks tr)) |}.

Lemma process_no_detections_once (so : SetIteration) (thr : F)
    (tr : Tracker.t F) (event : DetectionResult F) :
  no_detections event ->
  TrackerModule.process_detections so thr tr event = Ok (after_misses 1 tr, []).
Proof.
  intros E. rewrite (process_no_detections so thr tr E).
  unfold after_misses. rewrite filter_map_commute. reflexivity.
Qed.

Lemma after_misses_compose (n : nat) (tr : Tracker.t F) :
  after_misses n (after_misses 1 tr) = after_misses (S n) tr.
Proof.
  unfold after_misses. simpl Tracker.tracks. simpl Tracker.max_age.
  simpl Tracker.next_track_id. f_equal.
  rewrite filter_map_commute, map_map. simpl fst. simpl snd.
  rewrite filter_filter_implied.
  - rewrite (filter_ext
               (fun a : Z * Track.t F =>
                  (Track.frames_since_update (missed_times 1 (snd a))
                   + Z.of_nat n <=? Tracker.max_age tr)%Z)
               (fun kv : Z * Track.t F =>
                  (Track.frames_since_update (snd kv) + Z.of_nat (S n)
                   <=? Tracker.max_age tr)%Z)).
    + apply map_ext. intros kv. f_equal. unfold missed_times.
      rewrite <- Nat.iter_succ_r. reflexivity.
    + intros kv. rewrite missed_times_frames. f_equal. lia.
  - intros kv L. apply Z.leb_le in L. apply Z.leb_le. simpl in L. lia.
Qed.

Lemma run_no_detections (so : SetIteration) (thr : F)
    (events : list (DetectionResult F)) :
  Forall no_detections events ->
  forall (event : DetectionResult F) (tr : Tracker.t F),
    no_detections event ->
    run_frames_from so thr tr (event :: events)
    = Ok (after_misses (S (List.length events)) tr, []).
Proof.
  induction 1 as [|e es E FA IH]; intros event tr E0.
  - unfold run_frames_from. simpl.
    apply process_no_detections_once, E0.
  - specialize (IH e (after_misses 1 tr) E).
    unfold run_frames_from in *. simpl fold_left in *. simpl bind in *.
    rewrite (process_no_detections_once so thr tr E0). simpl bind.
    simpl fst. rewrite IH. rewrite after_misses_compose. reflexivity.
Qed.

End Eviction.

Section DictUnique.
Context {V : Type}.

Lemma NoDup_keys_unique (d : dict Z V) (k : Z) (v v' : V) :
  NoDup (dict_keys d) -> In (k, v) d -> In (k, v') d -> v = v'.
Proof.
  unfold dict_keys. induction d as [|[k0 v0] d IH]; simpl; [contradiction|].
  intros ND I I'. inversion ND as [|? ? Hnotin ND']; subst.
  destruct I as [E|I], I' as [E'|I'].
  - congruence.
  - exfalso. apply Hnotin. injection E as -> _.
    change k with (fst (k, v')). apply in_map, I'.
  - exfalso. apply Hnotin. injection E' as -> _.
    change k with (fst (k, v)). apply in_map, I.
  - apply IH; assumption.
Qed.

Lemma dict_get_filter_some (p : Z * V -> bool) (k : Z) (v : V) (d : dict Z V) :
  dict_get k d = Some v -> p (k, v) = true -> dict_get k (filter p d) = Some v.
Proof.
  induction d as [|[k0 v0] d IH]; simpl; [discriminate|].
  destruct (Z.eqb_spec k k0) as [->|NE].
  - intros [= ->] P. rewrite P. simpl. rewrite Z.eqb_refl. reflexivity.
  - intros E P. destruct (p (k0, v0)); simpl.
    + destruct (Z.eqb_spec k k0); [contradiction|]. apply IH; assumption.
    + apply IH; assumption.
Qed.

Lemma filter_none {A : Type} (p : A -> bool) (l : list A) :
  (forall a, In a l -> p a = false) -> filter p l = [].
Proof.
  induction l as [|a l IH]; simpl; [reflexivity|].
  intros Hp. rewrite (Hp a (or_introl eq_refl)). apply IH.
  intros b I. apply Hp. right. exact I.
Qed.

Lemma filter_all {A : Type} (p : A -> bool) (l : list A) :
  (forall a, In a l -> p a = true) -> filter p l = l.
Proof.
  induction l as [|a l IH]; simpl; [reflexivity|].
  intros Hp. rewrite (Hp a (or_introl eq_refl)). f_equal. apply IH.
  intros b I. apply Hp. right. exact I.
Qed.

End DictUnique.

(** X5.  [evict_old_tracks] on a tracker with distinct ids keeps exactly the
    tracks whose [frames_since_update] is at most [max_age], unchanged, and
    returns the ids of the others; an evicted id is then unknown to
    [get_track] and absent from [get_active_tracks], a kept track is found as
    before, and a second pass evicts nothing. *)
Theorem X5_evict_old_tracks :
  forall (F : Type) (PF : PyFloat F) (self : Tracker.t F),
    NoDup (dict_keys (Tracker.tracks self)) ->
    let self' := fst (Tracker.evict_old_tracks self) in
    let evicted := snd (Tracker.evict_old_tracks self) in
    (forall k track,
        In (k, track) (Tracker.tracks self') <->
        In (k, track) (Tracker.tracks self) /\
        (Track.frames_since_update track <= Tracker.max_age self)%Z) /\
    (forall k,
        In k evicted <->
        exists track,
          In (k, track) (Tracker.tracks self) /\
          (Tracker.max_age self < Track.frames_since_update track)%Z) /\
    (forall k,
        In k evicted ->
        Tracker.get_track self' k = None /\
        dict_get k (Tracker.get_active_tracks self') = None) /\
    (forall k track,
        Tracker.get_track self k = Some track ->
        (Track.frames_since_update track <= Tracker.max_age self)%Z ->
        Tracker.get_track self' k = Some track) /\
    Tracker.evict_old_tracks self' = (self', []).
Proof.
  intros F PF self ND. cbv zeta.
  unfold Tracker.evict_old_tracks, Tracker.get_track. simpl.
  assert (Hev : forall k,
             In k (map fst
                     (filter (fun kv : Z * Track.t F =>
                                (Tracker.max_age self
                                 <? Track.frames_since_update (snd kv))%Z)
                             (Tracker.tracks self))) <->
             exists track,
               In (k, track) (Tracker.tracks self) /\
               (Tracker.max_age self < Track.frames_since_update track)%Z).
  { intros k. rewrite in_map_iff. split.
    - intros ([k' t] & E & I). simpl in E. subst k'.
      apply filter_In in I. destruct I as [I L]. apply Z.ltb_lt in L.
      exists t. auto.
    - intros (t & I & L). exists (k, t). split; [reflexivity|].
      apply filter_In. split; [exact I|]. apply Z.ltb_lt. exact L. }
  assert (Hnone : forall k,
             In k (map fst
                     (filter (fun kv : Z * Track.t F =>
                                (Tracker.max_age self
                                 <? Track.frames_since_update (snd kv))%Z)
                             (Tracker.tracks self))) ->
             dict_get k
               (filter (fun kv : Z * Track.t F =>
                          negb (Tracker.max_age self
                                <? Track.frames_since_update (snd kv))%Z)
                       (Tracker.tracks self)) = None).
  { intros k I. apply Hev in I. destruct I as (t & I & L).
    apply dict_get_filter_none; [exact ND|].
    intros v Iv. rewrite (@NoDup_keys_unique _ (Tracker.tracks self) k v t ND Iv I). simpl.
    apply negb_false_iff, Z.ltb_lt, L. }
  split; [|split; [exact Hev|split; [|split]]].
  - intros k t. rewrite filter_In. simpl. rewrite negb_true_iff, Z.ltb_ge.
    reflexivity.
  - intros k I. split; [apply Hnone, I|].
    apply dict_get_None. unfold Tracker.get_active_tracks, dict_keys. simpl.
    rewrite map_map. simpl. apply dict_get_None. apply Hnone, I.
  - intros k t E L. apply dict_get_filter_some; [exact E|]. simpl.
    apply negb_true_iff, Z.ltb_ge, L.
  - f_equal.
    + f_equal. apply filter_all. intros kv I. apply filter_In in I. tauto.
    + rewrite filter_none; [reflexivity|]. intros kv I.
      apply filter_In in I. destruct I as [_ P].
      apply negb_true_iff in P. exact P.
Qed.

Lemma X5_witness :
  let old : Track.t Q :=
    missed_times 6 (Track.update (Track.new 1 "person" (1#10, 1#10, 1#10, 1#10))
                      (1#10, 1#10, 1#10, 1#10) 0 0) in
  let tr : Tracker.t Q :=
    {| Tracker.max_age := 5; Tracker.next_track_id := 2;
       Tracker.tracks := [(1%Z, old)] |} in
  snd (Tracker.evict_old_tracks tr) = [1%Z] /\
  Tracker.get_track (fst (Tracker.evict_old_tracks tr)) 1 = None.
Proof.
  cbv zeta.
  set (tr := {| Tracker.max_age := 5; Tracker.next_track_id := 2;
                Tracker.tracks := [(1%Z, _)] |}).
  assert (ND : NoDup (dict_keys (Tracker.tracks tr)))
    by (repeat constructor; intros []).
  destruct (@X5_evict_old_tracks Q PyFloat_Q tr ND) as (_ & _ & Hgone & _).
  split; [reflexivity|]. apply Hgone. left. reflexivity.
Defined.

(** X6.  Frames without detections.  Processing [n >= 1] such frames in a
    row publishes nothing, leaves [next_track_id] alone, and leaves exactly
    the tracks whose [frames_since_update] plus [n] is still at most
    [max_age], each marked missed [n] times, in their order.  So a track
    that was just updated survives [max_age] such frames and is evicted by
    the next one. *)
Theorem X6_frames_without_detections :
  forall (F : Type) (PF : PyFloat F) (so : SetIteration) (iou_threshold : F)
         (tracker : Tracker.t F) (event : DetectionResult F)
         (events : list (DetectionResult F)),
    Forall no_detections (event :: events) ->
    let n := List.length (event :: events) in
    let survivors :=
      filter (fun kv : Z * Track.t F =>
                (Track.frames_since_update (snd kv) + Z.of_nat n
                 <=? Tracker.max_age tracker)%Z)
             (Tracker.tracks tracker) in
    run_frames_from so iou_threshold tracker (event :: events)
    = Ok ({| Tracker.max_age := Tracker.max_age tracker;
             Tracker.next_track_id := Tracker.next_track_id tracker;
             Tracker.tracks :=
               map (fun kv : Z * Track.t F => (fst kv, missed_times n (snd kv)))
                   survivors |}, []) /\
    (forall k track,
        In (k, track) (Tracker.tracks tracker) ->
        Track.frames_since_update track = 0%Z ->
        (In (k, track) survivors <-> (Z.of_nat n <= Tracker.max_age tracker)%Z)).
Proof.
  intros F PF so thr tr event events FA. cbv zeta.
  inversion FA as [|? ? E0 FA']; subst. split.
  - apply (run_no_detections so thr FA' tr E0).
  - intros k t I Z0. rewrite filter_In. simpl snd. rewrite Z0, Z.leb_le.
    simpl Z.add. tauto.
Qed.

Lemma X6_witness :
  let quiet (i : Z) : DetectionResult Q :=
    {| dr_frame_id := i; dr_timestamp_ms := i * 33; dr_objects := [] |} in
  let fresh : Track.t Q :=
    Track.update (Track.new 1 "person" (1#10, 1#10, 1#10, 1#10))
      (1#10, 1#10, 1#10, 1#10) 0 0 in
  let tr : Tracker.t Q :=
    {| Tracker.max_age := 2; Tracker.next_track_id := 2;
       Tracker.tracks := [(1%Z, fresh)] |} in
  (exists s, run_frames_from insertion_order (3#10) tr
               [quiet 1%Z; quiet 2%Z]
             = Ok (s, []) /\ dict_keys (Tracker.tracks s) = [1%Z]) /\
  (exists s, run_frames_from insertion_order (3#10) tr
               [quiet 1%Z; quiet 2%Z; quiet 3%Z]
             = Ok (s, []) /\ Tracker.tracks s = []).
Proof.
  cbv zeta. split.
  - eexists. split.
    + apply (@X6_frames_without_detections Q PyFloat_Q insertion_order (3#10)).
      repeat constructor.
    + reflexivity.
  - eexists. split.
    + apply (@X6_frames_without_detections Q PyFloat_Q insertion_order (3#10)).
      repeat constructor.
    + reflexivity.
Defined.

(** ** Invariants of the tracker loop *)

Section TrackerShape.
Context {F : Type} `{PyFloat F}.

Lemma update_loop_closure (P : Z * Track.t F -> Prop)
    (event : DetectionResult F) :
  (forall k trk b f ts, P (k, trk) -> P (k, Track.update trk b f ts)) ->
  forall (ms : list (Z * Z)) (tr tr' : Tracker.t F)
         (pubs pubs' : list (TrackUpdate F)),
    for_each (TrackerModule.update_matched event) ms (tr, pubs)
      = Ok (tr', pubs') ->
    Forall P (Tracker.tracks tr) -> Forall P (Tracker.tracks tr').
Proof.
  intros Hclosed. induction ms as [|[d t] ms IH]; intros tr tr' pubs pubs'.
  - simpl. intros [= <- _]. auto.
  - simpl. unfold TrackerModule.update_matched at 1.
    destruct (py_index (dr_objects event) d) as [det|e]; simpl;
      [|discriminate].
    unfold Tracker.update_track.
    destruct (dict_get t (Tracker.tracks tr)) as [trk|] eqn:E; simpl;
      [|discriminate].
    intros Hrun FA. eapply IH; [exact Hrun|]. simpl.
    apply dict_set_Forall; [exact FA| |eapply dict_get_Some_key, E].
    apply Hclosed. rewrite Forall_forall in FA.
    apply (FA (t, trk)). apply dict_get_In, E.
Qed.

Lemma NoDup_keys_filter_map {V : Type} (g : Z * V -> Z * V)
    (p : Z * V -> bool) (l : list (Z * V)) :
  (forall kv, fst (g kv) = fst kv) ->
  NoDup (map fst l) -> NoDup (map fst (filter p (map g l))).
Proof.
  intros Hg. induction l as [|kv l IH]; simpl; intros ND; [constructor|].
  inversion ND as [|? ? Hnotin ND']; subst.
  destruct (p (g kv)); simpl; [|apply IH, ND'].
  constructor; [|apply IH, ND'].
  intros I. apply Hnotin. apply in_map_iff in I.
  destruct I as (kv' & E & I). apply filter_In in I. destruct I as [I _].
  apply in_map_iff in I. destruct I as (kv0 & <- & I).
  rewrite Hg in E. rewrite Hg in E. rewrite <- E. apply in_map, I.
Qed.

(** The shape of the tracker after one loop iteration. *)
Lemma process_detections_shape (so : SetIteration) (thr : F)
    (tr : Tracker.t F) (event : DetectionResult F) :
  tracker_wf tr ->
  let matches :=
    matches_of so (detections_of event) (Tracker.get_active_tracks tr) thr in
  let ud :=
    unmatched_dets_of so (detections_of event) (Tracker.get_active_tracks tr)
      thr in
  exists (updated news : dict Z (Track.t F)) (pubs : list (TrackUpdate F)),
    TrackerModule.process_detections so thr tr event
    = Ok ({| Tracker.max_age := Tracker.max_age tr;
             Tracker.next_track_id :=
               (Tracker.next_track_id tr + Z.of_nat (List.length ud))%Z;
             Tracker.tracks :=
               filter (fun kv : Z * Track.t F =>
                         negb (Tracker.max_age tr
                               <? Track.frames_since_update (snd kv))%Z)
                      (map (fun kv : Z * Track.t F =>
                              if negb (set_mem (fst kv)
                                         (set_of_list (dict_values matches)))
                              then (fst kv, Track.mark_missed (snd kv))
                              else kv)
                           (updated ++ news)) |}, pubs) /\
    dict_keys updated = dict_keys (Tracker.tracks tr) /\
    (forall P : Z * Track.t F -> Prop,
        (forall k trk b f ts, P (k, trk) -> P (k, Track.update trk b f ts)) ->
        Forall P (Tracker.tracks tr) -> Forall P updated) /\
    dict_keys news = zseq (Tracker.next_track_id tr) (List.length ud) /\
    Forall fresh_entry news /\
    List.length pubs = (List.length matches + List.length ud)%nat.
Proof.
  intros [Hage Hwf]. cbv zeta.
  unfold TrackerModule.process_detections, matches_of, unmatched_dets_of.
  fold (detections_of event).
  pose proof (@matches_of_sound _ _ so (detections_of event)
                (Tracker.get_active_tracks tr) thr) as Hsound.
  pose proof (@unmatched_dets_sound _ _ so (detections_of event)
                (Tracker.get_active_tracks tr) thr) as Hud.
  unfold matches_of in Hsound. unfold unmatched_dets_of in Hud.
  destruct (Matching.match_detections_to_tracks so (detections_of event)
              (Tracker.get_active_tracks tr) thr) as [[M UD] UT].
  simpl fst in *. simpl snd in *.
  assert (HM : forall d t, In (d, t) M ->
                 valid_index event d /\ In t (dict_keys (Tracker.tracks tr))).
  { intros d t I. destruct (Hsound d t I) as [Id It]. split.
    - apply detections_of_valid, Id.
    - rewrite <- get_active_tracks_keys. exact It. }
  destruct (@update_loop_spec _ _ event M tr [] [] HM Hwf)
    as (tr1 & pubs1 & Hrun1 & Hage1 & Hnext1 & Hkeys1 & Hwf1 & _ & Hids1 & _).
  { intros k []. }
  simpl in Hrun1. rewrite <- Hnext1 in Hwf1.
  destruct (@create_loop_spec _ _ event UD tr1 pubs1)
    as (news & pubs2 & Hrun2 & Hk2 & Hf2 & Hids2 & _).
  { intros d I. apply detections_of_valid, Hud, I. }
  { exact Hwf1. }
  exists (Tracker.tracks tr1), news, (pubs1 ++ pubs2).
  rewrite Hrun1. simpl bind. rewrite Hrun2. simpl bind.
  unfold Tracker.evict_old_tracks, Tracker.mark_missed_tracks. simpl.
  rewrite Hage1, Hnext1 in *.
  split; [reflexivity|]. split; [exact Hkeys1|]. split.
  - intros P Hclosed FA.
    eapply update_loop_closure; [exact Hclosed|exact Hrun1|exact FA].
  - split; [exact Hk2|]. split; [exact Hf2|].
    rewrite length_app, <- (length_map (@tu_track_id F) pubs1), Hids1.
    rewrite <- (length_map (@tu_track_id F) pubs2), Hids2.
    rewrite length_map, zseq_length. reflexivity.
Qed.

End TrackerShape.

Section TrackerInvariant.
Context {F : Type} `{PyFloat F}.

Lemma tracker_inv_wf (tr : Tracker.t F) : tracker_inv tr -> tracker_wf tr.
Proof.
  intros (Hage & _ & _ & FA). split; [lia|].
  eapply Forall_impl; [|exact FA]. intros kv (E & R & _). split; [exact E|lia].
Qed.

Lemma tracker_inv_step (so : SetIteration) (thr : F) (tr tr' : Tracker.t F)
    (event : DetectionResult F) (pubs : list (TrackUpdate F)) :
  tracker_inv tr ->
  TrackerModule.process_detections so thr tr event = Ok (tr', pubs) ->
  tracker_inv tr' /\
  (Tracker.next_track_id tr <= Tracker.next_track_id tr')%Z /\
  (forall k, In k (dict_keys (Tracker.tracks tr')) ->
             In k (dict_keys (Tracker.tracks tr)) \/
             (Tracker.next_track_id tr <= k)%Z).
Proof.
  intros Hinv Hrun. pose proof (tracker_inv_wf Hinv) as Hwf.
  destruct Hinv as (Hage & Hnext & ND & FA).
  destruct (process_detections_shape so thr event Hwf)
    as (updated & news & pubs0 & Hrun0 & Hkeys & Hclosed & Hk & Hfresh & _).
  rewrite Hrun in Hrun0. injection Hrun0 as -> _.
  set (n := List.length _) in *.
  set (mm := fun kv : Z * Track.t F => if negb _ then _ else kv).
  set (keep := fun kv : Z * Track.t F => negb _).
  assert (Hmm : forall kv, fst (mm kv) = fst kv).
  { intros kv. unfold mm. destruct (negb _); reflexivity. }
  assert (Hold : forall k, In k (dict_keys (Tracker.tracks tr)) ->
                           (1 <= k < Tracker.next_track_id tr)%Z).
  { intros k I. apply in_map_iff in I. destruct I as (kv & <- & I).
    rewrite Forall_forall in FA. apply (FA kv I). }
  assert (Hupd : Forall (fun kv : Z * Track.t F =>
                           Track.track_id (snd kv) = fst kv /\
                           (0 <= Track.frames_since_update (snd kv))%Z /\
                           (0 <= Track.consecutive_hits (snd kv))%Z) updated).
  { apply Hclosed.
    - intros k trk b f ts (E & Hf & Hh). simpl in *. repeat split; lia.
    - eapply Forall_impl; [|exact FA]. intros kv (E & _ & Hf & Hh).
      repeat split; [exact E|lia|lia]. }
  assert (Hsrc : forall kv0, In kv0 (updated ++ news) ->
             Track.track_id (snd kv0) = fst kv0 /\
             (0 <= Track.frames_since_update (snd kv0))%Z /\
             (0 <= Track.consecutive_hits (snd kv0))%Z /\
             (In (fst kv0) (dict_keys (Tracker.tracks tr)) \/
              (Tracker.next_track_id tr <= fst kv0
               < Tracker.next_track_id tr + Z.of_nat n)%Z)).
  { intros kv0 I. apply in_app_or in I. destruct I as [I|I].
    - rewrite Forall_forall in Hupd. destruct (Hupd kv0 I) as (E & Hf & Hh).
      repeat split; try assumption. left. rewrite <- Hkeys.
      apply in_map, I.
    - rewrite Forall_forall in Hfresh.
      destruct (Hfresh kv0 I) as (E & Hh & Hf & _).
      repeat split; try assumption; try lia. right.
      apply zseq_In. rewrite <- Hk. apply in_map, I. }
  split; [|split].
  - split; [exact Hage|]. split; [simpl; lia|]. split.
    + simpl. apply NoDup_keys_filter_map; [exact Hmm|].
      rewrite map_app. fold (dict_keys updated). fold (dict_keys news).
      rewrite Hkeys, Hk. apply NoDup_app; [exact ND|apply zseq_NoDup|].
      intros k I I'. apply Hold in I. apply zseq_In in I'. lia.
    + simpl. rewrite Forall_forall. intros kv I. apply filter_In in I.
      destruct I as [I K]. apply in_map_iff in I.
      destruct I as (kv0 & <- & I).
      destruct (Hsrc kv0 I) as (E & Hf & Hh & Hrange).
      assert (R : (1 <= fst kv0
                   < Tracker.next_track_id tr + Z.of_nat n)%Z).
      { destruct Hrange as [Io|R]; [apply Hold in Io|]; lia. }
      unfold keep in K. apply negb_true_iff, Z.ltb_ge in K.
      assert (Hcases : mm kv0 = kv0 \/
                       mm kv0 = (fst kv0, Track.mark_missed (snd kv0))).
      { unfold mm. destruct (negb _); auto. }
      unfold track_ok.
      destruct Hcases as [Em|Em]; rewrite Em in *; simpl in *;
        repeat split; try assumption; lia.
  - simpl. lia.
  - simpl. intros k I. apply in_map_iff in I. destruct I as (kv & <- & I).
    apply filter_In in I. destruct I as [I _]. apply in_map_iff in I.
    destruct I as (kv0 & <- & I). rewrite Hmm.
    destruct (Hsrc kv0 I) as (_ & _ & _ & [Io|R]); [left; exact Io|right; lia].
Qed.

Lemma reachable_inv (tr : Tracker.t F) : reachable tr -> tracker_inv tr.
Proof.
  induction 1 as [|so thr tr ev tr' pubs R IH Hrun].
  - repeat split; simpl; try lia; constructor.
  - apply (tracker_inv_step so thr ev IH Hrun).
Qed.

Lemma dict_get_of_In {V : Type} (d : dict Z V) (k : Z) (v : V) :
  NoDup (dict_keys d) -> In (k, v) d -> dict_get k d = Some v.
Proof.
  intros ND I. destruct (dict_get k d) as [v'|] eqn:E.
  - apply dict_get_In in E.
    rewrite (@NoDup_keys_unique _ d k v v' ND I E). reflexivity.
  - apply dict_get_None in E. exfalso. apply E.
    change k with (fst (k, v)). apply in_map, I.
Qed.

(** A run of the loop keeps the invariant, never lowers [next_track_id] and
    never brings back an id that is below [next_track_id] and not in use. *)
Lemma run_frames_ids (so : SetIteration) (thr : F)
    (events : list (DetectionResult F)) :
  forall (tr tr' : Tracker.t F) (pubs0 pubs : list (TrackUpdate F)),
    tracker_inv tr ->
    fold_left
      (fun r event =>
         s <- r ;;
         TrackerModule.process_detections so thr (fst s) event)
      events (Ok (tr, pubs0)) = Ok (tr', pubs) ->
    tracker_inv tr' /\
    (Tracker.next_track_id tr <= Tracker.next_track_id tr')%Z /\
    (forall k, (k < Tracker.next_track_id tr)%Z ->
               ~ In k (dict_keys (Tracker.tracks tr)) ->
               ~ In k (dict_keys (Tracker.tracks tr'))).
Proof.
  induction events as [|event events IH]; intros tr tr' pubs0 pubs Hinv.
  - simpl. intros [= <- _]. split; [exact Hinv|]. split; [lia|auto].
  - simpl.
    destruct (TrackerModule.process_detections so thr tr event)
      as [[tr1 pubs1]|e] eqn:Hstep.
    + intros Hrun.
      destruct (tracker_inv_step so thr event Hinv Hstep)
        as (Hinv1 & Hmono1 & Hkeys1).
      destruct (IH tr1 tr' pubs1 pubs Hinv1 Hrun) as (Hinv' & Hmono & Hnever).
      split; [exact Hinv'|]. split; [lia|].
      intros k Hk Hnot. apply Hnever; [lia|].
      intros I. destruct (Hkeys1 k I) as [Io|R]; [contradiction|lia].
    + intros Hrun. exfalso. clear -Hrun.
      induction events as [|ev events IHe]; simpl in Hrun;
        [discriminate|auto].
Qed.

End TrackerInvariant.

(** X7.  In every tracker state the module reaches: [max_age] is 30,
    [next_track_id] is at least 1, the stored ids are pairwise distinct, and
    every stored track is filed under its own [track_id], which lies between
    1 and [next_track_id - 1], has [frames_since_update] between 0 and
    [max_age], a non-negative [consecutive_hits], and is what [get_track]
    returns for its id. *)
Theorem X7_reachable_tracker_invariants :
  forall (F : Type) (PF : PyFloat F) (tracker : Tracker.t F),
    reachable tracker ->
    Tracker.max_age tracker = 30%Z /\
    (1 <= Tracker.next_track_id tracker)%Z /\
    NoDup (dict_keys (Tracker.tracks tracker)) /\
    (forall k track,
        In (k, track) (Tracker.tracks tracker) ->
        Track.track_id track = k /\
        (1 <= k < Tracker.next_track_id tracker)%Z /\
        (0 <= Track.frames_since_update track <= 30)%Z /\
        (0 <= Track.consecutive_hits track)%Z /\
        Tracker.get_track tracker k = Some track).
Proof.
  intros F PF tr R. apply reachable_inv in R.
  destruct R as (Hage & Hnext & ND & FA).
  split; [exact Hage|]. split; [exact Hnext|]. split; [exact ND|].
  intros k t I. rewrite Forall_forall in FA.
  destruct (FA (k, t) I) as (E & R & Hf & Hh). simpl in *.
  rewrite Hage in Hf. repeat split; try assumption; try lia.
  apply dict_get_of_In; assumption.
Qed.

Lemma X7_witness :
  exists (tracker : Tracker.t Q) (published : list (TrackUpdate Q)),
    TrackerModule.process_detections insertion_order (3#10) TrackerModule.init
      {| dr_frame_id := 0; dr_timestamp_ms := 0;
         dr_objects :=
           [ {| det_label := "person"; det_confidence := 9#10;
                det_bbox := (1#10, 1#10, 1#10, 1#10) |} ] |}
    = Ok (tracker, published) /\
    NoDup (dict_keys (Tracker.tracks tracker)) /\
    (1 <= Tracker.next_track_id tracker)%Z.
Proof.
  destruct (TrackerModule.process_detections insertion_order (3#10)
              TrackerModule.init
              {| dr_frame_id := 0; dr_timestamp_ms := 0;
                 dr_objects :=
                   [ {| det_label := "person"; det_confidence := 9#10;
                        det_bbox := (1#10, 1#10, 1#10, 1#10) |} ] |})
    as [[tracker published]|e] eqn:Hrun; [|vm_compute in Hrun; discriminate].
  exists tracker, published. split; [reflexivity|].
  assert (R : reachable tracker)
    by (eapply reachable_step; [apply reachable_init|exact Hrun]).
  destruct (X7_reachable_tracker_invariants R) as (_ & Hnext & ND & _).
  split; [exact ND|exact Hnext].
Defined.

(** X8.  Track ids are never reused: over any run of the loop from a
    reachable state, [next_track_id] does not decrease and an id below the
    starting [next_track_id] that is not in use at the start (an evicted
    id) is unknown to [get_track] at the end. *)
Theorem X8_track_ids_never_reused :
  forall (F : Type) (PF : PyFloat F) (so : SetIteration) (iou_threshold : F)
         (tracker tracker' : Tracker.t F) (events : list (DetectionResult F))
         (published : list (TrackUpdate F)),
    reachable tracker ->
    run_frames_from so iou_threshold tracker events
      = Ok (tracker', published) ->
    (Tracker.next_track_id tracker <= Tracker.next_track_id tracker')%Z /\
    (forall k, (k < Tracker.next_track_id tracker)%Z ->
               ~ In k (dict_keys (Tracker.tracks tracker)) ->
               Tracker.get_track tracker' k = None).
Proof.
  intros F PF so thr tr tr' events pubs R Hrun. apply reachable_inv in R.
  destruct (run_frames_ids so thr events [] R Hrun) as (_ & Hmono & Hnever).
  split; [exact Hmono|]. intros k Hk Hnot.
  apply dict_get_None. apply Hnever; assumption.
Qed.

Lemma X8_witness :
  exists (tracker : Tracker.t Q) (published : list (TrackUpdate Q)),
    run_frames_from insertion_order (3#10) TrackerModule.init
      [ {| dr_frame_id := 0; dr_timestamp_ms := 0;
           dr_objects :=
             [ {| det_label := "person"; det_confidence := 9#10;
                  det_bbox := (1#10, 1#10, 1#10, 1#10) |} ] |} ]
    = Ok (tracker, published) /\
    (1 <= Tracker.next_track_id tracker)%Z /\
    Tracker.get_track tracker 0 = None.
Proof.
  destruct (run_frames_from insertion_order (3#10) TrackerModule.init
              [ {| dr_frame_id := 0; dr_timestamp_ms := 0;
                   dr_objects :=
                     [ {| det_label := "person"; det_confidence := 9#10;
                          det_bbox := (1#10, 1#10, 1#10, 1#10) |} ] |} ])
    as [[tracker published]|e] eqn:Hrun; [|vm_compute in Hrun; discriminate].
  exists tracker, published. split; [reflexivity|].
  destruct (@X8_track_ids_never_reused Q PyFloat_Q insertion_order (3#10)
              TrackerModule.init tracker _ published reachable_init Hrun)
    as [Hmono Hnever].
  split; [exact Hmono|]. apply Hnever; [reflexivity|intros []].
Defined.

(** ** The lists returned by the matcher *)

Section Counting.
Context {K : Type} `{EqKey K}.

Lemma set_add_fresh (k : K) (s : list K) : ~ In k s -> set_add k s = s ++ [k].
Proof.
  intros N. unfold set_add. apply set_mem_false in N. rewrite N. reflexivity.
Qed.

Lemma set_of_list_acc_NoDup (l acc : list K) :
  NoDup (acc ++ l) ->
  fold_left (fun s k => set_add k s) l acc = acc ++ l.
Proof.
  revert acc. induction l as [|a l IH]; intros acc ND; simpl.
  - rewrite app_nil_r. reflexivity.
  - assert (N : ~ In a acc).
    { apply NoDup_remove_2 in ND. intros I. apply ND. apply in_or_app.
      left. exact I. }
    rewrite set_add_fresh by exact N. rewrite IH.
    + rewrite <- app_assoc. reflexivity.
    + rewrite <- app_assoc. exact ND.
Qed.

Lemma set_of_list_NoDup_id (l : list K) : NoDup l -> set_of_list l = l.
Proof. intros ND. unfold set_of_list. rewrite set_of_list_acc_NoDup; auto. Qed.

Lemma set_of_list_is_NoDup (l : list K) : NoDup (set_of_list l).
Proof.
  unfold set_of_list.
  assert (G : forall acc, NoDup acc ->
                          NoDup (fold_left (fun s k => set_add k s) l acc)).
  { induction l as [|a l IH]; intros acc ND; simpl; [exact ND|].
    apply IH. unfold set_add. destruct (set_mem a acc) eqn:E; [exact ND|].
    apply set_mem_false in E. apply NoDup_app; [exact ND| |].
    - repeat constructor. intros [].
    - intros x Ix [<-|[]]. contradiction. }
  apply G. constructor.
Qed.

Lemma filter_split_length {A : Type} (p : A -> bool) (l : list A) :
  (List.length (filter p l)
   + List.length (filter (fun a => negb (p a)) l))%nat = List.length l.
Proof.
  induction l as [|a l IH]; simpl; [reflexivity|].
  destruct (p a); simpl; lia.
Qed.

(** The elements of a duplicate-free [l] outside a duplicate-free part [m]
    of it. *)
Lemma set_diff_length (l m s : list K) :
  NoDup l -> NoDup m -> (forall x, In x m -> In x l) ->
  (forall x, In x s <-> In x m) ->
  (List.length (set_diff l s) + List.length m)%nat = List.length l.
Proof.
  intros NDl NDm Hincl Hs. unfold set_diff.
  rewrite <- (filter_split_length (fun k => set_mem k s) l).
  rewrite Nat.add_comm. f_equal.
  apply Permutation_length, NoDup_Permutation.
  - exact NDm.
  - apply NoDup_filter, NDl.
  - intros x. rewrite filter_In, set_mem_In, Hs. split; [|tauto].
    intros I. split; [apply Hincl, I|exact I].
Qed.

End Counting.

Section MatcherLists.
Context {F : Type} `{PyFloat F}.

Lemma no_match_spec (dets : list (Z * BBox F)) (tracks : dict Z (BBox F)) :
  let M : dict Z Z := [] in
  let UD := map fst dets in
  let UT := dict_keys tracks in
  NoDup (dict_keys M) /\ NoDup (dict_values M) /\
  (forall d, In d (dict_keys M) -> In d (map fst dets)) /\
  (forall t, In t (dict_values M) -> In t (dict_keys tracks)) /\
  (forall d, In d UD <-> In d (map fst dets) /\ ~ In d (dict_keys M)) /\
  (forall t, In t UT <-> In t (dict_keys tracks) /\ ~ In t (dict_values M)) /\
  (NoDup (map fst dets) ->
   (List.length M + List.length UD)%nat = List.length dets) /\
  (NoDup (dict_keys tracks) ->
   (List.length M + List.length UT)%nat = List.length tracks).
Proof.
  cbv zeta. simpl.
  split; [constructor|]. split; [constructor|].
  split; [intros d []|]. split; [intros t []|].
  split; [intros d; tauto|]. split; [intros t; tauto|].
  split; intros _; [|unfold dict_keys]; apply length_map.
Qed.

(** What [match_detections_to_tracks] returns, in terms of the state of the
    greedy loop. *)
Lemma match_result_spec (so : SetIteration) (dets : list (Z * BBox F))
    (tracks : dict Z (BBox F)) (thr : F) :
  let M := matches_of so dets tracks thr in
  let UD := unmatched_dets_of so dets tracks thr in
  let UT := unmatched_tracks_of so dets tracks thr in
  NoDup (dict_keys M) /\ NoDup (dict_values M) /\
  (forall d, In d (dict_keys M) -> In d (map fst dets)) /\
  (forall t, In t (dict_values M) -> In t (dict_keys tracks)) /\
  (forall d, In d UD <-> In d (map fst dets) /\ ~ In d (dict_keys M)) /\
  (forall t, In t UT <-> In t (dict_keys tracks) /\ ~ In t (dict_values M)) /\
  (NoDup (map fst dets) ->
   (List.length M + List.length UD)%nat = List.length dets) /\
  (NoDup (dict_keys tracks) ->
   (List.length M + List.length UT)%nat = List.length tracks).
Proof.
  cbv zeta.
  assert (Hsound : forall d t, In (d, t) (matches_of so dets tracks thr) ->
                     In d (map fst dets) /\ In t (dict_keys tracks))
    by (intros d t; apply matches_of_sound).
  unfold matches_of, unmatched_dets_of, unmatched_tracks_of in *.
  unfold Matching.match_detections_to_tracks in *.
  destruct dets as [|d0 dets], tracks as [|t0 tracks];
    [exact (no_match_spec [] [])
    |exact (no_match_spec [] (t0 :: tracks))
    |exact (no_match_spec (d0 :: dets) [])|].
  pose proof (greedy_spec
                (Matching.sorted_desc
                   (Matching.iou_matrix_of (d0 :: dets) (t0 :: tracks) thr)))
    as G.
  destruct (Matching.greedy _) as [[M MD] MT].
  destruct G as (HD & HT & ND & NT & _ & _). simpl fst in *. simpl snd in *.
  assert (HkM : forall d, In d (dict_keys M) -> In d (map fst (d0 :: dets))).
  { intros d I. apply in_map_iff in I. destruct I as ([d' t] & E & I).
    simpl in E. subst d'. apply (Hsound d t I). }
  assert (HvM : forall t, In t (dict_values M) ->
                          In t (dict_keys (t0 :: tracks))).
  { intros t I. apply in_map_iff in I. destruct I as ([d t'] & E & I).
    simpl in E. subst t'. apply (Hsound d t I). }
  split; [exact ND|]. split; [exact NT|]. split; [exact HkM|].
  split; [exact HvM|]. split; [|split; [|split]].
  - intros d. split.
    + intros I. apply (Permutation_in _ (set_order_perm so _)) in I.
      apply set_diff_In in I. destruct I as [I N].
      apply (proj1 (set_of_list_In _ _)) in I. split; [exact I|].
      intros I'. apply N, HD, I'.
    + intros [I N].
      apply (Permutation_in _ (Permutation_sym (set_order_perm so _))).
      apply set_diff_In. split; [apply set_of_list_In, I|].
      intros I'. apply N, HD, I'.
  - intros t. split.
    + intros I. apply (Permutation_in _ (set_order_perm so _)) in I.
      apply set_diff_In in I. destruct I as [I N].
      apply (proj1 (set_of_list_In _ _)) in I. split; [exact I|].
      intros I'. apply N, HT, I'.
    + intros [I N].
      apply (Permutation_in _ (Permutation_sym (set_order_perm so _))).
      apply set_diff_In. split; [apply set_of_list_In, I|].
      intros I'. apply N, HT, I'.
  - intros NDd.
    rewrite (Permutation_length (set_order_perm so _)).
    rewrite set_of_list_NoDup_id by exact NDd. rewrite Nat.add_comm.
    rewrite <- (length_map fst M).
    rewrite <- (length_map fst (d0 :: dets)).
    apply set_diff_length; [exact NDd|exact ND|exact HkM|exact HD].
  - intros NDt.
    rewrite (Permutation_length (set_order_perm so _)).
    rewrite set_of_list_NoDup_id by exact NDt. rewrite Nat.add_comm.
    rewrite <- (length_map snd M).
    rewrite <- (length_map fst (t0 :: tracks)).
    apply (set_diff_length (l := dict_keys (t0 :: tracks))
             (m := dict_values M));
      [exact NDt|exact NT|exact HvM|exact HT].
Qed.

End MatcherLists.

(** X9.  The three results of [match_detections_to_tracks] fit together:
    the unmatched detections are exactly the detection indices that are not
    a key of [matches], the unmatched tracks exactly the track ids that are
    not a value of [matches]; every matched index and id comes from the
    input; with distinct detection indices (distinct track ids) the matched
    and unmatched detections (tracks) add up to the input; and there are never
    more matches than detections or than tracks. *)
Theorem X9_matcher_results_partition_the_input :
  forall (F : Type) (PF : PyFloat F) (so : SetIteration)
         (detections : list (Z * BBox F)) (tracks : dict Z (BBox F))
         (iou_threshold : F),
    let matches := matches_of so detections tracks iou_threshold in
    let unmatched_detections :=
      unmatched_dets_of so detections tracks iou_threshold in
    let unmatched_tracks :=
      unmatched_tracks_of so detections tracks iou_threshold in
    (forall d, In d unmatched_detections <->
               In d (map fst detections) /\ ~ In d (dict_keys matches)) /\
    (forall t, In t unmatched_tracks <->
               In t (dict_keys tracks) /\ ~ In t (dict_values matches)) /\
    (forall d, In d (dict_keys matches) -> In d (map fst detections)) /\
    (forall t, In t (dict_values matches) -> In t (dict_keys tracks)) /\
    (NoDup (map fst detections) ->
     (List.length matches + List.length unmatched_detections)%nat
     = List.length detections) /\
    (NoDup (dict_keys tracks) ->
     (List.length matches + List.length unmatched_tracks)%nat
     = List.length tracks) /\
    (List.length matches <= List.length detections)%nat /\
    (List.length matches <= List.length tracks)%nat.
Proof.
  intros F PF so dets tracks thr. cbv zeta.
  destruct (match_result_spec so dets tracks thr)
    as (ND & NT & HkM & HvM & HUD & HUT & Hcd & Hct).
  split; [exact HUD|]. split; [exact HUT|]. split; [exact HkM|].
  split; [exact HvM|]. split; [exact Hcd|]. split; [exact Hct|]. split.
  - rewrite <- (length_map fst (matches_of so dets tracks thr)).
    rewrite <- (length_map fst dets).
    apply NoDup_incl_length; [exact ND|]. intros d. apply HkM.
  - rewrite <- (length_map snd (matches_of so dets tracks thr)).
    rewrite <- (length_map fst tracks).
    apply NoDup_incl_length; [exact NT|]. intros t. apply HvM.
Qed.

Lemma X9_witness :
  let dets : list (Z * BBox Q) :=
    [(0%Z, (10#100, 1#10, 1#10, 1#10)); (1%Z, (14#100, 1#10, 1#10, 1#10))] in
  let tracks : dict Z (BBox Q) := [(7%Z, (12#100, 1#10, 1#10, 1#10))] in
  (List.length (matches_of insertion_order dets tracks (3#10))
   + List.length (unmatched_dets_of insertion_order dets tracks (3#10)))%nat
  = 2%nat.
Proof.
  cbv zeta.
  apply (proj1 (proj2 (proj2 (proj2 (proj2
           (X9_matcher_results_partition_the_input PyFloat_Q insertion_order
              [(0%Z, (10#100, 1#10, 1#10, 1#10));
               (1%Z, (14#100, 1#10, 1#10, 1#10))]
              [(7%Z, (12#100, 1#10, 1#10, 1#10))] (3#10))))))).
  repeat constructor; simpl; intuition discriminate.
Defined.

Section Maximality.
Context {F : Type} `{PyFloat F}.

Lemma dict_set_keys_In {K V : Type} `{EqKey K} (k k' : K) (v : V)
    (d : dict K V) :
  In k (dict_keys (dict_set k' v d)) <-> k = k' \/ In k (dict_keys d).
Proof.
  rewrite dict_keys_set. unfold dict_mem.
  destruct (dict_get k' d) as [v'|] eqn:E.
  - split; [auto|]. intros [->|I]; [|exact I].
    eapply dict_get_Some_key, E.
  - rewrite in_app_iff. simpl. split.
    + intros [I|[->|[]]]; auto.
    + intros [->|I]; auto.
Qed.

Lemma iou_row_keys (thr : F) (di : Z) (db : BBox F)
    (tracks : dict Z (BBox F)) :
  forall (m : dict (Z * Z) F) (k : Z * Z),
    In k (dict_keys m) \/
    (exists t tb, k = (di, t) /\ In (t, tb) tracks /\
                  fge (Matching.compute_iou db tb) thr = true) ->
    In k (dict_keys (Matching.iou_row thr di db tracks m)).
Proof.
  unfold Matching.iou_row.
  induction tracks as [|[ti tbi] tracks IH]; intros m k; simpl.
  - intros [I|(t & tb & _ & [] & _)]. exact I.
  - intros [I|(t & tb & -> & [[= -> ->]|I] & L)]; apply IH.
    + left. destruct (fge _ thr); [|exact I].
      apply dict_set_keys_In. right. exact I.
    + left. rewrite L. apply dict_set_keys_In. left. reflexivity.
    + right. exists t, tb. auto.
Qed.

Lemma iou_matrix_keys (dets : list (Z * BBox F)) (tracks : dict Z (BBox F))
    (thr : F) (d t : Z) (db tb : BBox F) :
  In (d, db) dets -> In (t, tb) tracks ->
  fge (Matching.compute_iou db tb) thr = true ->
  In (d, t) (dict_keys (Matching.iou_matrix_of dets tracks thr)).
Proof.
  intros Id It L. unfold Matching.iou_matrix_of.
  assert (G : forall m,
             In (d, t) (dict_keys m) \/ In (d, db) dets ->
             In (d, t)
                (dict_keys
                   (fold_left
                      (fun m (x : Z * BBox F) =>
                         Matching.iou_row thr (fst x) (snd x) tracks m)
                      dets m))).
  { clear Id. induction dets as [|[di dbi] dets IH]; intros m; simpl.
    - intros [I|[]]. exact I.
    - intros [I|[[= -> ->]|I]]; apply IH.
      + left. apply iou_row_keys. left. exact I.
      + left. apply iou_row_keys. right. exists t, tb. auto.
      + right. exact I. }
  apply G. right. exact Id.
Qed.

Lemma matcher_maximal (so : SetIteration) (dets : list (Z * BBox F))
    (tracks : dict Z (BBox F)) (thr : F) (d t : Z) (db tb : BBox F) :
  In (d, db) dets -> In (t, tb) tracks ->
  fge (Matching.compute_iou db tb) thr = true ->
  In d (dict_keys (matches_of so dets tracks thr)) \/
  In t (dict_values (matches_of so dets tracks thr)).
Proof.
  intros Id It L.
  pose proof (iou_matrix_keys dets tracks thr d t db tb Id It L) as Ik.
  apply in_map_iff in Ik. destruct Ik as ([[d' t'] v] & E & Ic).
  simpl in E. injection E as -> ->.
  rewrite matches_of_as_greedy.
  pose proof (greedy_spec
                (Matching.sorted_desc (Matching.iou_matrix_of dets tracks thr)))
    as G.
  destruct (Matching.greedy _) as [[M MD] MT].
  destruct G as (_ & _ & _ & _ & _ & Hall). simpl.
  apply (Permutation_in _ (Permutation_sym (sorted_desc_perm _))) in Ic.
  destruct (Hall d t v Ic) as [I|(d' & t' & v' & I & [->| ->] & _)].
  - left. change d with (fst (d, t)). apply in_map, I.
  - left. change d with (fst (d, t')). apply in_map, I.
  - right. change t with (snd (d', t)). apply in_map, I.
Qed.

End Maximality.

(** X10.  The matching is maximal: whenever a detection and a track of the
    input have an IoU of at least the threshold, the detection is matched or
    the track is matched (possibly to others); so no such pair is ever left
    with its detection among the unmatched detections and its track among
    the unmatched tracks. *)
Theorem X10_no_matchable_pair_left_unmatched :
  forall (F : Type) (PF : PyFloat F) (so : SetIteration)
         (detections : list (Z * BBox F)) (tracks : dict Z (BBox F))
         (iou_threshold : F) (d t : Z) (db tb : BBox F),
    In (d, db) detections -> In (t, tb) tracks ->
    fge (Matching.compute_iou db tb) iou_threshold = true ->
    (In d (dict_keys (matches_of so detections tracks iou_threshold)) \/
     In t (dict_values (matches_of so detections tracks iou_threshold))) /\
    ~ (In d (unmatched_dets_of so detections tracks iou_threshold) /\
       In t (unmatched_tracks_of so detections tracks iou_threshold)).
Proof.
  intros F PF so dets tracks thr d t db tb Id It L.
  pose proof (matcher_maximal so dets tracks thr d t db tb Id It L) as Hmax.
  split; [exact Hmax|].
  destruct (match_result_spec so dets tracks thr)
    as (_ & _ & _ & _ & HUD & HUT & _).
  intros [Iu Iv]. apply HUD in Iu. apply HUT in Iv. tauto.
Qed.

Lemma X10_witness :
  let dets : list (Z * BBox Q) :=
    [(0%Z, (10#100, 1#10, 1#10, 1#10)); (1%Z, (14#100, 1#10, 1#10, 1#10))] in
  let tracks : dict Z (BBox Q) := [(7%Z, (12#100, 1#10, 1#10, 1#10))] in
  In 1%Z (dict_keys (matches_of insertion_order dets tracks (3#10))) \/
  In 7%Z (dict_values (matches_of insertion_order dets tracks (3#10))).
Proof.
  cbv zeta.
  apply (@X10_no_matchable_pair_left_unmatched Q PyFloat_Q insertion_order
           [(0%Z, (10#100, 1#10, 1#10, 1#10));
            (1%Z, (14#100, 1#10, 1#10, 1#10))]
           [(7%Z, (12#100, 1#10, 1#10, 1#10))] (3#10) 1%Z 7%Z
           (14#100, 1#10, 1#10, 1#10) (12#100, 1#10, 1#10, 1#10)).
  - right. left. reflexivity.
  - left. reflexivity.
  - reflexivity.
Defined.

Section OneUpdatePerDetection.
Context {F : Type} `{PyFloat F}.

Lemma enumerate_from_keys {A : Type} (s : Z) (l : list A) :
  map fst (enumerate_from s l) = zseq s (List.length l).
Proof.
  revert s. induction l as [|a l IH]; intros s; simpl; [reflexivity|].
  rewrite IH. reflexivity.
Qed.

Lemma detections_of_keys (event : DetectionResult F) :
  map fst (detections_of event)
  = zseq 0 (List.length (dr_objects event)).
Proof.
  unfold detections_of, enumerate. rewrite map_map. simpl.
  apply enumerate_from_keys.
Qed.

Lemma detections_of_length (event : DetectionResult F) :
  List.length (detections_of event) = List.length (dr_objects event).
Proof.
  rewrite <- (length_map fst), detections_of_keys. apply zseq_length.
Qed.

Lemma published_count (so : SetIteration) (thr : F) (tr tr' : Tracker.t F)
    (event : DetectionResult F) (pubs : list (TrackUpdate F)) :
  tracker_wf tr ->
  TrackerModule.process_detections so thr tr event = Ok (tr', pubs) ->
  List.length pubs = List.length (dr_objects event).
Proof.
  intros Hwf Hrun.
  destruct (process_detections_shape so thr event Hwf)
    as (updated & news & pubs0 & Hrun0 & _ & _ & _ & _ & Hlen).
  rewrite Hrun in Hrun0. injection Hrun0 as _ ->. rewrite Hlen.
  destruct (match_result_spec so (detections_of event)
              (Tracker.get_active_tracks tr) thr)
    as (_ & _ & _ & _ & _ & _ & Hcd & _).
  rewrite Hcd; [apply detections_of_length|].
  rewrite detections_of_keys. apply zseq_NoDup.
Qed.

End OneUpdatePerDetection.

(** X11.  From every reachable tracker state a loop iteration completes
    and publishes exactly as many [TrackUpdate]s as the frame has
    detections: one for each detection, matched or not. *)
Theorem X11_one_track_update_per_detection :
  forall (F : Type) (PF : PyFloat F) (so : SetIteration) (iou_threshold : F)
         (tracker : Tracker.t F) (event : DetectionResult F),
    reachable tracker ->
    exists tracker' published,
      TrackerModule.process_detections so iou_threshold tracker event
        = Ok (tracker', published) /\
      List.length published = List.length (dr_objects event).
Proof.
  intros F PF so thr tr event R. apply reachable_wf in R.
  destruct (process_detections_spec so thr event R)
    as (tr' & pubs & Hrun & _).
  exists tr', pubs. split; [exact Hrun|].
  eapply published_count; eassumption.
Qed.

Lemma X11_witness :
  exists (tracker' : Tracker.t Q) (published : list (TrackUpdate Q)),
    TrackerModule.process_detections insertion_order (3#10) TrackerModule.init
      {| dr_frame_id := 0; dr_timestamp_ms := 0;
         dr_objects :=
           [ {| det_label := "person"; det_confidence := 9#10;
                det_bbox := (1#10, 1#10, 1#10, 1#10) |};
             {| det_label := "door"; det_confidence := 92#100;
                det_bbox := (75#100, 25#100, 12#100, 40#100) |} ] |}
    = Ok (tracker', published) /\
    List.length published = 2%nat.
Proof.
  exact (@X11_one_track_update_per_detection Q PyFloat_Q insertion_order
           (3#10) TrackerModule.init
           {| dr_frame_id := 0; dr_timestamp_ms := 0;
              dr_objects :=
                [ {| det_label := "person"; det_confidence := 9#10;
                     det_bbox := (1#10, 1#10, 1#10, 1#10) |};
                  {| det_label := "door"; det_confidence := 92#100;
                     det_bbox := (75#100, 25#100, 12#100, 40#100) |} ] |}
           reachable_init).
Defined.

(** ** The range of the IoU *)

Section IouRange.




End IouRange.



(** ** Bus policies *)

Section LastFirst.
Context {A : Type}.

Lemma lastn_snoc_full (n : nat) (a x : A) (l : list A) :
  List.length (a :: l) = n -> lastn n ((a :: l) ++ [x]) = l ++ [x].
Proof.
  intros <-. unfold lastn. rewrite length_app.
  replace (List.length (a :: l) + List.length [x] - List.length (a :: l))%nat
    with 1%nat by (simpl; lia).
  reflexivity.
Qed.

Lemma lastn_lastn_snoc (n : nat) (l : list A) (x : A) :
  (1 <= n)%nat -> lastn n (lastn n l ++ [x]) = lastn n (l ++ [x]).
Proof.
  intros Hn. destruct (Nat.leb_spec (List.length l) n) as [L|L].
  - rewrite (@lastn_short _ n l) by exact L. reflexivity.
  - unfold lastn at 2 3. rewrite length_app.
    replace (List.length l + List.length [x] - n)%nat
      with (1 + (List.length l - n))%nat by (simpl; lia).
    rewrite <- skipn_skipn, skipn_app.
    replace (List.length l - n - List.length l)%nat with 0%nat by lia.
    change (skipn 0 [x]) with [x].
    unfold lastn. rewrite length_app, length_skipn.
    replace (List.length l - (List.length l - n) + List.length [x] - n)%nat
      with 1%nat by (simpl; lia).
    reflexivity.
Qed.

Lemma firstn_firstn_snoc (n : nat) (l : list A) (x : A) :
  firstn n (firstn n l ++ [x]) = firstn n (l ++ [x]).
Proof.
  destruct (Nat.leb_spec (List.length l) n) as [L|L].
  - rewrite (@firstn_all2 _ n l) by exact L. reflexivity.
  - rewrite !firstn_app, length_firstn.
    replace (n - Nat.min n (List.length l))%nat with 0%nat by lia.
    replace (n - List.length l)%nat with 0%nat by lia.
    rewrite firstn_firstn. rewrite Nat.min_id. reflexivity.
Qed.

Lemma zsum_map_add (f g : A -> Z) (l : list A) :
  (zsum (map f l) + zsum (map g l))%Z
  = zsum (map (fun a => (f a + g a)%Z) l).
Proof.
  unfold zsum. induction l as [|a l IH]; simpl; [reflexivity|].
  rewrite <- IH. lia.
Qed.

Lemma drain_frames (l : list A) : drain (map Some l) = (l, false).
Proof.
  induction l as [|a l IH]; simpl; [reflexivity|]. rewrite IH. reflexivity.
Qed.

Lemma drain_sentinel (l : list A) (rest : list (option A)) :
  drain (map Some l ++ None :: rest) = (l, true).
Proof.
  induction l as [|a l IH]; simpl; [reflexivity|]. rewrite IH. reflexivity.
Qed.

End LastFirst.

Section FrameBusPolicy.
Context {FramePacket : Type}.

Let queue : Type := AsyncQueue.t (option FramePacket).

(** The queue of a subscriber after one more frame, and what it costs. *)
Let pushed (C : Z) (frames : list FramePacket) (q : queue) : queue :=
  {| AsyncQueue.maxsize := C;
     AsyncQueue.items :=
       lastn (Z.to_nat C) (AsyncQueue.items q ++ map Some frames) |}.

Lemma frame_publish_one_spec (C : Z) (f : FramePacket) (q : queue)
    (dropped : Z) :
  (1 <= C)%Z -> queue_ok C q ->
  FrameBus.publish_one C f q dropped =
  (pushed C [f] q,
   (dropped + (if (C <=? AsyncQueue.qsize q)%Z then 1 else 0))%Z).
Proof.
  intros HC [Hm Hlen]. destruct q as [m items]. simpl in Hm. subst m.
  unfold AsyncQueue.qsize in Hlen. simpl in Hlen.
  unfold FrameBus.publish_one, pushed, AsyncQueue.qsize. simpl.
  destruct (C <=? Z.of_nat (List.length items))%Z eqn:E.
  - apply Z.leb_le in E.
    destruct items as [|a l]; [simpl in E; lia|].
    unfold AsyncQueue.get_nowait. simpl AsyncQueue.items.
    unfold AsyncQueue.put_nowait, AsyncQueue.full, AsyncQueue.qsize.
    simpl AsyncQueue.maxsize. simpl AsyncQueue.items.
    replace (C <=? 0)%Z with false by (symmetry; apply Z.leb_gt; lia).
    replace (C <=? Z.of_nat (List.length l))%Z with false
      by (symmetry; apply Z.leb_gt; simpl in Hlen; lia).
    rewrite lastn_snoc_full by (simpl in *; lia).
    f_equal.
  - apply Z.leb_gt in E.
    unfold AsyncQueue.put_nowait, AsyncQueue.full, AsyncQueue.qsize.
    simpl AsyncQueue.maxsize. simpl AsyncQueue.items.
    replace (C <=? 0)%Z with false by (symmetry; apply Z.leb_gt; lia).
    replace (C <=? Z.of_nat (List.length items))%Z with false
      by (symmetry; apply Z.leb_gt; lia).
    rewrite lastn_short by (rewrite length_app; simpl; lia).
    f_equal. lia.
Qed.

Lemma frame_publish_all_spec (C : Z) (f : FramePacket) (qs : list queue)
    (dropped : Z) :
  (1 <= C)%Z -> Forall (queue_ok C) qs ->
  FrameBus.publish_all C f qs dropped =
  (map (pushed C [f]) qs,
   (dropped
    + zsum (map (fun q => if (C <=? AsyncQueue.qsize q)%Z then 1 else 0) qs))%Z).
Proof.
  intros HC Hqs. revert dropped.
  induction Hqs as [|q qs Hq Hqs IH]; intros dropped; simpl.
  - f_equal. unfold zsum. simpl. lia.
  - rewrite (frame_publish_one_spec f dropped HC Hq), IH.
    f_equal. unfold zsum. simpl. lia.
Qed.

Lemma pushed_ok (C : Z) (frames : list FramePacket) (q : queue) :
  (1 <= C)%Z -> queue_ok C (pushed C frames q).
Proof.
  intros HC. split; [reflexivity|].
  unfold AsyncQueue.qsize, pushed. simpl. rewrite lastn_length. lia.
Qed.

Lemma pushed_qsize (C : Z) (frames : list FramePacket) (q : queue) :
  (1 <= C)%Z ->
  AsyncQueue.qsize (pushed C frames q)
  = Z.min C (AsyncQueue.qsize q + Z.of_nat (List.length frames)).
Proof.
  intros HC. unfold AsyncQueue.qsize, pushed. simpl.
  rewrite lastn_length, length_app, length_map. lia.
Qed.

Lemma pushed_snoc (C : Z) (frames : list FramePacket) (f : FramePacket)
    (q : queue) :
  (1 <= C)%Z -> pushed C [f] (pushed C frames q) = pushed C (frames ++ [f]) q.
Proof.
  intros HC. unfold pushed. simpl. f_equal.
  rewrite map_app, app_assoc. simpl. apply lastn_lastn_snoc. lia.
Qed.

Lemma frame_publish_many (bus : FrameBus.t FramePacket)
    (frames : list FramePacket) :
  frame_bus_ok bus ->
  let C := FrameBus.queue_size bus in
  let bus' := fold_left FrameBus.publish frames bus in
  FrameBus.queue_size bus' = C /\
  FrameBus.subscribers bus' = map (pushed C frames) (FrameBus.subscribers bus) /\
  FrameBus.frame_count bus'
  = (FrameBus.frame_count bus + Z.of_nat (List.length frames))%Z /\
  FrameBus.dropped_count bus'
  = (FrameBus.dropped_count bus
     + zsum (map (fun q =>
                    Z.max 0 (AsyncQueue.qsize q
                             + Z.of_nat (List.length frames) - C))
                 (FrameBus.subscribers bus)))%Z.
Proof.
  intros [HC Hqs]. cbv zeta.
  induction frames as [|f frames IH] using rev_ind.
  - simpl. split; [reflexivity|]. split.
    + rewrite <- (map_id (FrameBus.subscribers bus)) at 1.
      apply map_ext_in. intros q Hq.
      rewrite Forall_forall in Hqs. destruct (Hqs q Hq) as [Hm Hl].
      destruct q as [m items]. simpl in Hm. subst m.
      unfold pushed. simpl. rewrite app_nil_r.
      unfold AsyncQueue.qsize in Hl. simpl in Hl.
      rewrite lastn_short by lia. reflexivity.
    + split; [lia|].
      replace (zsum _) with 0%Z; [lia|].
      symmetry. unfold zsum.
      induction Hqs as [|q qs [Hm Hl] Hqs IHq]; simpl; [reflexivity|].
      rewrite IHq. lia.
  - rewrite fold_left_app. simpl.
    destruct IH as (Hsize & Hsubs & Hcount & Hdrop).
    set (mid := fold_left FrameBus.publish frames bus) in *.
    unfold FrameBus.publish.
    rewrite Hsize, Hsubs.
    rewrite frame_publish_all_spec;
      [|exact HC
       |apply Forall_forall; intros q Hq; apply in_map_iff in Hq;
        destruct Hq as (q0 & <- & _); apply pushed_ok, HC].
    simpl. split; [reflexivity|]. split.
    + rewrite map_map. apply map_ext. intros q. apply pushed_snoc, HC.
    + split; [rewrite Hcount, length_app; simpl; lia|].
      rewrite Hdrop, map_map, <- Z.add_assoc, zsum_map_add. f_equal. f_equal.
      apply map_ext_in. intros q Hq.
      rewrite Forall_forall in Hqs. destruct (Hqs q Hq) as [_ Hl].
      rewrite pushed_qsize by exact HC. rewrite length_app. simpl.
      destruct (Z.leb_spec (FrameBus.queue_size bus)
                  (Z.min (FrameBus.queue_size bus)
                     (AsyncQueue.qsize q + Z.of_nat (List.length frames))));
        lia.
Qed.

End FrameBusPolicy.

Section ResultBusPolicy.
Context {Event : Type}.

Let queue : Type := AsyncQueue.t (option Event).

Lemma result_publish_one_bounded (C : Z) (e : Event) (q : queue) :
  (1 <= C)%Z -> queue_ok C q ->
  ResultBus.publish_one e q =
  {| AsyncQueue.maxsize := C;
     AsyncQueue.items :=
       firstn (Z.to_nat C) (AsyncQueue.items q ++ [Some e]) |}.
Proof.
  intros HC [Hm Hlen]. destruct q as [m items]. simpl in Hm. subst m.
  unfold AsyncQueue.qsize in Hlen. simpl in Hlen.
  unfold ResultBus.publish_one, AsyncQueue.put_nowait, AsyncQueue.full,
    AsyncQueue.qsize. simpl.
  replace (C <=? 0)%Z with false by (symmetry; apply Z.leb_gt; lia).
  destruct (Z.leb_spec C (Z.of_nat (List.length items))) as [E|E].
  - f_equal. rewrite firstn_app.
    replace (Z.to_nat C - List.length items)%nat with 0%nat by lia.
    rewrite firstn_all2 by lia. simpl. rewrite app_nil_r. reflexivity.
  - f_equal. rewrite firstn_all2; [reflexivity|].
    rewrite length_app. simpl. lia.
Qed.

Lemma result_publish_one_unbounded (e : Event) (q : queue) :
  (AsyncQueue.maxsize q <= 0)%Z ->
  ResultBus.publish_one e q =
  {| AsyncQueue.maxsize := AsyncQueue.maxsize q;
     AsyncQueue.items := AsyncQueue.items q ++ [Some e] |}.
Proof.
  intros Hm. unfold ResultBus.publish_one, AsyncQueue.put_nowait,
    AsyncQueue.full.
  replace (AsyncQueue.maxsize q <=? 0)%Z with true
    by (symmetry; apply Z.leb_le; exact Hm).
  reflexivity.
Qed.

Lemma result_publish_many_fields (bus : ResultBus.t Event)
    (events : list Event) :
  let bus' := fold_left ResultBus.publish events bus in
  ResultBus.queue_size bus' = ResultBus.queue_size bus /\
  ResultBus.event_count bus'
  = (ResultBus.event_count bus + Z.of_nat (List.length events))%Z /\
  ResultBus.subscribers bus'
  = map (fun q => fold_left (fun q e => ResultBus.publish_one e q) events q)
        (ResultBus.subscribers bus).
Proof.
  cbv zeta. revert bus.
  induction events as [|e events IH]; intros bus; simpl.
  - split; [reflexivity|]. split; [lia|]. symmetry. apply map_id.
  - destruct (IH (ResultBus.publish bus e)) as (Hs & Hc & Hq).
    rewrite Hs, Hc, Hq. simpl. split; [reflexivity|]. split; [lia|].
    apply map_map.
Qed.

Lemma result_queue_bounded (C : Z) (events : list Event) (q : queue) :
  (1 <= C)%Z -> queue_ok C q ->
  fold_left (fun q e => ResultBus.publish_one e q) events q =
  {| AsyncQueue.maxsize := C;
     AsyncQueue.items :=
       firstn (Z.to_nat C) (AsyncQueue.items q ++ map Some events) |}.
Proof.
  intros HC Hq. induction events as [|e events IH] using rev_ind.
  - simpl. destruct Hq as [Hm Hl]. destruct q as [m items]. simpl in *.
    subst m. unfold AsyncQueue.qsize in Hl. simpl in Hl.
    rewrite app_nil_r, firstn_all2 by lia. reflexivity.
  - rewrite fold_left_app. simpl. rewrite IH.
    rewrite (@result_publish_one_bounded C).
    + simpl. f_equal. rewrite map_app, app_assoc. simpl.
      apply firstn_firstn_snoc.
    + exact HC.
    + split; [reflexivity|]. unfold AsyncQueue.qsize. simpl.
      rewrite length_firstn. lia.
Qed.

Lemma result_queue_unbounded (events : list Event) (q : queue) :
  (AsyncQueue.maxsize q <= 0)%Z ->
  fold_left (fun q e => ResultBus.publish_one e q) events q =
  {| AsyncQueue.maxsize := AsyncQueue.maxsize q;
     AsyncQueue.items := AsyncQueue.items q ++ map Some events |}.
Proof.
  intros Hm. induction events as [|e events IH] using rev_ind.
  - simpl. rewrite app_nil_r. destruct q; reflexivity.
  - rewrite fold_left_app. simpl. rewrite IH.
    rewrite result_publish_one_unbounded by exact Hm.
    simpl. rewrite map_app, app_assoc. reflexivity.
Qed.

End ResultBusPolicy.

Section FrameBusUnbounded.
Context {FramePacket : Type}.

Let queue : Type := AsyncQueue.t (option FramePacket).

Let latest (m : Z) (frames : list FramePacket) (q : queue) : queue :=
  {| AsyncQueue.maxsize := m;
     AsyncQueue.items :=
       lastn (Nat.max 1 (List.length (AsyncQueue.items q)))
             (AsyncQueue.items q ++ map Some frames) |}.

Lemma frame_publish_all_pointwise (C : Z) (f : FramePacket)
    (g : queue -> queue) (d : queue -> Z) (qs : list queue) (dropped : Z) :
  (forall q n, In q qs ->
     FrameBus.publish_one C f q n = (g q, (n + d q)%Z)) ->
  FrameBus.publish_all C f qs dropped
  = (map g qs, (dropped + zsum (map d qs))%Z).
Proof.
  revert dropped. induction qs as [|q qs IH]; intros dropped Hone; simpl.
  - f_equal. unfold zsum. simpl. lia.
  - rewrite (Hone q dropped (or_introl eq_refl)).
    rewrite IH by (intros q' n Hq'; apply Hone; right; exact Hq').
    f_equal. unfold zsum. simpl. lia.
Qed.

Lemma frame_publish_one_nonpositive (C : Z) (f : FramePacket) (q : queue)
    (dropped : Z) :
  (C <= 0)%Z -> AsyncQueue.maxsize q = C ->
  FrameBus.publish_one C f q dropped =
  ({| AsyncQueue.maxsize := C;
      AsyncQueue.items := tl (AsyncQueue.items q) ++ [Some f] |},
   (dropped + Z.min 1 (AsyncQueue.qsize q))%Z).
Proof.
  intros HC Hm. destruct q as [m items]. simpl in Hm. subst m.
  unfold FrameBus.publish_one, AsyncQueue.qsize. simpl.
  replace (C <=? Z.of_nat (List.length items))%Z with true
    by (symmetry; apply Z.leb_le; lia).
  destruct items as [|a l].
  - unfold AsyncQueue.get_nowait. simpl AsyncQueue.items. cbv iota.
    unfold AsyncQueue.put_nowait, AsyncQueue.full. simpl AsyncQueue.maxsize.
    replace (C <=? 0)%Z with true by (symmetry; apply Z.leb_le; lia).
    simpl. f_equal. lia.
  - unfold AsyncQueue.get_nowait. simpl AsyncQueue.items. cbv iota.
    unfold AsyncQueue.put_nowait, AsyncQueue.full. simpl AsyncQueue.maxsize.
    replace (C <=? 0)%Z with true by (symmetry; apply Z.leb_le; lia).
    simpl AsyncQueue.items. simpl tl. f_equal.
    change (List.length (a :: l)) with (S (List.length l)). lia.
Qed.

Lemma tl_snoc_lastn (A : Type) (l : list A) (x : A) :
  tl l ++ [x] = lastn (Nat.max 1 (List.length l)) (l ++ [x]).
Proof.
  destruct l as [|a l]; [reflexivity|].
  simpl tl. symmetry.
  replace (Nat.max 1 (List.length (a :: l))) with (List.length (a :: l))
    by (simpl; lia).
  apply lastn_snoc_full. reflexivity.
Qed.

Lemma latest_length (m : Z) (frames : list FramePacket) (q : queue) :
  List.length (AsyncQueue.items (latest m frames q))
  = Nat.min (Nat.max 1 (List.length (AsyncQueue.items q)))
            (List.length (AsyncQueue.items q) + List.length frames).
Proof.
  unfold latest. simpl. rewrite lastn_length, length_app, length_map.
  reflexivity.
Qed.

Lemma frame_publish_many_nonpositive (bus : FrameBus.t FramePacket)
    (frames : list FramePacket) :
  (FrameBus.queue_size bus <= 0)%Z ->
  Forall (fun q => AsyncQueue.maxsize q = FrameBus.queue_size bus)
         (FrameBus.subscribers bus) ->
  let C := FrameBus.queue_size bus in
  let bus' := fold_left FrameBus.publish frames bus in
  FrameBus.queue_size bus' = C /\
  FrameBus.subscribers bus' = map (latest C frames) (FrameBus.subscribers bus) /\
  FrameBus.dropped_count bus'
  = (FrameBus.dropped_count bus
     + zsum (map (fun q =>
                    Z.max 0 (Z.min 1 (AsyncQueue.qsize q)
                             + Z.of_nat (List.length frames) - 1))
                 (FrameBus.subscribers bus)))%Z.
Proof.
  intros HC Hqs. cbv zeta.
  induction frames as [|f frames IH] using rev_ind.
  - simpl. split; [reflexivity|]. split.
    + rewrite <- (map_id (FrameBus.subscribers bus)) at 1.
      apply map_ext_in. intros q Hq.
      rewrite Forall_forall in Hqs. specialize (Hqs q Hq).
      destruct q as [m items]. simpl in Hqs. subst m.
      unfold latest. simpl AsyncQueue.items. rewrite app_nil_r.
      rewrite lastn_short by lia. reflexivity.
    + replace (zsum _) with 0%Z; [lia|].
      symmetry. unfold zsum. clear Hqs.
      induction (FrameBus.subscribers bus) as [|q qs IHq]; simpl;
        [reflexivity|].
      rewrite IHq. unfold AsyncQueue.qsize. lia.
  - rewrite fold_left_app. simpl.
    destruct IH as (Hsize & Hsubs & Hdrop).
    set (mid := fold_left FrameBus.publish frames bus) in *.
    unfold FrameBus.publish.
    rewrite Hsize, Hsubs.
    rewrite (@frame_publish_all_pointwise (FrameBus.queue_size bus) f
               (fun q => {| AsyncQueue.maxsize := FrameBus.queue_size bus;
                            AsyncQueue.items :=
                              tl (AsyncQueue.items q) ++ [Some f] |})
               (fun q => Z.min 1 (AsyncQueue.qsize q))).
    2:{ intros q n Hq. apply frame_publish_one_nonpositive; [exact HC|].
        apply in_map_iff in Hq. destruct Hq as (q0 & <- & _). reflexivity. }
    simpl. split; [reflexivity|]. split.
    + rewrite map_map. apply map_ext. intros q. unfold latest.
      cbn [AsyncQueue.items AsyncQueue.maxsize].
      f_equal. rewrite tl_snoc_lastn, lastn_length, length_app, length_map.
      rewrite map_app, app_assoc. change (map Some [f]) with [Some f].
      replace (Nat.max 1
                 (Nat.min (Nat.max 1 (List.length (AsyncQueue.items q)))
                    (List.length (AsyncQueue.items q) + List.length frames)))
        with (Nat.max 1 (List.length (AsyncQueue.items q))) by lia.
      apply lastn_lastn_snoc. lia.
    + rewrite Hdrop, map_map, <- Z.add_assoc, zsum_map_add. f_equal. f_equal.
      apply map_ext. intros q.
      unfold AsyncQueue.qsize at 2. rewrite latest_length.
      unfold AsyncQueue.qsize. rewrite length_app.
      change (List.length [f]) with 1%nat. lia.
Qed.

End FrameBusUnbounded.

Section Shutdown.
Context {A : Type}.

Lemma lastn_map (B : Type) (f : A -> B) (n : nat) (l : list A) :
  lastn n (map f l) = map f (lastn n l).
Proof. unfold lastn. rewrite length_map. apply skipn_map. Qed.

Lemma lastn_app_long (n : nat) (old l : list A) :
  (n <= List.length l)%nat -> lastn n (old ++ l) = lastn n l.
Proof.
  intros L. unfold lastn. rewrite length_app, skipn_app.
  replace (List.length old + List.length l - n - List.length old)%nat
    with (List.length l - n)%nat by lia.
  rewrite skipn_all2 by lia. reflexivity.
Qed.

Lemma frame_signal_ok (C : Z) (q : AsyncQueue.t (option A)) :
  (1 <= C)%Z -> queue_ok C q -> queue_ok C (FrameBus.signal q).
Proof.
  intros HC [Hm Hl]. destruct (AsyncQueue.full q) eqn:Hf.
  - rewrite frame_signal_full by exact Hf. split; assumption.
  - unfold FrameBus.signal. rewrite put_nowait_not_full by exact Hf.
    split; [exact Hm|].
    unfold AsyncQueue.full in Hf. rewrite Hm in Hf.
    replace (C <=? 0)%Z with false in Hf by (symmetry; apply Z.leb_gt; lia).
    apply Z.leb_gt in Hf. unfold AsyncQueue.qsize in *. simpl.
    rewrite length_app. simpl. lia.
Qed.

Lemma frame_shutdown_ok (bus : FrameBus.t A) :
  frame_bus_ok bus -> frame_bus_ok (FrameBus.shutdown bus).
Proof.
  intros [HC Hqs]. split; [exact HC|]. simpl.
  apply Forall_forall. intros q Hq. apply in_map_iff in Hq.
  destruct Hq as (q0 & <- & Hq0). apply frame_signal_ok; [exact HC|].
  rewrite Forall_forall in Hqs. apply Hqs, Hq0.
Qed.

(** What a consumer gets from a queue that held [l] when the bus was shut
    down: the sentinel is behind the items if the queue had room, and
    missing otherwise. *)
Lemma drain_after_frame_signal (q : AsyncQueue.t (option A)) (l : list A) :
  AsyncQueue.items q = map Some l ->
  drain (AsyncQueue.items (FrameBus.signal q)) = (l, negb (AsyncQueue.full q)).
Proof.
  intros Hi. destruct (AsyncQueue.full q) eqn:Hf.
  - rewrite frame_signal_full by exact Hf. rewrite Hi. apply drain_frames.
  - rewrite frame_signal_not_full by exact Hf. rewrite Hi.
    apply drain_sentinel.
Qed.

Lemma drain_after_result_signal (q : AsyncQueue.t (option A)) (l : list A) :
  AsyncQueue.items q = map Some l ->
  drain (AsyncQueue.items (ResultBus.signal q)) = (l, negb (AsyncQueue.full q)).
Proof.
  intros Hi. destruct (AsyncQueue.full q) eqn:Hf.
  - rewrite result_signal_full by exact Hf. rewrite Hi. apply drain_frames.
  - rewrite result_signal_not_full by exact Hf. rewrite Hi.
    apply drain_sentinel.
Qed.

End Shutdown.

(** X13.  Latest-frame-wins, in closed form.  On a [FrameBus] of capacity
    [queue_size >= 1] whose subscriber queues hold at most [queue_size]
    items, publishing [frames] while nobody consumes leaves every queue
    with the last [queue_size] items of what it held followed by the new
    frames, oldest first; [_frame_count] grows by the number of frames and
    [_dropped_count] by the number of items that no longer fit, summed over
    the subscribers.  No queue ever exceeds the capacity. *)
Theorem X13_frame_bus_keeps_latest_frames :
  forall (FramePacket : Type) (bus : FrameBus.t FramePacket)
         (frames : list FramePacket),
    frame_bus_ok bus ->
    let C := FrameBus.queue_size bus in
    let n := Z.of_nat (List.length frames) in
    let bus' := fold_left FrameBus.publish frames bus in
    FrameBus.queue_size bus' = C /\
    FrameBus.subscribers bus'
    = map (fun q =>
             {| AsyncQueue.maxsize := C;
                AsyncQueue.items :=
                  lastn (Z.to_nat C) (AsyncQueue.items q ++ map Some frames) |})
          (FrameBus.subscribers bus) /\
    FrameBus.frame_count bus' = (FrameBus.frame_count bus + n)%Z /\
    FrameBus.dropped_count bus'
    = (FrameBus.dropped_count bus
       + zsum (map (fun q => Z.max 0 (AsyncQueue.qsize q + n - C))
                   (FrameBus.subscribers bus)))%Z /\
    frame_bus_ok bus'.
Proof.
  intros FramePacket bus frames Hok. cbv zeta.
  destruct (frame_publish_many frames Hok) as (Hs & Hq & Hc & Hd).
  split; [exact Hs|]. split; [exact Hq|]. split; [exact Hc|].
  split; [exact Hd|].
  destruct Hok as [HC _]. split; [rewrite Hs; exact HC|].
  rewrite Hs, Hq. apply Forall_forall. intros q Hin.
  apply in_map_iff in Hin. destruct Hin as (q0 & <- & _).
  split; [reflexivity|]. unfold AsyncQueue.qsize. simpl.
  rewrite lastn_length. lia.
Qed.

(** X13 at a bus of capacity two with one subscriber and three frames: the
    queue holds the last two and one frame was dropped. *)
Lemma X13_witness :
  let bus : FrameBus.t Z := FrameBus.subscribe (FrameBus.init 2) in
  let bus' := fold_left FrameBus.publish [10; 11; 12]%Z bus in
  frame_bus_ok bus /\
  map (@AsyncQueue.items _) (FrameBus.subscribers bus')
  = [[Some 11; Some 12]]%Z /\
  FrameBus.frame_count bus' = 3%Z /\
  FrameBus.dropped_count bus' = 1%Z.
Proof.
  cbv zeta.
  assert (Hok : frame_bus_ok (FrameBus.subscribe (FrameBus.init (FramePacket := Z) 2))).
  { split; [simpl; lia|]. simpl. constructor; [|constructor].
    split; [reflexivity|]. unfold AsyncQueue.qsize. simpl. lia. }
  split; [exact Hok|].
  destruct (@X13_frame_bus_keeps_latest_frames Z _ [10; 11; 12]%Z Hok)
    as (_ & Hq & Hc & Hd & _).
  rewrite Hq, Hc, Hd. repeat split.
Defined.

(** X14.  Publishing after [shutdown()] evicts the shutdown signal.  On a
    [FrameBus] of capacity [queue_size >= 1], once at least [queue_size]
    frames have been published after the shutdown (and nothing was
    consumed in between), every subscriber queue holds exactly the last
    [queue_size] of these frames: whatever it held before, the sentinel
    included, is gone, and a consumer that drains the queue does not see the
    end of the stream. *)
Theorem X14_publish_after_shutdown_evicts_sentinel :
  forall (FramePacket : Type) (bus : FrameBus.t FramePacket)
         (frames : list FramePacket),
    frame_bus_ok bus ->
    (FrameBus.queue_size bus <= Z.of_nat (List.length frames))%Z ->
    let C := Z.to_nat (FrameBus.queue_size bus) in
    let bus' := fold_left FrameBus.publish frames (FrameBus.shutdown bus) in
    List.length (FrameBus.subscribers bus')
    = List.length (FrameBus.subscribers bus) /\
    Forall (fun q =>
              AsyncQueue.items q = map Some (lastn C frames) /\
              drain (AsyncQueue.items q) = (lastn C frames, false))
           (FrameBus.subscribers bus').
Proof.
  intros FramePacket bus frames Hok Hlen. cbv zeta.
  destruct (frame_publish_many frames (frame_shutdown_ok Hok))
    as (_ & Hq & _).
  rewrite Hq. split; [simpl; rewrite !length_map; reflexivity|].
  apply Forall_forall. intros q Hin.
  apply in_map_iff in Hin. destruct Hin as (q0 & <- & _). simpl.
  assert (E : lastn (Z.to_nat (FrameBus.queue_size bus))
                (AsyncQueue.items q0 ++ map Some frames)
              = map Some (lastn (Z.to_nat (FrameBus.queue_size bus)) frames)).
  { rewrite lastn_app_long by (rewrite length_map; lia). apply lastn_map. }
  rewrite E. split; [reflexivity|]. apply drain_frames.
Qed.

(** X14 at a bus of capacity two: one frame, shutdown, two more frames. *)
Lemma X14_witness :
  let bus : FrameBus.t Z :=
    FrameBus.publish (FrameBus.subscribe (FrameBus.init 2)) 10%Z in
  map (@AsyncQueue.items _) (FrameBus.subscribers (FrameBus.shutdown bus))
  = [[Some 10%Z; None]] /\
  Forall (fun q => AsyncQueue.items q = [Some 11%Z; Some 12%Z] /\
                   drain (AsyncQueue.items q) = ([11%Z; 12%Z], false))
         (FrameBus.subscribers
            (fold_left FrameBus.publish [11; 12]%Z (FrameBus.shutdown bus))).
Proof.
  cbv zeta. split; [reflexivity|].
  refine (proj2 (@X14_publish_after_shutdown_evicts_sentinel Z
            (FrameBus.publish (FrameBus.subscribe (FrameBus.init 2)) 10%Z)
            [11; 12]%Z _ _)).
  - split; [simpl; lia|]. simpl. constructor; [|constructor].
    split; [reflexivity|]. unfold AsyncQueue.qsize. simpl. lia.
  - simpl. lia.
Defined.

(** X15.  A [FrameBus] built with [queue_size <= 0] has unbounded queues,
    but [qsize() >= queue_size] then holds on every publish, so the oldest
    item is removed each time the queue is not empty: a queue never grows
    (an empty one gets its first frame), it keeps the newest items, and
    every publish but the first onto an empty queue counts one drop. *)
Theorem X15_frame_bus_nonpositive_queue_size :
  forall (FramePacket : Type) (bus : FrameBus.t FramePacket)
         (frames : list FramePacket),
    (FrameBus.queue_size bus <= 0)%Z ->
    Forall (fun q => AsyncQueue.maxsize q = FrameBus.queue_size bus)
           (FrameBus.subscribers bus) ->
    let n := Z.of_nat (List.length frames) in
    let bus' := fold_left FrameBus.publish frames bus in
    FrameBus.subscribers bus'
    = map (fun q =>
             {| AsyncQueue.maxsize := FrameBus.queue_size bus;
                AsyncQueue.items :=
                  lastn (Nat.max 1 (List.length (AsyncQueue.items q)))
                        (AsyncQueue.items q ++ map Some frames) |})
          (FrameBus.subscribers bus) /\
    FrameBus.dropped_count bus'
    = (FrameBus.dropped_count bus
       + zsum (map (fun q => Z.max 0 (Z.min 1 (AsyncQueue.qsize q) + n - 1))
                   (FrameBus.subscribers bus)))%Z.
Proof.
  intros FramePacket bus frames HC Hqs. cbv zeta.
  destruct (@frame_publish_many_nonpositive _ bus frames HC Hqs)
    as (_ & Hq & Hd).
  split; [exact Hq|exact Hd].
Qed.

(** X15 at [FrameBus(queue_size=0)] with one subscriber and three frames:
    only the last frame is queued and two were dropped. *)
Lemma X15_witness :
  let bus : FrameBus.t Z := FrameBus.subscribe (FrameBus.init 0) in
  let bus' := fold_left FrameBus.publish [10; 11; 12]%Z bus in
  map (@AsyncQueue.items _) (FrameBus.subscribers bus') = [[Some 12%Z]] /\
  FrameBus.dropped_count bus' = 2%Z.
Proof.
  cbv zeta.
  destruct (@X15_frame_bus_nonpositive_queue_size Z
              (FrameBus.subscribe (FrameBus.init 0)) [10; 11; 12]%Z)
    as (Hq & Hd).
  - simpl. lia.
  - simpl. constructor; [reflexivity|constructor].
  - rewrite Hq, Hd. split; reflexivity.
Defined.

(** X16.  [ResultBus.publish] in closed form.  While nobody consumes,
    publishing [events] adds them to [_event_count]; on a bus of capacity
    [queue_size >= 1] every subscriber queue ends with the first
    [queue_size] items of what it held followed by the new events (the
    newest are the ones lost), and on a bus with [queue_size <= 0] the
    queues are unbounded and every event is kept. *)
Theorem X16_result_bus_keeps_earliest_events :
  forall (Event : Type) (bus : ResultBus.t Event) (events : list Event),
    Forall (fun q => AsyncQueue.maxsize q = ResultBus.queue_size bus)
           (ResultBus.subscribers bus) ->
    let C := ResultBus.queue_size bus in
    let bus' := fold_left ResultBus.publish events bus in
    ResultBus.event_count bus'
    = (ResultBus.event_count bus + Z.of_nat (List.length events))%Z /\
    ((1 <= C)%Z ->
     Forall (fun q => (AsyncQueue.qsize q <= C)%Z) (ResultBus.subscribers bus) ->
     ResultBus.subscribers bus'
     = map (fun q =>
              {| AsyncQueue.maxsize := C;
                 AsyncQueue.items :=
                   firstn (Z.to_nat C)
                          (AsyncQueue.items q ++ map Some events) |})
           (ResultBus.subscribers bus)) /\
    ((C <= 0)%Z ->
     ResultBus.subscribers bus'
     = map (fun q =>
              {| AsyncQueue.maxsize := C;
                 AsyncQueue.items := AsyncQueue.items q ++ map Some events |})
           (ResultBus.subscribers bus)).
Proof.
  intros Event bus events Hm. cbv zeta.
  destruct (result_publish_many_fields bus events) as (_ & Hc & Hq).
  split; [exact Hc|]. rewrite Hq. rewrite Forall_forall in Hm. split.
  - intros HC Hl. rewrite Forall_forall in Hl.
    apply map_ext_in. intros q Hin.
    apply result_queue_bounded; [exact HC|].
    split; [apply Hm, Hin|apply Hl, Hin].
  - intros HC. apply map_ext_in. intros q Hin.
    rewrite result_queue_unbounded by (rewrite (Hm q Hin); exact HC).
    rewrite (Hm q Hin). reflexivity.
Qed.

(** X16 at a bus of capacity two and at an unbounded one, one subscriber
    and three events each. *)
Lemma X16_witness :
  let bounded : ResultBus.t Z := ResultBus.subscribe_all (ResultBus.init 2) in
  let unbounded : ResultBus.t Z := ResultBus.subscribe_all (ResultBus.init 0) in
  map (@AsyncQueue.items _)
      (ResultBus.subscribers (fold_left ResultBus.publish [10; 11; 12]%Z bounded))
  = [[Some 10; Some 11]]%Z /\
  map (@AsyncQueue.items _)
      (ResultBus.subscribers
         (fold_left ResultBus.publish [10; 11; 12]%Z unbounded))
  = [[Some 10; Some 11; Some 12]]%Z.
Proof.
  cbv zeta. split.
  - destruct (@X16_result_bus_keeps_earliest_events Z
                (ResultBus.subscribe_all (ResultBus.init 2)) [10; 11; 12]%Z)
      as (_ & Hb & _).
    + simpl. constructor; [reflexivity|constructor].
    + rewrite Hb; [reflexivity|simpl; lia|].
      simpl. constructor; [|constructor]. unfold AsyncQueue.qsize. simpl. lia.
  - destruct (@X16_result_bus_keeps_earliest_events Z
                (ResultBus.subscribe_all (ResultBus.init 0)) [10; 11; 12]%Z)
      as (_ & _ & Hu).
    + simpl. constructor; [reflexivity|constructor].
    + rewrite Hu; [reflexivity|simpl; lia].
Defined.

(** X17.  What a frame subscriber still gets after [shutdown()].  On a
    [FrameBus] of capacity [queue_size >= 1], take a subscriber whose queue
    holds the frames [old]; publish [frames], then shut the bus down, with
    nothing consumed in between.  Draining the queue as the [subscribe()]
    loop does yields the last [queue_size] of [old ++ frames] in order, and
    the loop meets the shutdown signal exactly when fewer than [queue_size]
    frames were queued; otherwise it is left waiting on an empty queue. *)
Theorem X17_frame_consumer_after_shutdown :
  forall (FramePacket : Type) (bus : FrameBus.t FramePacket)
         (frames old : list FramePacket) (i : nat)
         (q : AsyncQueue.t (option FramePacket)),
    frame_bus_ok bus ->
    nth_error (FrameBus.subscribers bus) i = Some q ->
    AsyncQueue.items q = map Some old ->
    let C := FrameBus.queue_size bus in
    let bus' := FrameBus.shutdown (fold_left FrameBus.publish frames bus) in
    exists q',
      nth_error (FrameBus.subscribers bus') i = Some q' /\
      drain (AsyncQueue.items q')
      = (lastn (Z.to_nat C) (old ++ frames),
         (Z.of_nat (List.length old + List.length frames) <? C)%Z).
Proof.
  intros FramePacket bus frames old i q Hok Hi Hold. cbv zeta.
  destruct (frame_publish_many frames Hok) as (_ & Hq & _).
  destruct Hok as [HC _].
  eexists. split.
  - unfold FrameBus.shutdown. simpl. rewrite Hq.
    rewrite !nth_error_map, Hi. reflexivity.
  - rewrite (@drain_after_frame_signal _ _
               (lastn (Z.to_nat (FrameBus.queue_size bus)) (old ++ frames))).
    + f_equal. unfold AsyncQueue.full, AsyncQueue.qsize. simpl.
      replace (FrameBus.queue_size bus <=? 0)%Z with false
        by (symmetry; apply Z.leb_gt; lia).
      rewrite lastn_length, length_app, length_map, Hold, length_map.
      destruct (Z.leb_spec (FrameBus.queue_size bus)
                  (Z.of_nat (Nat.min (Z.to_nat (FrameBus.queue_size bus))
                               (List.length old + List.length frames))));
        destruct (Z.ltb_spec (Z.of_nat (List.length old + List.length frames))
                    (FrameBus.queue_size bus)); simpl; lia || reflexivity.
    + simpl. rewrite Hold, <- map_app. apply lastn_map.
Qed.

(** X17 at a bus of capacity two with one subscriber: after one frame the
    consumer gets it and the end of the stream, after three frames it gets
    the last two and no end. *)
Lemma X17_witness :
  let bus : FrameBus.t Z := FrameBus.subscribe (FrameBus.init 2) in
  map (fun q => drain (AsyncQueue.items q))
      (FrameBus.subscribers
         (FrameBus.shutdown (fold_left FrameBus.publish [10%Z] bus)))
  = [([10%Z], true)] /\
  exists q',
    nth_error (FrameBus.subscribers
                 (FrameBus.shutdown
                    (fold_left FrameBus.publish [10; 11; 12]%Z bus))) 0
    = Some q' /\
    drain (AsyncQueue.items q') = ([11; 12]%Z, false).
Proof.
  cbv zeta. split; [reflexivity|].
  refine (@X17_frame_consumer_after_shutdown Z
            (FrameBus.subscribe (FrameBus.init 2)) [10; 11; 12]%Z [] 0%nat
            (AsyncQueue.new 2) _ _ _).
  - split; [simpl; lia|]. simpl. constructor; [|constructor].
    split; [reflexivity|]. unfold AsyncQueue.qsize. simpl. lia.
  - reflexivity.
  - reflexivity.
Defined.

(** X18.  What an event subscriber still gets after [shutdown()].  Take a
    subscriber of a [ResultBus] whose queue holds the events [old]; publish
    [events], then shut the bus down, with nothing consumed in between.  On
    a bus of capacity [queue_size >= 1] the [subscribe_all()] loop yields
    the first [queue_size] of [old ++ events] and meets the shutdown signal
    exactly when fewer than [queue_size] events were queued; on a bus with
    [queue_size <= 0] it yields all of them and always meets the signal. *)
Theorem X18_result_consumer_after_shutdown :
  forall (Event : Type) (bus : ResultBus.t Event) (events old : list Event)
         (i : nat) (q : AsyncQueue.t (option Event)),
    nth_error (ResultBus.subscribers bus) i = Some q ->
    AsyncQueue.maxsize q = ResultBus.queue_size bus ->
    AsyncQueue.items q = map Some old ->
    let C := ResultBus.queue_size bus in
    let bus' := ResultBus.shutdown (fold_left ResultBus.publish events bus) in
    exists q',
      nth_error (ResultBus.subscribers bus') i = Some q' /\
      ((1 <= C)%Z -> (Z.of_nat (List.length old) <= C)%Z ->
       drain (AsyncQueue.items q')
       = (firstn (Z.to_nat C) (old ++ events),
          (Z.of_nat (List.length old + List.length events) <? C)%Z)) /\
      ((C <= 0)%Z -> drain (AsyncQueue.items q') = (old ++ events, true)).
Proof.
  intros Event bus events old i q Hi Hm Hold. cbv zeta.
  destruct (result_publish_many_fields bus events) as (_ & _ & Hq).
  eexists. split.
  - unfold ResultBus.shutdown. simpl. rewrite Hq.
    rewrite !nth_error_map, Hi. reflexivity.
  - split.
    + intros HC Hl.
      rewrite (@result_queue_bounded _ (ResultBus.queue_size bus) events q HC)
        by (split; [exact Hm|unfold AsyncQueue.qsize;
                             rewrite Hold, length_map; exact Hl]).
      rewrite (@drain_after_result_signal _ _
                 (firstn (Z.to_nat (ResultBus.queue_size bus)) (old ++ events))).
      * f_equal. unfold AsyncQueue.full, AsyncQueue.qsize. simpl.
        replace (ResultBus.queue_size bus <=? 0)%Z with false
          by (symmetry; apply Z.leb_gt; lia).
        rewrite length_firstn, length_app, length_map, Hold, length_map.
        destruct (Z.leb_spec (ResultBus.queue_size bus)
                    (Z.of_nat (Nat.min (Z.to_nat (ResultBus.queue_size bus))
                                 (List.length old + List.length events))));
          destruct (Z.ltb_spec
                      (Z.of_nat (List.length old + List.length events))
                      (ResultBus.queue_size bus)); simpl; lia || reflexivity.
      * simpl. rewrite Hold, <- map_app. apply firstn_map.
    + intros HC.
      rewrite (@result_queue_unbounded _ events q)
        by (rewrite Hm; exact HC).
      rewrite (@drain_after_result_signal _ _ (old ++ events)).
      * f_equal. unfold AsyncQueue.full. simpl. rewrite Hm.
        replace (ResultBus.queue_size bus <=? 0)%Z with true
          by (symmetry; apply Z.leb_le; exact HC).
        reflexivity.
      * simpl. rewrite Hold, <- map_app. reflexivity.
Qed.

(** X18 at a bus of capacity two with one subscriber and three events: the
    consumer gets the first two and no end of the stream. *)
Lemma X18_witness :
  let bus : ResultBus.t Z := ResultBus.subscribe_all (ResultBus.init 2) in
  exists q',
    nth_error (ResultBus.subscribers
                 (ResultBus.shutdown
                    (fold_left ResultBus.publish [10; 11; 12]%Z bus))) 0
    = Some q' /\
    drain (AsyncQueue.items q') = ([10; 11]%Z, false).
Proof.
  cbv zeta.
  destruct (@X18_result_consumer_after_shutdown Z
              (ResultBus.subscribe_all (ResultBus.init 2)) [10; 11; 12]%Z []
              0%nat (AsyncQueue.new 2) eq_refl eq_refl eq_refl)
    as (q' & Hn & Hb & _).
  exists q'. split; [exact Hn|].
  rewrite Hb; [reflexivity|simpl; lia|simpl; lia].
Defined.

(** ** Navigation stage *)

Section MoreLastn.
Context {A : Type}.

Lemma lastn_lastn_app (n : nat) (l l' : list A) :
  lastn n (lastn n l ++ l') = lastn n (l ++ l').
Proof.
  destruct (Nat.leb_spec (List.length l) n) as [L|L].
  - rewrite (@lastn_short _ n l) by exact L. reflexivity.
  - unfold lastn. rewrite !length_app, length_skipn.
    replace (List.length l - (List.length l - n) + List.length l' - n)%nat
      with (List.length l')%nat by lia.
    replace (List.length l + List.length l' - n)%nat
      with (List.length l' + (List.length l - n))%nat by lia.
    rewrite <- skipn_skipn. f_equal.
    rewrite skipn_app.
    replace (List.length l - n - List.length l)%nat with 0%nat by lia.
    reflexivity.
Qed.

Lemma lastn_S_snoc (n : nat) (l : list A) (x : A) :
  lastn (S n) (l ++ [x]) = lastn n l ++ [x].
Proof.
  unfold lastn. rewrite length_app, skipn_app.
  replace (List.length l + List.length [x] - S n)%nat
    with (List.length l - n)%nat by (simpl; lia).
  replace (List.length l - n - List.length l)%nat with 0%nat by lia.
  reflexivity.
Qed.

End MoreLastn.

Lemma dict_set_set {K V : Type} `{EqKey K} (k : K) (v v' : V) (d : dict K V) :
  dict_set k v' (dict_set k v d) = dict_set k v' d.
Proof.
  induction d as [|[k0 v0] d IH]; simpl.
  - rewrite keqb_refl. reflexivity.
  - destruct (keqb_spec k k0) as [->|NE]; simpl.
    + rewrite keqb_refl. reflexivity.
    + rewrite keqb_neq by exact NE. rewrite IH. reflexivity.
Qed.

Section Navigation.
Context {F : Type} `{PyFloat F}.

Lemma analyze_direction_literal (b : BBox F) :
  literal ["left"; "center"; "right"]%string (Spatial.analyze_direction b)
  = true.
Proof.
  destruct b as [[[x y] w] h]. unfold Spatial.analyze_direction.
  destruct (flt _ _); [reflexivity|]. destruct (flt _ _); reflexivity.
Qed.

Lemma analyze_zone_literal (b : BBox F) :
  literal ["near"; "mid"; "far"]%string (Spatial.analyze_zone b) = true.
Proof.
  destruct b as [[[x y] w] h]. unfold Spatial.analyze_zone.
  destruct (fgt _ _); [reflexivity|]. destruct (fgt _ _); reflexivity.
Qed.

Lemma analyze_movement_literal (b : BBox F) (history : list (HistoryEntry F)) :
  literal ["approaching"; "receding"; "stationary"]%string
    (Spatial.analyze_movement b history) = true.
Proof.
  unfold Spatial.analyze_movement.
  destruct (rev history) as [|c [|p rest]]; try reflexivity.
  destruct b as [[[x y] w] h]. destruct (h_bbox p) as [[[px py] pw] ph].
  destruct (fgt _ _); [reflexivity|]. destruct (flt _ _); reflexivity.
Qed.

Lemma compute_urgency_literal (zone movement : string) :
  literal ["low"; "medium"; "high"; "critical"]%string
    (Spatial.compute_urgency zone movement) = true.
Proof.
  unfold Spatial.compute_urgency.
  destruct ((zone =? "near") && (movement =? "approaching"))%string;
    [reflexivity|].
  destruct (zone =? "near")%string; [reflexivity|].
  destruct ((zone =? "mid") && (movement =? "approaching"))%string;
    reflexivity.
Qed.

(** The entries stored for a track. *)
Let stored (track_history : NavigationModule.t (F:=F)) (k : Z)
    : list (HistoryEntry F) :=
  match dict_get k track_history with Some l => l | None => [] end.

(** The guidance built from an event and the history of its track. *)
Let guidance_of (event : TrackUpdate F) (history : list (HistoryEntry F))
    : NavigationGuidance :=
  let direction := Spatial.analyze_direction (tu_bbox event) in
  let zone := Spatial.analyze_zone (tu_bbox event) in
  let movement := Spatial.analyze_movement (tu_bbox event) history in
  {| ng_timestamp_ms := tu_timestamp_ms event;
     ng_track_id := tu_track_id event;
     ng_label := tu_label event;
     ng_direction := direction; ng_zone := zone; ng_movement := movement;
     ng_urgency := Spatial.compute_urgency zone movement;
     ng_guidance_text :=
       Guidance.generate_guidance_text (tu_label event) direction zone
         movement |}.

Lemma process_track_spec (track_history : NavigationModule.t)
    (event : TrackUpdate F) :
  let history :=
    lastn 5 (stored track_history (tu_track_id event)
             ++ [NavigationModule.entry_of event]) in
  NavigationModule.process_track track_history event
  = Some (dict_set (tu_track_id event) history track_history,
          guidance_of event history).
Proof.
  cbv zeta. unfold NavigationModule.process_track, stored.
  set (k := tu_track_id event). set (e := NavigationModule.entry_of event).
  assert (Hnew : forall history,
             new_NavigationGuidance (tu_timestamp_ms event) k (tu_label event)
               (Spatial.analyze_direction (tu_bbox event))
               (Spatial.analyze_zone (tu_bbox event))
               (Spatial.analyze_movement (tu_bbox event) history)
               (Spatial.compute_urgency (Spatial.analyze_zone (tu_bbox event))
                  (Spatial.analyze_movement (tu_bbox event) history))
               (Guidance.generate_guidance_text (tu_label event)
                  (Spatial.analyze_direction (tu_bbox event))
                  (Spatial.analyze_zone (tu_bbox event))
                  (Spatial.analyze_movement (tu_bbox event) history))
             = Some (guidance_of event history)).
  { intros history. unfold new_NavigationGuidance.
    rewrite analyze_direction_literal, analyze_zone_literal,
      analyze_movement_literal, compute_urgency_literal. reflexivity. }
  unfold dict_mem. destruct (dict_get k track_history) as [old|] eqn:Eold.
  - simpl negb. cbv iota. rewrite Eold, dict_get_set_same.
    destruct (Nat.ltb_spec 5 (List.length (old ++ [e]))) as [L|L].
    + rewrite dict_get_set_same, Hnew, dict_set_set. reflexivity.
    + rewrite dict_get_set_same, Hnew. rewrite lastn_short by exact L.
      reflexivity.
  - simpl negb. cbv iota. rewrite !dict_get_set_same.
    change (5 <? List.length ([] ++ [e]))%nat with false. cbv iota.
    rewrite dict_get_set_same, Hnew, dict_set_set. reflexivity.
Qed.

Lemma process_tracks_spec (events : list (TrackUpdate F))
    (track_history : NavigationModule.t) :
  exists track_history' published,
    NavigationModule.process_tracks track_history events
    = Some (track_history', published) /\
    List.length published = List.length events /\
    forall k,
      dict_get k track_history'
      = match filter (fun e => (tu_track_id e =? k)%Z) events with
        | [] => dict_get k track_history
        | es =>
            Some (lastn 5 (stored track_history k
                           ++ map NavigationModule.entry_of es))
        end.
Proof.
  revert track_history.
  induction events as [|e events IH]; intros track_history.
  - exists track_history, []. repeat split.
  - simpl NavigationModule.process_tracks. rewrite process_track_spec.
    set (hist := lastn 5 (stored track_history (tu_track_id e)
                          ++ [NavigationModule.entry_of e])).
    destruct (IH (dict_set (tu_track_id e) hist track_history))
      as (th' & published & -> & Hlen & Hget).
    eexists. eexists. split; [reflexivity|].
    split; [simpl; rewrite Hlen; reflexivity|].
    intros k. rewrite Hget. simpl filter.
    destruct (Z.eqb_spec (tu_track_id e) k) as [<-|NE].
    + unfold stored at 1. rewrite dict_get_set_same.
      destruct (filter _ events) as [|e' es].
      * reflexivity.
      * unfold hist. rewrite lastn_lastn_app, <- app_assoc. reflexivity.
    + unfold stored. rewrite dict_get_set_other by (intros ->; tauto).
      reflexivity.
Qed.

Lemma process_tracks_app (events events' : list (TrackUpdate F))
    (track_history : NavigationModule.t) :
  NavigationModule.process_tracks track_history (events ++ events')
  = match NavigationModule.process_tracks track_history events with
    | None => None
    | Some (track_history, published) =>
        match NavigationModule.process_tracks track_history events' with
        | None => None
        | Some (track_history, published') =>
            Some (track_history, published ++ published')
        end
    end.
Proof.
  revert track_history.
  induction events as [|e events IH]; intros track_history; simpl.
  - destruct (NavigationModule.process_tracks track_history events')
      as [[th p]|]; reflexivity.
  - destruct (NavigationModule.process_track track_history e) as [[th g]|];
      [|reflexivity].
    rewrite IH.
    destruct (NavigationModule.process_tracks th events) as [[th1 p1]|];
      [|reflexivity].
    destruct (NavigationModule.process_tracks th1 events') as [[th2 p2]|];
      reflexivity.
Qed.

Lemma analyze_movement_last_two (b : BBox F) (l : list (HistoryEntry F))
    (p c : HistoryEntry F) :
  Spatial.analyze_movement b ((l ++ [p]) ++ [c])
  = Spatial.analyze_movement b [p; c].
Proof.
  unfold Spatial.analyze_movement. rewrite !rev_app_distr. reflexivity.
Qed.

Lemma process_last_track (pre : list (TrackUpdate F)) (e : TrackUpdate F) :
  exists track_history published,
    NavigationModule.process_tracks NavigationModule.init (pre ++ [e])
    = Some (track_history,
            published
            ++ [guidance_of e
                  (lastn 5
                     (map NavigationModule.entry_of
                        (filter (fun e' => (tu_track_id e' =? tu_track_id e)%Z)
                                pre)
                      ++ [NavigationModule.entry_of e]))]) /\
    List.length published = List.length pre.
Proof.
  rewrite process_tracks_app.
  destruct (process_tracks_spec pre NavigationModule.init)
    as (th & published & -> & Hlen & Hget).
  simpl NavigationModule.process_tracks. rewrite process_track_spec.
  eexists. exists published. split; [|exact Hlen].
  f_equal. f_equal. f_equal. f_equal.
  unfold stored. rewrite Hget.
  destruct (filter _ pre) as [|e' es]; [reflexivity|].
  f_equal. apply lastn_lastn_app.
Qed.

End Navigation.

(** X19.  The navigation loop never raises and publishes one guidance per
    [TrackUpdate].  Afterwards the history kept for a track is the last
    five entries of what was stored for it followed by the entries of its
    events, in order; the history of a track without events is untouched,
    and no track id is ever removed from [track_history]: its keys are the
    old keys and the ids of all the events seen. *)
Theorem X19_navigation_history_per_track :
  forall (F : Type) (PF : PyFloat F) (track_history : NavigationModule.t (F:=F))
         (events : list (TrackUpdate F)),
    exists track_history' published,
      NavigationModule.process_tracks track_history events
      = Some (track_history', published) /\
      List.length published = List.length events /\
      (forall k,
          dict_get k track_history'
          = match filter (fun e => (tu_track_id e =? k)%Z) events with
            | [] => dict_get k track_history
            | es =>
                Some (lastn 5
                        (match dict_get k track_history with
                         | Some entries => entries
                         | None => []
                         end ++ map NavigationModule.entry_of es))
            end) /\
      (forall k,
          In k (dict_keys track_history') <->
          In k (dict_keys track_history) \/ In k (map (@tu_track_id F) events)).
Proof.
  intros F PF track_history events.
  destruct (process_tracks_spec events track_history)
    as (th' & published & Hrun & Hlen & Hget).
  exists th', published. split; [exact Hrun|]. split; [exact Hlen|].
  split; [exact Hget|].
  intros k.
  assert (Hin : In k (map (@tu_track_id F) events) <->
                filter (fun e => (tu_track_id e =? k)%Z) events <> []).
  { split.
    - intros I. apply in_map_iff in I. destruct I as (e & <- & Ie).
      intros E.
      assert (I' : In e (filter (fun e' => (tu_track_id e' =? tu_track_id e)%Z)
                           events))
        by (apply filter_In; split; [exact Ie|apply Z.eqb_refl]).
      rewrite E in I'. exact I'.
    - intros NE. destruct (filter _ events) as [|e es] eqn:E; [congruence|].
      assert (I : In e (filter (fun e' => (tu_track_id e' =? k)%Z) events))
        by (rewrite E; left; reflexivity).
      apply filter_In in I. destruct I as [Ie Ek]. apply Z.eqb_eq in Ek.
      apply in_map_iff. exists e. split; assumption. }
  rewrite Hin. specialize (Hget k).
  destruct (filter _ events) as [|e es].
  - split.
    + intros I. left. apply dict_get_key_Some in I. destruct I as [v Ev].
      rewrite Hget in Ev. apply dict_get_Some_key in Ev. exact Ev.
    + intros [I|NE]; [|congruence].
      apply dict_get_key_Some in I. destruct I as [v Ev].
      rewrite <- Hget in Ev. apply dict_get_Some_key in Ev. exact Ev.
  - split.
    + intros _. right. discriminate.
    + intros _. apply dict_get_Some_key in Hget. exact Hget.
Qed.

(** X20.  Movement is judged against the previous update of the same
    track.  In a run of the navigation loop from a fresh module, the
    guidance for an event [e] carries the event's timestamp, track id and
    label, the direction and zone of its box, the urgency and the text of
    these; its movement is ["stationary"] when [e] is the first event of its
    track and otherwise the comparison of the box of [e] with the box of the
    latest earlier event of that track, whatever events of other tracks came
    in between. *)
Theorem X20_movement_against_previous_update_of_track :
  forall (F : Type) (PF : PyFloat F) (pre : list (TrackUpdate F))
         (e : TrackUpdate F),
    exists track_history published g,
      NavigationModule.process_tracks NavigationModule.init (pre ++ [e])
      = Some (track_history, published ++ [g]) /\
      List.length published = List.length pre /\
      ng_timestamp_ms g = tu_timestamp_ms e /\
      ng_track_id g = tu_track_id e /\
      ng_label g = tu_label e /\
      ng_direction g = Spatial.analyze_direction (tu_bbox e) /\
      ng_zone g = Spatial.analyze_zone (tu_bbox e) /\
      ng_urgency g = Spatial.compute_urgency (ng_zone g) (ng_movement g) /\
      ng_guidance_text g
      = Guidance.generate_guidance_text (ng_label g) (ng_direction g)
          (ng_zone g) (ng_movement g) /\
      ng_movement g
      = match rev (filter (fun e' => (tu_track_id e' =? tu_track_id e)%Z) pre)
        with
        | [] => "stationary"%string
        | p :: _ =>
            Spatial.analyze_movement (tu_bbox e)
              [NavigationModule.entry_of p; NavigationModule.entry_of e]
        end.
Proof.
  intros F PF pre e.
  destruct (process_last_track pre e) as (th & published & Hrun & Hlen).
  eexists. eexists. eexists. split; [exact Hrun|]. split; [exact Hlen|].
  repeat (split; [reflexivity|]).
  cbn [ng_movement].
  destruct (filter _ pre) as [|e0 es] using rev_ind.
  - reflexivity.
  - rewrite rev_app_distr. cbn [rev app].
    rewrite map_app. cbn [map].
    change 5%nat with (S 4). rewrite lastn_S_snoc.
    change 4%nat with (S 3). rewrite lastn_S_snoc.
    apply analyze_movement_last_two.
Qed.

(** ** Fusion stage *)

Lemma get_priority_range (urgency : string) :
  (1 <= FusionPolicy.get_priority urgency <= 5)%Z.
Proof.
  unfold FusionPolicy.get_priority. simpl.
  destruct (urgency =? "critical")%string; [lia|].
  destruct (urgency =? "high")%string; [lia|].
  destruct (urgency =? "medium")%string; [lia|].
  destruct (urgency =? "low")%string; lia.
Qed.

Lemma get_announcement_kind_cases (label : string) :
  In (FusionPolicy.get_announcement_kind label)
     ["hazard"; "object"; "navigation"]%string.
Proof.
  unfold FusionPolicy.get_announcement_kind.
  destruct (existsb _ _); [left; reflexivity|].
  destruct (existsb _ _); [right; left; reflexivity|].
  right; right; left; reflexivity.
Qed.

Lemma new_FusionAnnouncement_ok (timestamp_ms : Z) (text label urgency : string) :
  new_FusionAnnouncement timestamp_ms text
    (FusionPolicy.get_announcement_kind label)
    (FusionPolicy.get_priority urgency)
  = Some {| fa_timestamp_ms := timestamp_ms; fa_text := text;
            fa_kind := FusionPolicy.get_announcement_kind label;
            fa_priority := FusionPolicy.get_priority urgency |}.
Proof.
  unfold new_FusionAnnouncement.
  replace (literal _ (FusionPolicy.get_announcement_kind label)) with true
    by (destruct (get_announcement_kind_cases label) as [<-|[<-|[<-|[]]]];
        reflexivity).
  destruct (get_priority_range urgency) as [L U].
  replace (1 <=? FusionPolicy.get_priority urgency)%Z with true
    by (symmetry; apply Z.leb_le; exact L).
  replace (FusionPolicy.get_priority urgency <=? 5)%Z with true
    by (symmetry; apply Z.leb_le; exact U).
  reflexivity.
Qed.

Lemma announcements_in_app (out out' : list FusionModule.published) :
  announcements_in (out ++ out')
  = (announcements_in out + announcements_in out')%Z.
Proof.
  unfold announcements_in. rewrite filter_app, length_app. lia.
Qed.

Section Fusion.

Let stable_in (self : FusionModule.t) (k : Z) : bool :=
  match dict_get k (FusionModule.track_stability self) with
  | Some b => b
  | None => false
  end.

Let decides (self : FusionModule.t) (cooldown_ms : Z)
    (g : NavigationGuidance) : bool :=
  FusionPolicy.should_announce (FusionModule.policy self) (ng_track_id g)
    (ng_timestamp_ms g) (ng_urgency g) (stable_in self (ng_track_id g))
    cooldown_ms.

Let announcement_of (g : NavigationGuidance) : FusionAnnouncement :=
  {| fa_timestamp_ms := ng_timestamp_ms g;
     fa_text := ng_guidance_text g;
     fa_kind := FusionPolicy.get_announcement_kind (ng_label g);
     fa_priority := FusionPolicy.get_priority (ng_urgency g) |}.

Let policy_after (self : FusionModule.t) (cooldown_ms : Z)
    (g : NavigationGuidance) : FusionPolicy.t :=
  if decides self cooldown_ms g
  then FusionPolicy.record_announcement (FusionModule.policy self)
         (ng_track_id g) (ng_timestamp_ms g)
  else FusionModule.policy self.

Let metric_at (count : Z) (g : NavigationGuidance)
    : list FusionModule.published :=
  if ((count mod 100 =? 0) && (0 <? count))%Z
  then [FusionModule.Metric
          {| sm_timestamp_ms := ng_timestamp_ms g;
             sm_name := "fusion.announcements.count";
             sm_value := count |}]
  else [].

Lemma process_guidance_spec (self : FusionModule.t) (cooldown_ms : Z)
    (g : NavigationGuidance) :
  FusionModule.process_guidance self cooldown_ms g
  = Some ({| FusionModule.policy := policy_after self cooldown_ms g;
             FusionModule.track_stability := FusionModule.track_stability self |},
          (if decides self cooldown_ms g
           then [FusionModule.Announcement (announcement_of g)] else [])
          ++ metric_at (FusionPolicy.announcement_count
                          (policy_after self cooldown_ms g)) g).
Proof.
  unfold FusionModule.process_guidance, policy_after, metric_at, decides,
    stable_in.
  rewrite new_FusionAnnouncement_ok.
  destruct (FusionPolicy.should_announce _ _ _ _ _ _).
  - destruct (_ && _)%bool; reflexivity.
  - destruct (_ && _)%bool; reflexivity.
Qed.

Lemma announcements_in_step (self : FusionModule.t) (cooldown_ms : Z)
    (g : NavigationGuidance) :
  announcements_in
    ((if decides self cooldown_ms g
      then [FusionModule.Announcement (announcement_of g)] else [])
     ++ metric_at (FusionPolicy.announcement_count
                     (policy_after self cooldown_ms g)) g)
  = if decides self cooldown_ms g then 1%Z else 0%Z.
Proof.
  rewrite announcements_in_app. unfold metric_at.
  destruct (decides self cooldown_ms g); destruct (_ && _)%bool; reflexivity.
Qed.

(** What is checked of a published event. *)
Let published_ok (e : FusionModule.published) : Prop :=
  match e with
  | FusionModule.Announcement a =>
      (1 <= fa_priority a <= 5)%Z /\
      In (fa_kind a) ["hazard"; "object"; "navigation"]%string
  | FusionModule.Metric m =>
      sm_name m = "fusion.announcements.count"%string /\
      (0 < sm_value m)%Z /\ (sm_value m mod 100 = 0)%Z
  end.

Lemma fusion_run_spec (F : Type) (events : list (FusionModule.event F))
    (self : FusionModule.t) :
  exists self' out,
    FusionModule.run self events = Some (self', out) /\
    FusionPolicy.announcement_count (FusionModule.policy self')
    = (FusionPolicy.announcement_count (FusionModule.policy self)
       + announcements_in out)%Z /\
    Forall published_ok out /\
    (forall k,
        stable_in self' k
        = fold_left
            (fun acc ev =>
               match ev with
               | FusionModule.TrackEvent e =>
                   if (tu_track_id e =? k)%Z then tu_stable e else acc
               | FusionModule.GuidanceEvent _ _ => acc
               end) events (stable_in self k)) /\
    (forall k,
        Forall (fun ev => match ev with
                          | FusionModule.TrackEvent _ => True
                          | FusionModule.GuidanceEvent _ g => ng_track_id g <> k
                          end) events ->
        dict_get k (FusionPolicy.last_announced (FusionModule.policy self'))
        = dict_get k (FusionPolicy.last_announced (FusionModule.policy self))).
Proof.
  revert self. induction events as [|ev events IH]; intros self.
  - exists self, []. simpl. split; [reflexivity|].
    split; [unfold announcements_in; simpl; lia|].
    split; [constructor|]. split; intros; reflexivity.
  - simpl FusionModule.run. destruct ev as [e|cooldown_ms g].
    + simpl FusionModule.step.
      destruct (IH (FusionModule.monitor_track_stability self e))
        as (self' & out & -> & Hc & Hok & Hst & Hla).
      exists self', out. split; [reflexivity|]. split; [exact Hc|].
      split; [exact Hok|]. split.
      * intros k. rewrite Hst. simpl fold_left. f_equal.
        unfold stable_in. simpl.
        destruct (Z.eqb_spec (tu_track_id e) k) as [<-|NE].
        -- rewrite dict_get_set_same. reflexivity.
        -- rewrite dict_get_set_other by (intros ->; tauto). reflexivity.
      * intros k Hall. inversion Hall as [|? ? _ Hall']; subst.
        rewrite (Hla k Hall'). reflexivity.
    + simpl FusionModule.step. rewrite process_guidance_spec.
      set (self1 := {| FusionModule.policy := policy_after self cooldown_ms g;
                       FusionModule.track_stability :=
                         FusionModule.track_stability self |}).
      destruct (IH self1) as (self' & out & -> & Hc & Hok & Hst & Hla).
      eexists. eexists. split; [reflexivity|]. split.
      * rewrite Hc, announcements_in_app, announcements_in_step.
        subst self1. cbn [FusionModule.policy]. unfold policy_after.
        destruct (decides self cooldown_ms g);
          cbn [FusionPolicy.record_announcement
                 FusionPolicy.announcement_count]; lia.
      * split.
        -- apply Forall_app. split; [|exact Hok].
           apply Forall_app. split.
           ++ destruct (decides self cooldown_ms g); constructor;
                [|constructor].
              split; [apply get_priority_range
                     |apply get_announcement_kind_cases].
           ++ unfold metric_at.
              destruct (Z.eqb_spec
                          (FusionPolicy.announcement_count
                             (policy_after self cooldown_ms g) mod 100) 0)
                as [Em|Em]; simpl; [|constructor].
              destruct (Z.ltb_spec 0
                          (FusionPolicy.announcement_count
                             (policy_after self cooldown_ms g)))
                as [Ep|Ep]; simpl; constructor; [|constructor].
              simpl. repeat split; assumption.
        -- split.
           ++ intros k. rewrite Hst. reflexivity.
           ++ intros k Hall. inversion Hall as [|? ? Hne Hall']; subst.
              rewrite (Hla k Hall'). simpl. unfold policy_after.
              destruct (decides self cooldown_ms g); [|reflexivity].
              simpl. apply dict_get_set_other. intros E. apply Hne.
              symmetry. exact E.
Qed.

End Fusion.

Lemma compute_urgency_critical (zone movement : string) :
  Spatial.compute_urgency zone movement = "critical"%string <->
  zone = "near"%string /\ movement = "approaching"%string.
Proof.
  unfold Spatial.compute_urgency.
  destruct (String.eqb_spec zone "near") as [Ez|Ez];
    destruct (String.eqb_spec movement "approaching") as [Em|Em]; simpl.
  - tauto.
  - split; [discriminate|tauto].
  - destruct (zone =? "mid")%string; simpl; split;
      (discriminate || tauto).
  - destruct (zone =? "mid")%string; simpl; split;
      (discriminate || tauto).
Qed.

Lemma fusion_self_eta (self : FusionModule.t) :
  {| FusionModule.policy := FusionModule.policy self;
     FusionModule.track_stability := FusionModule.track_stability self |}
  = self.
Proof. destruct self; reflexivity. Qed.

(** X21.  A run of the fusion module (track updates and guidance, in any
    order, from any state) never raises.  [announcement_count] grows by
    exactly the number of announcements published; every announcement has a
    priority between 1 and 5 and a kind among hazard, object and navigation
    (never status); every metric is named [fusion.announcements.count] and
    carries a positive multiple of 100. *)
Theorem X21_fusion_run_counts_its_announcements :
  forall (F : Type) (self : FusionModule.t)
         (events : list (FusionModule.event F)),
    exists self' out,
      FusionModule.run self events = Some (self', out) /\
      FusionPolicy.announcement_count (FusionModule.policy self')
      = (FusionPolicy.announcement_count (FusionModule.policy self)
         + announcements_in out)%Z /\
      Forall (fun e =>
                match e with
                | FusionModule.Announcement a =>
                    (1 <= fa_priority a <= 5)%Z /\
                    In (fa_kind a) ["hazard"; "object"; "navigation"]%string
                | FusionModule.Metric m =>
                    sm_name m = "fusion.announcements.count"%string /\
                    (0 < sm_value m)%Z /\ (sm_value m mod 100 = 0)%Z
                end) out.
Proof.
  intros F self events.
  destruct (fusion_run_spec events self) as (self' & out & Hr & Hc & Hok & _).
  exists self', out. split; [exact Hr|]. split; [exact Hc|exact Hok].
Qed.

(** X22.  The metric is published again and again.  Once
    [announcement_count] is a positive multiple of 100, every guidance the
    policy declines leaves the module as it is and still publishes a
    [SystemMetric] with that count: one metric for each such guidance, not
    one for each hundred announcements. *)
Theorem X22_metric_repeated_at_multiple_of_100 :
  forall (F : Type) (self : FusionModule.t)
         (inputs : list (Z * NavigationGuidance)),
    let count := FusionPolicy.announcement_count (FusionModule.policy self) in
    (0 < count)%Z -> (count mod 100 = 0)%Z ->
    Forall (fun cg : Z * NavigationGuidance =>
              FusionPolicy.should_announce (FusionModule.policy self)
                (ng_track_id (snd cg)) (ng_timestamp_ms (snd cg))
                (ng_urgency (snd cg))
                match dict_get (ng_track_id (snd cg))
                        (FusionModule.track_stability self) with
                | Some b => b
                | None => false
                end (fst cg) = false) inputs ->
    FusionModule.run (F:=F) self
      (map (fun cg => FusionModule.GuidanceEvent (fst cg) (snd cg)) inputs)
    = Some (self,
            map (fun cg : Z * NavigationGuidance =>
                   FusionModule.Metric
                     {| sm_timestamp_ms := ng_timestamp_ms (snd cg);
                        sm_name := "fusion.announcements.count";
                        sm_value := count |}) inputs).
Proof.
  intros F self inputs count Hpos Hmod Hall. subst count.
  induction Hall as [|[c g] inputs Hd Hall IH]; [reflexivity|].
  simpl in Hd. simpl FusionModule.run. rewrite process_guidance_spec.
  rewrite Hd. rewrite fusion_self_eta, IH.
  replace (FusionPolicy.announcement_count (FusionModule.policy self)
           mod 100 =? 0)%Z with true by (symmetry; apply Z.eqb_eq; exact Hmod).
  replace (0 <? FusionPolicy.announcement_count (FusionModule.policy self))%Z
    with true by (symmetry; apply Z.ltb_lt; exact Hpos).
  reflexivity.
Qed.

(** X23.  A track that the stability monitor has not seen, or whose latest
    [TrackUpdate] was not stable, is announced only for critical guidance:
    after any run from a fresh module, a guidance for such a track yields
    one announcement if its urgency is critical and none otherwise,
    whatever the cooldown. *)
Theorem X23_unstable_track_announced_only_if_critical :
  forall (F : Type) (pre : list (FusionModule.event F)) (cooldown_ms : Z)
         (g : NavigationGuidance),
    latest_stable pre (ng_track_id g) = false ->
    exists self out self' out',
      FusionModule.run FusionModule.init pre = Some (self, out) /\
      FusionModule.process_guidance self cooldown_ms g = Some (self', out') /\
      announcements_in out'
      = (if (ng_urgency g =? "critical")%string then 1 else 0)%Z.
Proof.
  intros F pre cooldown_ms g Hst.
  destruct (fusion_run_spec pre FusionModule.init)
    as (self & out & Hr & _ & _ & Hstable & _).
  specialize (Hstable (ng_track_id g)).
  change (fold_left _ pre _) with (latest_stable pre (ng_track_id g))
    in Hstable.
  rewrite Hst in Hstable.
  exists self, out. eexists. eexists. split; [exact Hr|].
  split; [apply process_guidance_spec|].
  rewrite announcements_in_step, Hstable.
  unfold FusionPolicy.should_announce.
  destruct (ng_urgency g =? "critical")%string; reflexivity.
Qed.

Lemma X23_witness :
  let tu : TrackUpdate Q :=
    {| tu_track_id := 1; tu_frame_id := 0; tu_timestamp_ms := 0;
       tu_label := "person"; tu_bbox := (1#10, 1#10, 1#10, 1#10);
       tu_stable := false; tu_velocity := None |} in
  let g :=
    {| ng_timestamp_ms := 33; ng_track_id := 1; ng_label := "person";
       ng_direction := "left"; ng_zone := "near"; ng_movement := "stationary";
       ng_urgency := "high"; ng_guidance_text := "person nearby on left" |} in
  exists self out self' out',
    FusionModule.run FusionModule.init [FusionModule.TrackEvent tu]
    = Some (self, out) /\
    FusionModule.process_guidance self 3000 g = Some (self', out') /\
    announcements_in out' = 0%Z.
Proof.
  cbv zeta.
  exact (@X23_unstable_track_announced_only_if_critical Q
           [FusionModule.TrackEvent
              {| tu_track_id := 1; tu_frame_id := 0; tu_timestamp_ms := 0;
                 tu_label := "person"; tu_bbox := (1#10, 1#10, 1#10, 1#10);
                 tu_stable := false; tu_velocity := None |}]
           3000
           {| ng_timestamp_ms := 33; ng_track_id := 1; ng_label := "person";
              ng_direction := "left"; ng_zone := "near";
              ng_movement := "stationary"; ng_urgency := "high";
              ng_guidance_text := "person nearby on left" |}
           eq_refl).
Defined.

(** X22 on a run: a hundred critical announcements bring the count to 100;
    two guidances for an unknown track are then declined, and each of them
    publishes the metric again. *)
Lemma X22_witness :
  let critical :=
    {| ng_timestamp_ms := 0; ng_track_id := 1; ng_label := "person";
       ng_direction := "center"; ng_zone := "near";
       ng_movement := "approaching"; ng_urgency := "critical";
       ng_guidance_text := "person very close, center" |} in
  let declined :=
    {| ng_timestamp_ms := 40; ng_track_id := 2; ng_label := "door";
       ng_direction := "right"; ng_zone := "far"; ng_movement := "stationary";
       ng_urgency := "low"; ng_guidance_text := "door right" |} in
  let metric :=
    FusionModule.Metric
      {| sm_timestamp_ms := 40; sm_name := "fusion.announcements.count";
         sm_value := 100 |} in
  exists self out,
    FusionModule.run (F:=Q) FusionModule.init
      (repeat (FusionModule.GuidanceEvent 3000 critical) 100)
    = Some (self, out) /\
    FusionPolicy.announcement_count (FusionModule.policy self) = 100%Z /\
    FusionModule.run (F:=Q) self
      [FusionModule.GuidanceEvent 3000 declined;
       FusionModule.GuidanceEvent 3000 declined]
    = Some (self, [metric; metric]).
Proof.
  cbv zeta. eexists. eexists. split; [vm_compute; reflexivity|].
  split; [reflexivity|].
  refine (@X22_metric_repeated_at_multiple_of_100 Q _
            [(3000%Z, _); (3000%Z, _)] _ _ _).
  - reflexivity.
  - reflexivity.
  - repeat constructor.
Defined.

(** X24.  The cooldown is kept per track.  Suppose a guidance [g1] was
    announced, then any number of track updates and of guidances for other
    tracks were processed, and a guidance [g2] for the track of [g1]
    arrives that is not critical while the track is recorded as stable.
    Then [g2] is announced exactly when at least [cooldown_ms] (as read in
    its iteration) have passed since the timestamp of [g1]. *)
Theorem X24_cooldown_since_last_announcement_of_track :
  forall (F : Type) (self self1 self2 : FusionModule.t)
         (out1 out2 : list FusionModule.published)
         (c1 c2 : Z) (g1 g2 : NavigationGuidance)
         (mid : list (FusionModule.event F)),
    FusionModule.process_guidance self c1 g1 = Some (self1, out1) ->
    announcements_in out1 = 1%Z ->
    FusionModule.run self1 mid = Some (self2, out2) ->
    Forall (fun ev => match ev with
                      | FusionModule.TrackEvent _ => True
                      | FusionModule.GuidanceEvent _ g =>
                          ng_track_id g <> ng_track_id g1
                      end) mid ->
    ng_track_id g2 = ng_track_id g1 ->
    ng_urgency g2 <> "critical"%string ->
    dict_get (ng_track_id g1) (FusionModule.track_stability self2)
    = Some true ->
    exists self3 out3,
      FusionModule.process_guidance self2 c2 g2 = Some (self3, out3) /\
      announcements_in out3
      = (if (c2 <=? ng_timestamp_ms g2 - ng_timestamp_ms g1)%Z
         then 1 else 0)%Z.
Proof.
  intros F self self1 self2 out1 out2 c1 c2 g1 g2 mid
    Hstep1 Hann Hrun Hmid Hid Hurg Hstable.
  rewrite process_guidance_spec in Hstep1.
  injection Hstep1 as Hself1 Hout1.
  rewrite <- Hout1, announcements_in_step in Hann.
  destruct (FusionPolicy.should_announce (FusionModule.policy self)
              (ng_track_id g1) (ng_timestamp_ms g1) (ng_urgency g1) _ c1);
    [|discriminate].
  destruct (fusion_run_spec mid self1) as (s & o & Hr & _ & _ & _ & Hla).
  rewrite Hrun in Hr. injection Hr as <- <-.
  specialize (Hla (ng_track_id g1) Hmid).
  rewrite <- Hself1 in Hla. simpl in Hla. rewrite dict_get_set_same in Hla.
  eexists. eexists. split; [apply process_guidance_spec|].
  rewrite announcements_in_step.
  unfold FusionPolicy.should_announce.
  rewrite (proj2 (String.eqb_neq _ _) Hurg), Hid, Hstable, Hla. simpl.
  destruct (Z.ltb_spec (ng_timestamp_ms g2 - ng_timestamp_ms g1) c2);
    destruct (Z.leb_spec c2 (ng_timestamp_ms g2 - ng_timestamp_ms g1));
    reflexivity || lia.
Qed.

(** X24 on a run: track 1 is stable and announced at 1000 ms; after a
    guidance for track 2, track 1 is declined at 3500 ms and announced at
    4000 ms under a cooldown of 3000 ms. *)
Lemma X24_witness :
  let tu : TrackUpdate Q :=
    {| tu_track_id := 1; tu_frame_id := 3; tu_timestamp_ms := 990;
       tu_label := "person"; tu_bbox := (1#10, 1#10, 1#10, 1#10);
       tu_stable := true; tu_velocity := None |} in
  let guidance (track_id timestamp_ms : Z) :=
    {| ng_timestamp_ms := timestamp_ms; ng_track_id := track_id;
       ng_label := "person"; ng_direction := "left"; ng_zone := "near";
       ng_movement := "stationary"; ng_urgency := "high";
       ng_guidance_text := "person nearby on left" |} in
  let self := FusionModule.monitor_track_stability FusionModule.init tu in
  exists self1 out1 self2 out2,
    FusionModule.process_guidance self 3000 (guidance 1 1000)%Z
    = Some (self1, out1) /\
    FusionModule.run (F:=Q) self1
      [FusionModule.GuidanceEvent 3000 (guidance 2 2000)%Z]
    = Some (self2, out2) /\
    (exists self3 out3,
        FusionModule.process_guidance self2 3000 (guidance 1 3500)%Z
        = Some (self3, out3) /\ announcements_in out3 = 0%Z) /\
    (exists self3 out3,
        FusionModule.process_guidance self2 3000 (guidance 1 4000)%Z
        = Some (self3, out3) /\ announcements_in out3 = 1%Z).
Proof.
  cbv zeta. eexists. eexists. eexists. eexists.
  split; [vm_compute; reflexivity|].
  split; [vm_compute; reflexivity|].
  split.
  - eapply (@X24_cooldown_since_last_announcement_of_track Q)
      with (self := FusionModule.monitor_track_stability (F:=Q)
                      FusionModule.init
                      {| tu_track_id := 1; tu_frame_id := 3;
                         tu_timestamp_ms := 990; tu_label := "person";
                         tu_bbox := (1#10, 1#10, 1#10, 1#10);
                         tu_stable := true; tu_velocity := None |})
           (c1 := 3000%Z)
           (g1 := {| ng_timestamp_ms := 1000; ng_track_id := 1;
                     ng_label := "person"; ng_direction := "left";
                     ng_zone := "near"; ng_movement := "stationary";
                     ng_urgency := "high";
                     ng_guidance_text := "person nearby on left" |})
           (mid := [FusionModule.GuidanceEvent 3000
                      {| ng_timestamp_ms := 2000; ng_track_id := 2;
                         ng_label := "person"; ng_direction := "left";
                         ng_zone := "near"; ng_movement := "stationary";
                         ng_urgency := "high";
                         ng_guidance_text := "person nearby on left" |}]).
    + vm_compute. reflexivity.
    + reflexivity.
    + vm_compute. reflexivity.
    + constructor; [simpl; discriminate|constructor].
    + reflexivity.
    + simpl. discriminate.
    + reflexivity.
  - vm_compute. eexists. eexists. split; reflexivity.
Defined.

(** X25.  A near and approaching object is always announced, at once and
    with the highest priority.  When the navigation step rates an event
    critical, the fusion step announces its guidance in every state and
    under every cooldown, whether or not the track is stable: the
    announcement comes first among what is published, has priority 1 and
    the text "<label> very close, <direction>", and the track's last
    announcement time becomes the event's timestamp. *)
Theorem X25_critical_guidance_is_always_announced :
  forall (F : Type) (PF : PyFloat F)
         (track_history track_history' : NavigationModule.t (F:=F))
         (e : TrackUpdate F) (g : NavigationGuidance)
         (self : FusionModule.t) (cooldown_ms : Z),
    NavigationModule.process_track track_history e
    = Some (track_history', g) ->
    ng_urgency g = "critical"%string ->
    exists self' rest,
      FusionModule.process_guidance self cooldown_ms g
      = Some (self',
              FusionModule.Announcement
                {| fa_timestamp_ms := tu_timestamp_ms e;
                   fa_text :=
                     (tu_label e ++ " very close, "
                      ++ Spatial.analyze_direction (tu_bbox e))%string;
                   fa_kind := FusionPolicy.get_announcement_kind (tu_label e);
                   fa_priority := 1 |} :: rest) /\
      dict_get (tu_track_id e)
        (FusionPolicy.last_announced (FusionModule.policy self'))
      = Some (tu_timestamp_ms e).
Proof.
  intros F PF th th' e g self cooldown_ms Hnav Hcrit.
  rewrite process_track_spec in Hnav. injection Hnav as _ Hg.
  subst g. cbn [ng_urgency] in Hcrit.
  pose proof (proj1 (compute_urgency_critical _ _) Hcrit) as [Hz Hm].
  rewrite process_guidance_spec.
  cbn [ng_urgency ng_track_id ng_timestamp_ms ng_label ng_guidance_text].
  rewrite Hcrit.
  unfold FusionPolicy.should_announce at 1 2 3 4.
  change ("critical" =? "critical")%string with true. cbv iota.
  eexists. eexists. split.
  - cbn [app]. f_equal. f_equal. f_equal. f_equal.
    unfold Guidance.generate_guidance_text. rewrite Hz, Hm. reflexivity.
  - cbn [FusionModule.policy FusionPolicy.record_announcement
           FusionPolicy.last_announced].
    apply dict_get_set_same.
Qed.

(** X25 at a track whose box grows from 0.3 x 0.4 to 0.5 x 0.5. *)
Lemma X25_witness :
  let track_history : NavigationModule.t (F:=Q) :=
    [(7%Z, [{| h_bbox := (2#10, 2#10, 3#10, 4#10); h_frame_id := 0;
               h_timestamp_ms := 0 |}])] in
  let e : TrackUpdate Q :=
    {| tu_track_id := 7; tu_frame_id := 1; tu_timestamp_ms := 33;
       tu_label := "person"; tu_bbox := (2#10, 2#10, 5#10, 5#10);
       tu_stable := false; tu_velocity := None |} in
  exists track_history' g self' rest,
    NavigationModule.process_track track_history e
    = Some (track_history', g) /\
    ng_urgency g = "critical"%string /\
    FusionModule.process_guidance FusionModule.init 3000 g
    = Some (self',
            FusionModule.Announcement
              {| fa_timestamp_ms := 33; fa_text := "person very close, center";
                 fa_kind := "object"; fa_priority := 1 |} :: rest).
Proof.
  cbv zeta.
  assert (Hnav : exists th' g,
             NavigationModule.process_track (F:=Q)
               [(7%Z, [{| h_bbox := (2#10, 2#10, 3#10, 4#10); h_frame_id := 0;
                          h_timestamp_ms := 0 |}])]
               {| tu_track_id := 7; tu_frame_id := 1; tu_timestamp_ms := 33;
                  tu_label := "person"; tu_bbox := (2#10, 2#10, 5#10, 5#10);
                  tu_stable := false; tu_velocity := None |}
             = Some (th', g) /\ ng_urgency g = "critical"%string)
    by (eexists; eexists; split; vm_compute; reflexivity).
  destruct Hnav as (th' & g & Hnav & Hcrit).
  destruct (@X25_critical_guidance_is_always_announced Q _ _ _ _ _
              FusionModule.init 3000 Hnav Hcrit)
    as (self' & rest & Hrun & _).
  exists th', g, self', rest.
  split; [exact Hnav|]. split; [exact Hcrit|]. exact Hrun.
Defined.

(** ** Snapshots of the control state *)

Section Snapshot.
Context {Value : Type}.
Variable class_ns : dict string Value.






End Snapshot.



(** ** The navigation and fusion stages on binary64 floats

    Two updates of track 7, the box growing from 0.3 x 0.4 to 0.5 x 0.5:
    the first guidance is stationary, in the middle zone and of low
    urgency, the second is near, approaching and critical; fusion, which
    has not seen the track as stable, announces the second one only. *)
Example navigation_fusion_scenario_binary64 :
  let event (frame_id : Z) (w h : PrimFloat.float)
      : TrackUpdate PrimFloat.float :=
    {| tu_track_id := 7; tu_frame_id := frame_id;
       tu_timestamp_ms := (frame_id * 33)%Z; tu_label := "person";
       tu_bbox := (flit 2 10, flit 2 10, w, h);
       tu_stable := false; tu_velocity := None |} in
  let guidance (timestamp_ms : Z) (zone movement urgency text : string) :=
    {| ng_timestamp_ms := timestamp_ms; ng_track_id := 7;
       ng_label := "person"; ng_direction := "center"; ng_zone := zone;
       ng_movement := movement; ng_urgency := urgency;
       ng_guidance_text := text |} in
  let first :=
    guidance 0%Z "mid"%string "stationary"%string "low"%string
      "person ahead on center"%string in
  let second :=
    guidance 33%Z "near"%string "approaching"%string "critical"%string
      "person very close, center"%string in
  option_map snd
    (NavigationModule.process_tracks NavigationModule.init
       [event 0%Z (flit 3 10) (flit 4 10); event 1%Z (flit 5 10) (flit 5 10)])
  = Some [first; second] /\
  option_map snd
    (FusionModule.run (F:=PrimFloat.float) FusionModule.init
       [FusionModule.GuidanceEvent 3000 first;
        FusionModule.GuidanceEvent 3000 second])
  = Some [FusionModule.Announcement
            {| fa_timestamp_ms := 33; fa_text := "person very close, center";
               fa_kind := "object"; fa_priority := 1 |}].
Proof. cbv zeta. split; vm_compute; reflexivity. Qed.
